(** * Passing and ritase counters of the excavator detection pipeline

    Shallow embedding of [backend/penghitung_passing.py] and
    [backend/penghitung_ritase.py].

    - Python [int] is [Z]; Python [float] is the IEEE binary64 type
      [PrimFloat.float], compared with [<?] and [<=?] as Python compares.
    - A [Dict[int, ...]] is a [gmap Z ...], a [Set[str]] a [gset string];
      [defaultdict(list)] is a [gmap Z (list ...)] read with default [[]].
    - A method mutating [self] is a function from the state to a result and
      the next state. *)

From Stdlib Require Import ZArith Floats.
From stdpp Require Import base decidable option list strings pretty gmap fin_maps sorting.

Local Open Scope Z_scope.
Set Warnings "-inexact-float".

(** ** Detection identities *)

(** [f"{tracker_id}_{frame_index}"] *)
Definition buat_id (tracker_id frame_index : Z) : string :=
  pretty tracker_id +:+ "_" +:+ pretty frame_index.

(** * backend/penghitung_passing.py *)

Module Passing.

Definition CLASS_BUCKET_DUMPING : Z := 2.

Record DumpDeteksi := {
  dd_dump_id : string;
  dd_frame_index : Z;
  dd_confidence : float }.

Record BestDump := {
  bd_dump_id : string;
  bd_frame_index : Z;
  bd_confidence : float }.

Record ExcavatorData := {
  passing_count : Z;
  best_dump : option BestDump }.

Record PenghitungPassing := {
  excavators : gmap Z ExcavatorData;
  counted_dumps : gset string;
  min_confidence : float;
  total_passing : Z;
  active_cycle : gmap Z (list DumpDeteksi) }.

(** [__init__] *)
Definition init (min_conf : float) : PenghitungPassing :=
  {| excavators := ∅; counted_dumps := ∅; min_confidence := min_conf;
     total_passing := 0; active_cycle := ∅ |}.

Definition set_excavators (m : gmap Z ExcavatorData) (self : PenghitungPassing) :=
  {| excavators := m; counted_dumps := counted_dumps self;
     min_confidence := min_confidence self;
     total_passing := total_passing self; active_cycle := active_cycle self |}.

Definition set_counted_dumps (c : gset string) (self : PenghitungPassing) :=
  {| excavators := excavators self; counted_dumps := c;
     min_confidence := min_confidence self;
     total_passing := total_passing self; active_cycle := active_cycle self |}.

Definition set_total_passing (n : Z) (self : PenghitungPassing) :=
  {| excavators := excavators self; counted_dumps := counted_dumps self;
     min_confidence := min_confidence self;
     total_passing := n; active_cycle := active_cycle self |}.

Definition set_active_cycle (a : gmap Z (list DumpDeteksi)) (self : PenghitungPassing) :=
  {| excavators := excavators self; counted_dumps := counted_dumps self;
     min_confidence := min_confidence self;
     total_passing := total_passing self; active_cycle := a |}.

(** The entry [_inisialisasi_excavator] stores. *)
Definition excavator_baru : ExcavatorData :=
  {| passing_count := 0; best_dump := None |}.

(** [_inisialisasi_excavator] *)
Definition inisialisasi_excavator (tracker_id : Z) (self : PenghitungPassing) :=
  set_excavators (<[tracker_id := excavator_baru]> (excavators self)) self.

(** The first two statements of [proses_deteksi]: create the entry when the
    tracker is unknown, then read [self.excavators[tracker_id]]. *)
Definition ambil_excavator (tracker_id : Z) (self : PenghitungPassing)
  : ExcavatorData * PenghitungPassing :=
  match excavators self !! tracker_id with
  | Some excavator => (excavator, self)
  | None => (excavator_baru, inisialisasi_excavator tracker_id self)
  end.

(** [self.active_cycle[tracker_id].append(d)] on a [defaultdict(list)]. *)
Definition tambah_siklus_aktif (tracker_id : Z) (d : DumpDeteksi)
    (a : gmap Z (list DumpDeteksi)) : gmap Z (list DumpDeteksi) :=
  <[tracker_id := default [] (a !! tracker_id) ++ [d]]> a.

(** [proses_deteksi]: the returned boolean and the state after the call. *)
Definition proses_deteksi (tracker_id class_id frame_index : Z)
    (confidence : float) (self : PenghitungPassing) : bool * PenghitungPassing :=
  let '(excavator, self) := ambil_excavator tracker_id self in
  if decide (class_id = CLASS_BUCKET_DUMPING) then
    let dump_id := buat_id tracker_id frame_index in
    if bool_decide (dump_id ∈ counted_dumps self)
       || (confidence <? min_confidence self)%float
    then (false, self)
    else
      let self :=
        set_active_cycle
          (tambah_siklus_aktif tracker_id
             {| dd_dump_id := dump_id; dd_frame_index := frame_index;
                dd_confidence := confidence |} (active_cycle self)) self in
      let lebih_baik :=
        match best_dump excavator with
        | None => true
        | Some b => (bd_confidence b <? confidence)%float
        end in
      let '(is_new_passing, self) :=
        if lebih_baik then
          let old_best := best_dump excavator in
          let baru := {| bd_dump_id := dump_id; bd_frame_index := frame_index;
                         bd_confidence := confidence |} in
          match old_best with
          | None =>
              (true,
               set_total_passing (total_passing self + 1)
                 (set_excavators
                    (<[tracker_id :=
                         {| passing_count := passing_count excavator + 1;
                            best_dump := Some baru |}]> (excavators self)) self))
          | Some _ =>
              (false,
               set_excavators
                 (<[tracker_id :=
                      {| passing_count := passing_count excavator;
                         best_dump := Some baru |}]> (excavators self)) self)
          end
        else (false, self) in
      (is_new_passing, set_counted_dumps ({[dump_id]} ∪ counted_dumps self) self)
  else (false, self).

(** [selesaikan_siklus] *)
Definition selesaikan_siklus (tracker_id : Z) (self : PenghitungPassing) :=
  match active_cycle self !! tracker_id with
  | Some _ =>
      let self := set_active_cycle (<[tracker_id := []]> (active_cycle self)) self in
      match excavators self !! tracker_id with
      | Some e =>
          set_excavators
            (<[tracker_id := {| passing_count := passing_count e;
                                best_dump := None |}]> (excavators self)) self
      | None => self
      end
  | None => self
  end.

(** [dapatkan_passing_count] *)
Definition dapatkan_passing_count (tracker_id : option Z) (self : PenghitungPassing) : Z :=
  match tracker_id with
  | None => total_passing self
  | Some t =>
      match excavators self !! t with
      | Some e => passing_count e
      | None => 0
      end
  end.

(** [dapatkan_statistik]: the total and the per-excavator detail. *)
Definition dapatkan_statistik (self : PenghitungPassing)
  : Z * gmap Z (Z * option BestDump) :=
  (total_passing self, (λ e, (passing_count e, best_dump e)) <$> excavators self).

(** [reset_all_counters] *)
Definition reset_all_counters (self : PenghitungPassing) : PenghitungPassing :=
  {| excavators := (λ _, {| passing_count := 0; best_dump := None |}) <$> excavators self;
     counted_dumps := ∅;
     min_confidence := min_confidence self;
     total_passing := 0;
     active_cycle := ∅ |}.

End Passing.

(** * backend/penghitung_ritase.py *)

Module Ritase.

Definition CLASS_TRUCK_FULL : Z := 6.
Definition CLASS_BUCKET_DUMPING : Z := 2.

Record FullDeteksi := {
  fd_full_truck_id : string;
  fd_frame_index : Z;
  fd_confidence : float }.

(** The value of a truck's ["best_full"]. *)
Record BestFull := {
  bf_full_truck_id : string;
  bf_frame_index : Z;
  bf_confidence : float;
  bf_cycle_number : Z }.

(** The dict [proses_deteksi] stores in [ritase_terbaik_di_siklus]: it is keyed
    by ["tracker_id"], not by ["full_truck_id"]. *)
Record RitaseTerbaik := {
  rt_tracker_id : Z;
  rt_frame_index : Z;
  rt_confidence : float;
  rt_cycle_number : Z }.

Record TruckData := {
  ritase_count : Z;
  best_full : option BestFull;
  last_cycle_frame : Z;
  last_cycle_number : Z }.

Record KandidatInfo := {
  ki_tracker_id : Z;
  ki_frame_index : Z;
  ki_confidence : float;
  ki_status : string }.

Record PenghitungRitase := {
  data_truk : gmap Z TruckData;
  truk_full_terhitung : gset string;
  ambang_kepercayaan : float;
  total_ritase : Z;
  siklus_aktif : gmap Z (list FullDeteksi);
  total_siklus_selesai : Z;
  total_deteksi_truk_penuh : Z;
  siklus_berjalan_punya_ritase : bool;
  ritase_terbaik_di_siklus : option RitaseTerbaik;
  nomor_siklus : Z;
  total_pencegahan_ganda : Z;
  kandidat_siklus : list KandidatInfo }.

(** [__init__] *)
Definition init (min_conf : float) : PenghitungRitase :=
  {| data_truk := ∅; truk_full_terhitung := ∅; ambang_kepercayaan := min_conf;
     total_ritase := 0; siklus_aktif := ∅; total_siklus_selesai := 0;
     total_deteksi_truk_penuh := 0; siklus_berjalan_punya_ritase := false;
     ritase_terbaik_di_siklus := None; nomor_siklus := 0;
     total_pencegahan_ganda := 0; kandidat_siklus := [] |}.

Definition set_data_truk (m : gmap Z TruckData) (self : PenghitungRitase) :=
  {| data_truk := m; truk_full_terhitung := truk_full_terhitung self;
     ambang_kepercayaan := ambang_kepercayaan self; total_ritase := total_ritase self;
     siklus_aktif := siklus_aktif self; total_siklus_selesai := total_siklus_selesai self;
     total_deteksi_truk_penuh := total_deteksi_truk_penuh self;
     siklus_berjalan_punya_ritase := siklus_berjalan_punya_ritase self;
     ritase_terbaik_di_siklus := ritase_terbaik_di_siklus self;
     nomor_siklus := nomor_siklus self;
     total_pencegahan_ganda := total_pencegahan_ganda self;
     kandidat_siklus := kandidat_siklus self |}.

Definition set_truk_full_terhitung (c : gset string) (self : PenghitungRitase) :=
  {| data_truk := data_truk self; truk_full_terhitung := c;
     ambang_kepercayaan := ambang_kepercayaan self; total_ritase := total_ritase self;
     siklus_aktif := siklus_aktif self; total_siklus_selesai := total_siklus_selesai self;
     total_deteksi_truk_penuh := total_deteksi_truk_penuh self;
     siklus_berjalan_punya_ritase := siklus_berjalan_punya_ritase self;
     ritase_terbaik_di_siklus := ritase_terbaik_di_siklus self;
     nomor_siklus := nomor_siklus self;
     total_pencegahan_ganda := total_pencegahan_ganda self;
     kandidat_siklus := kandidat_siklus self |}.

Definition set_total_ritase (n : Z) (self : PenghitungRitase) :=
  {| data_truk := data_truk self; truk_full_terhitung := truk_full_terhitung self;
     ambang_kepercayaan := ambang_kepercayaan self; total_ritase := n;
     siklus_aktif := siklus_aktif self; total_siklus_selesai := total_siklus_selesai self;
     total_deteksi_truk_penuh := total_deteksi_truk_penuh self;
     siklus_berjalan_punya_ritase := siklus_berjalan_punya_ritase self;
     ritase_terbaik_di_siklus := ritase_terbaik_di_siklus self;
     nomor_siklus := nomor_siklus self;
     total_pencegahan_ganda := total_pencegahan_ganda self;
     kandidat_siklus := kandidat_siklus self |}.

Definition set_siklus_aktif (a : gmap Z (list FullDeteksi)) (self : PenghitungRitase) :=
  {| data_truk := data_truk self; truk_full_terhitung := truk_full_terhitung self;
     ambang_kepercayaan := ambang_kepercayaan self; total_ritase := total_ritase self;
     siklus_aktif := a; total_siklus_selesai := total_siklus_selesai self;
     total_deteksi_truk_penuh := total_deteksi_truk_penuh self;
     siklus_berjalan_punya_ritase := siklus_berjalan_punya_ritase self;
     ritase_terbaik_di_siklus := ritase_terbaik_di_siklus self;
     nomor_siklus := nomor_siklus self;
     total_pencegahan_ganda := total_pencegahan_ganda self;
     kandidat_siklus := kandidat_siklus self |}.

Definition set_total_deteksi_truk_penuh (n : Z) (self : PenghitungRitase) :=
  {| data_truk := data_truk self; truk_full_terhitung := truk_full_terhitung self;
     ambang_kepercayaan := ambang_kepercayaan self; total_ritase := total_ritase self;
     siklus_aktif := siklus_aktif self; total_siklus_selesai := total_siklus_selesai self;
     total_deteksi_truk_penuh := n;
     siklus_berjalan_punya_ritase := siklus_berjalan_punya_ritase self;
     ritase_terbaik_di_siklus := ritase_terbaik_di_siklus self;
     nomor_siklus := nomor_siklus self;
     total_pencegahan_ganda := total_pencegahan_ganda self;
     kandidat_siklus := kandidat_siklus self |}.

Definition set_siklus_berjalan_punya_ritase (b : bool) (self : PenghitungRitase) :=
  {| data_truk := data_truk self; truk_full_terhitung := truk_full_terhitung self;
     ambang_kepercayaan := ambang_kepercayaan self; total_ritase := total_ritase self;
     siklus_aktif := siklus_aktif self; total_siklus_selesai := total_siklus_selesai self;
     total_deteksi_truk_penuh := total_deteksi_truk_penuh self;
     siklus_berjalan_punya_ritase := b;
     ritase_terbaik_di_siklus := ritase_terbaik_di_siklus self;
     nomor_siklus := nomor_siklus self;
     total_pencegahan_ganda := total_pencegahan_ganda self;
     kandidat_siklus := kandidat_siklus self |}.

Definition set_ritase_terbaik_di_siklus (b : option RitaseTerbaik)
    (self : PenghitungRitase) :=
  {| data_truk := data_truk self; truk_full_terhitung := truk_full_terhitung self;
     ambang_kepercayaan := ambang_kepercayaan self; total_ritase := total_ritase self;
     siklus_aktif := siklus_aktif self; total_siklus_selesai := total_siklus_selesai self;
     total_deteksi_truk_penuh := total_deteksi_truk_penuh self;
     siklus_berjalan_punya_ritase := siklus_berjalan_punya_ritase self;
     ritase_terbaik_di_siklus := b;
     nomor_siklus := nomor_siklus self;
     total_pencegahan_ganda := total_pencegahan_ganda self;
     kandidat_siklus := kandidat_siklus self |}.

Definition set_total_pencegahan_ganda (n : Z) (self : PenghitungRitase) :=
  {| data_truk := data_truk self; truk_full_terhitung := truk_full_terhitung self;
     ambang_kepercayaan := ambang_kepercayaan self; total_ritase := total_ritase self;
     siklus_aktif := siklus_aktif self; total_siklus_selesai := total_siklus_selesai self;
     total_deteksi_truk_penuh := total_deteksi_truk_penuh self;
     siklus_berjalan_punya_ritase := siklus_berjalan_punya_ritase self;
     ritase_terbaik_di_siklus := ritase_terbaik_di_siklus self;
     nomor_siklus := nomor_siklus self;
     total_pencegahan_ganda := n;
     kandidat_siklus := kandidat_siklus self |}.

Definition set_kandidat_siklus (l : list KandidatInfo) (self : PenghitungRitase) :=
  {| data_truk := data_truk self; truk_full_terhitung := truk_full_terhitung self;
     ambang_kepercayaan := ambang_kepercayaan self; total_ritase := total_ritase self;
     siklus_aktif := siklus_aktif self; total_siklus_selesai := total_siklus_selesai self;
     total_deteksi_truk_penuh := total_deteksi_truk_penuh self;
     siklus_berjalan_punya_ritase := siklus_berjalan_punya_ritase self;
     ritase_terbaik_di_siklus := ritase_terbaik_di_siklus self;
     nomor_siklus := nomor_siklus self;
     total_pencegahan_ganda := total_pencegahan_ganda self;
     kandidat_siklus := l |}.

(** The entry [_inisialisasi_truck] stores. *)
Definition truck_baru : TruckData :=
  {| ritase_count := 0; best_full := None; last_cycle_frame := 0;
     last_cycle_number := -1 |}.

(** [_inisialisasi_truck] *)
Definition inisialisasi_truck (tracker_id : Z) (self : PenghitungRitase) :=
  set_data_truk (<[tracker_id := truck_baru]> (data_truk self)) self.

(** [if tracker_id not in self.data_truk: self._inisialisasi_truck(tracker_id)] *)
Definition pastikan_truck (tracker_id : Z) (self : PenghitungRitase) :=
  match data_truk self !! tracker_id with
  | Some _ => self
  | None => inisialisasi_truck tracker_id self
  end.

(** [d["ritase_count"] = max(0, int(d["ritase_count"]) - 1)] *)
Definition kurangi_ritase (d : TruckData) : TruckData :=
  {| ritase_count := Z.max 0 (ritase_count d - 1); best_full := best_full d;
     last_cycle_frame := last_cycle_frame d;
     last_cycle_number := last_cycle_number d |}.

(** [d["ritase_count"] = int(d["ritase_count"]) + 1; d["best_full"] = b] *)
Definition tambah_ritase (b : BestFull) (d : TruckData) : TruckData :=
  {| ritase_count := ritase_count d + 1; best_full := Some b;
     last_cycle_frame := last_cycle_frame d;
     last_cycle_number := last_cycle_number d |}.

(** [selesaikan_siklus] *)
Definition selesaikan_siklus (tracker_id : Z) (self : PenghitungRitase) :=
  match siklus_aktif self !! tracker_id with
  | Some _ =>
      let self := set_siklus_aktif (<[tracker_id := []]> (siklus_aktif self)) self in
      match data_truk self !! tracker_id with
      | Some d =>
          set_data_truk
            (<[tracker_id := {| ritase_count := ritase_count d; best_full := None;
                                last_cycle_frame := 0;
                                last_cycle_number := nomor_siklus self |}]>
               (data_truk self)) self
      | None => self
      end
  | None => self
  end.

(** [[tid for tid, dets in self.siklus_aktif.items() if len(dets) > 0]] *)
Definition truk_dengan_siklus_aktif (self : PenghitungRitase) : list Z :=
  (filter (λ p : Z * list FullDeteksi, (0 < length p.2)%nat)
     (map_to_list (siklus_aktif self))).*1.

(** [_selesaikan_siklus_global] *)
Definition selesaikan_siklus_global (self : PenghitungRitase) : PenghitungRitase :=
  let aktif := truk_dengan_siklus_aktif self in
  let self := foldl (λ acc id_truk, selesaikan_siklus id_truk acc) self aktif in
  if bool_decide (aktif ≠ []) || siklus_berjalan_punya_ritase self then
    {| data_truk := data_truk self; truk_full_terhitung := truk_full_terhitung self;
       ambang_kepercayaan := ambang_kepercayaan self; total_ritase := total_ritase self;
       siklus_aktif := siklus_aktif self;
       total_siklus_selesai := total_siklus_selesai self + 1;
       total_deteksi_truk_penuh := total_deteksi_truk_penuh self;
       siklus_berjalan_punya_ritase := false;
       ritase_terbaik_di_siklus := None;
       nomor_siklus := nomor_siklus self + 1;
       total_pencegahan_ganda := total_pencegahan_ganda self;
       kandidat_siklus := [] |}
  else self.

(** [proses_deteksi]: the returned boolean and the state after the call.
    The local [data_truk] of the source is the dict stored under [tracker_id];
    writing through it updates that entry of the map as it is at that moment. *)
Definition proses_deteksi (tracker_id class_id frame_index : Z)
    (confidence : float) (self : PenghitungRitase) : bool * PenghitungRitase :=
  let self := pastikan_truck tracker_id self in
  if decide (class_id = CLASS_TRUCK_FULL) then
    let self := set_total_deteksi_truk_penuh (total_deteksi_truk_penuh self + 1) self in
    if siklus_berjalan_punya_ritase self then
      let kandidat_lebih_baik :=
        match ritase_terbaik_di_siklus self with
        | None => true
        | Some b => (rt_confidence b <? confidence)%float
        end in
      let self :=
        if kandidat_lebih_baik then
          let kandidat_lama := ritase_terbaik_di_siklus self in
          let self :=
            set_ritase_terbaik_di_siklus
              (Some {| rt_tracker_id := tracker_id; rt_frame_index := frame_index;
                       rt_confidence := confidence;
                       rt_cycle_number := nomor_siklus self |}) self in
          let self :=
            match kandidat_lama with
            | Some lama =>
                let id_truk_lama := rt_tracker_id lama in
                match data_truk self !! id_truk_lama with
                | Some d =>
                    set_data_truk
                      (<[id_truk_lama := kurangi_ritase d]> (data_truk self)) self
                | None => self
                end
            | None => self
            end in
          set_data_truk
            (alter
               (tambah_ritase
                  {| bf_full_truck_id := buat_id tracker_id frame_index;
                     bf_frame_index := frame_index; bf_confidence := confidence;
                     bf_cycle_number := nomor_siklus self |})
               tracker_id (data_truk self)) self
        else self in
      let self :=
        set_kandidat_siklus
          (kandidat_siklus self ++
             [{| ki_tracker_id := tracker_id; ki_frame_index := frame_index;
                 ki_confidence := confidence;
                 ki_status := if kandidat_lebih_baik then "better_candidate"
                              else "rejected" |}]) self in
      let self := set_total_pencegahan_ganda (total_pencegahan_ganda self + 1) self in
      (false, self)
    else
      let id_truk_full := buat_id tracker_id frame_index in
      if negb (bool_decide (id_truk_full ∈ truk_full_terhitung self))
         && (ambang_kepercayaan self <=? confidence)%float
      then
        let self :=
          set_siklus_aktif
            (<[tracker_id :=
                 default [] (siklus_aktif self !! tracker_id) ++
                   [{| fd_full_truck_id := id_truk_full; fd_frame_index := frame_index;
                       fd_confidence := confidence |}]]> (siklus_aktif self)) self in
        let self := set_siklus_berjalan_punya_ritase true self in
        let self :=
          set_ritase_terbaik_di_siklus
            (Some {| rt_tracker_id := tracker_id; rt_frame_index := frame_index;
                     rt_confidence := confidence;
                     rt_cycle_number := nomor_siklus self |}) self in
        let self :=
          set_data_truk
            (alter
               (tambah_ritase
                  {| bf_full_truck_id := id_truk_full; bf_frame_index := frame_index;
                     bf_confidence := confidence;
                     bf_cycle_number := nomor_siklus self |})
               tracker_id (data_truk self)) self in
        let self := set_total_ritase (total_ritase self + 1) self in
        let self :=
          set_kandidat_siklus
            (kandidat_siklus self ++
               [{| ki_tracker_id := tracker_id; ki_frame_index := frame_index;
                   ki_confidence := confidence;
                   ki_status := "accepted_as_primary" |}]) self in
        let self :=
          set_truk_full_terhitung ({[id_truk_full]} ∪ truk_full_terhitung self) self in
        (true, self)
      else (false, self)
  else if decide (class_id = CLASS_BUCKET_DUMPING) then
    (false, selesaikan_siklus_global self)
  else (false, self).

(** [selesaikan_siklus_manual] *)
Definition selesaikan_siklus_manual (tracker_id frame_index : Z)
    (self : PenghitungRitase) : PenghitungRitase :=
  match data_truk self !! tracker_id with
  | Some d =>
      selesaikan_siklus tracker_id
        (set_data_truk
           (<[tracker_id := {| ritase_count := ritase_count d; best_full := best_full d;
                               last_cycle_frame := frame_index;
                               last_cycle_number := nomor_siklus self |}]>
              (data_truk self)) self)
  | None => self
  end.

(** [dapatkan_ritase_count] *)
Definition dapatkan_ritase_count (tracker_id : option Z) (self : PenghitungRitase) : Z :=
  match tracker_id with
  | None => total_ritase self
  | Some t =>
      match data_truk self !! t with
      | Some d => ritase_count d
      | None => 0
      end
  end.

(** [reset_statistik] *)
Definition reset_statistik (self : PenghitungRitase) : PenghitungRitase :=
  init (ambang_kepercayaan self).

(** [reset_counters] *)
Definition reset_counters (self : PenghitungRitase) : PenghitungRitase :=
  set_total_ritase 0
    (set_data_truk
       ((λ d, {| ritase_count := 0; best_full := None;
                 last_cycle_frame := last_cycle_frame d;
                 last_cycle_number := last_cycle_number d |}) <$> data_truk self) self).

End Ritase.

(** * Feeding a stream of detections *)

(** One detection event, as the frame loop passes it to [proses_deteksi]. *)
Record Deteksi := {
  tracker_id : Z;
  class_id : Z;
  frame_index : Z;
  confidence : float }.

(** The passing counter fed a list of detections in order: the returned
    booleans and the final state. *)
Fixpoint passing_proses_semua (ds : list Deteksi) (self : Passing.PenghitungPassing)
  : list bool * Passing.PenghitungPassing :=
  match ds with
  | [] => ([], self)
  | d :: ds =>
      let '(r, self) :=
        Passing.proses_deteksi (tracker_id d) (class_id d) (frame_index d)
          (confidence d) self in
      let '(rs, self) := passing_proses_semua ds self in
      (r :: rs, self)
  end.

(** The ritase counter fed a list of detections in order. *)
Fixpoint ritase_proses_semua (ds : list Deteksi) (self : Ritase.PenghitungRitase)
  : list bool * Ritase.PenghitungRitase :=
  match ds with
  | [] => ([], self)
  | d :: ds =>
      let '(r, self) :=
        Ritase.proses_deteksi (tracker_id d) (class_id d) (frame_index d)
          (confidence d) self in
      let '(rs, self) := ritase_proses_semua ds self in
      (r :: rs, self)
  end.

(** [sum(f(x) for x in m.values())] *)
Definition jumlah {A} (f : A → Z) (m : gmap Z A) : Z :=
  map_fold (λ _ x acc, f x + acc) 0 m.

(** The number of [True] among returned booleans. *)
Fixpoint banyak_true (rs : list bool) : Z :=
  match rs with
  | [] => 0
  | r :: rs => (if r then 1 else 0) + banyak_true rs
  end.

(** The best candidate of an excavator in the running cycle; an excavator the
    counter has not met has none. *)
Definition best_dump_of (tid : Z) (self : Passing.PenghitungPassing)
  : option Passing.BestDump :=
  match Passing.excavators self !! tid with
  | Some e => Passing.best_dump e
  | None => None
  end.

(** The dump detections of one excavator, from their frames and confidences. *)
Definition dump_beruntun (tid : Z) (fcs : list (Z * float)) : list Deteksi :=
  (λ fc, {| tracker_id := tid; class_id := Passing.CLASS_BUCKET_DUMPING;
            frame_index := fc.1; confidence := fc.2 |}) <$> fcs.

(** [total_passing == sum(e.passing_count for e in excavators.values())] *)
Definition passing_konsisten (self : Passing.PenghitungPassing) : Prop :=
  Passing.total_passing self = jumlah Passing.passing_count (Passing.excavators self).

(** The public methods of [PenghitungPassing]. *)
Inductive OperasiPassing :=
| OpProsesDeteksi (tracker_id class_id frame_index : Z) (confidence : float)
| OpSelesaikanSiklus (tracker_id : Z)
| OpResetAllCounters
| OpDapatkanStatistik
| OpDapatkanPassingCount (tracker_id : option Z).

(** The state a method call leaves; the two query methods assign nothing. *)
Definition jalankan_passing (op : OperasiPassing) (self : Passing.PenghitungPassing)
  : Passing.PenghitungPassing :=
  match op with
  | OpProsesDeteksi t c f x => (Passing.proses_deteksi t c f x self).2
  | OpSelesaikanSiklus t => Passing.selesaikan_siklus t self
  | OpResetAllCounters => Passing.reset_all_counters self
  | OpDapatkanStatistik => let _ := Passing.dapatkan_statistik self in self
  | OpDapatkanPassingCount t => let _ := Passing.dapatkan_passing_count t self in self
  end.

(** The states a passing counter built with threshold [m] can be in. *)
Inductive passing_terjangkau (m : float) : Passing.PenghitungPassing → Prop :=
| terjangkau_init : passing_terjangkau m (Passing.init m)
| terjangkau_langkah op self :
    passing_terjangkau m self → passing_terjangkau m (jalankan_passing op self).

(** [sum(d["ritase_count"] for d in data_truk.values())] *)
Definition jumlah_ritase (self : Ritase.PenghitungRitase) : Z :=
  jumlah Ritase.ritase_count (Ritase.data_truk self).

(** What the running global cycle has credited so far: 1 once it has a
    ritase, 0 before. *)
Definition kredit_siklus (self : Ritase.PenghitungRitase) : Z :=
  if Ritase.siklus_berjalan_punya_ritase self then 1 else 0.

(** The part of the cycle's credit that sits on truck [k]: 1 when the cycle
    has a ritase and its best detection belongs to [k], 0 otherwise. *)
Definition kredit_truk (k : Z) (self : Ritase.PenghitungRitase) : Z :=
  if Ritase.siklus_berjalan_punya_ritase self then
    match Ritase.ritase_terbaik_di_siklus self with
    | Some b => if decide (Ritase.rt_tracker_id b = k) then 1 else 0
    | None => 0
    end
  else 0.

(** No truck has a negative count. *)
Definition hitungan_taknegatif (self : Ritase.PenghitungRitase) : Prop :=
  ∀ k d, Ritase.data_truk self !! k = Some d → 0 ≤ Ritase.ritase_count d.

(** When the cycle has a ritase, its best detection is recorded and the truck
    it belongs to holds a count of at least 1. *)
Definition pemilik_terhitung (self : Ritase.PenghitungRitase) : Prop :=
  Ritase.siklus_berjalan_punya_ritase self = true →
  ∃ b d, Ritase.ritase_terbaik_di_siklus self = Some b
         ∧ Ritase.data_truk self !! Ritase.rt_tracker_id b = Some d
         ∧ 1 ≤ Ritase.ritase_count d.

(** The methods of [PenghitungRitase] that assign to the state. *)
Inductive OperasiRitase :=
| OrProsesDeteksi (tracker_id class_id frame_index : Z) (confidence : float)
| OrSelesaikanSiklus (tracker_id : Z)
| OrSelesaikanSiklusManual (tracker_id frame_index : Z)
| OrResetCounters
| OrResetStatistik.

Definition jalankan_ritase (op : OperasiRitase) (self : Ritase.PenghitungRitase)
  : Ritase.PenghitungRitase :=
  match op with
  | OrProsesDeteksi t c f x => (Ritase.proses_deteksi t c f x self).2
  | OrSelesaikanSiklus t => Ritase.selesaikan_siklus t self
  | OrSelesaikanSiklusManual t f => Ritase.selesaikan_siklus_manual t f self
  | OrResetCounters => Ritase.reset_counters self
  | OrResetStatistik => Ritase.reset_statistik self
  end.

(** The states a ritase counter built with threshold [m] can be in. *)
Inductive ritase_terjangkau (m : float) : Ritase.PenghitungRitase → Prop :=
| ritase_terjangkau_init : ritase_terjangkau m (Ritase.init m)
| ritase_terjangkau_langkah op self :
    ritase_terjangkau m self → ritase_terjangkau m (jalankan_ritase op self).

(** What closing the cycle of single trucks leaves alone: everything but the
    active-cycle lists and the trucks' candidate and last-cycle bookkeeping. *)
Definition tetap_di_luar_siklus (self s : Ritase.PenghitungRitase) : Prop :=
  Ritase.truk_full_terhitung s = Ritase.truk_full_terhitung self
  ∧ Ritase.ambang_kepercayaan s = Ritase.ambang_kepercayaan self
  ∧ Ritase.total_ritase s = Ritase.total_ritase self
  ∧ Ritase.total_siklus_selesai s = Ritase.total_siklus_selesai self
  ∧ Ritase.total_deteksi_truk_penuh s = Ritase.total_deteksi_truk_penuh self
  ∧ Ritase.siklus_berjalan_punya_ritase s = Ritase.siklus_berjalan_punya_ritase self
  ∧ Ritase.ritase_terbaik_di_siklus s = Ritase.ritase_terbaik_di_siklus self
  ∧ Ritase.nomor_siklus s = Ritase.nomor_siklus self
  ∧ Ritase.total_pencegahan_ganda s = Ritase.total_pencegahan_ganda self
  ∧ Ritase.kandidat_siklus s = Ritase.kandidat_siklus self
  ∧ (∀ k, Ritase.ritase_count <$> (Ritase.data_truk s !! k)
          = Ritase.ritase_count <$> (Ritase.data_truk self !! k)).

(** Some truck has detections in its active cycle. *)
Definition ada_siklus_aktif (self : Ritase.PenghitungRitase) : Prop :=
  ∃ tid dets, Ritase.siklus_aktif self !! tid = Some dets ∧ dets ≠ [].

(** What a call, or a run of calls, that does not close the cycle does to the
    credit of the running cycle: the sum of the counts, [total_ritase], the
    number of [True] returned and each truck's count move exactly as the
    credit of the cycle moves. *)
Definition langkah_terjaga (self : Ritase.PenghitungRitase) (n : Z)
    (s : Ritase.PenghitungRitase) : Prop :=
  hitungan_taknegatif s
  ∧ pemilik_terhitung s
  ∧ jumlah_ritase s - kredit_siklus s = jumlah_ritase self - kredit_siklus self
  ∧ Ritase.total_ritase s - kredit_siklus s
    = Ritase.total_ritase self - kredit_siklus self
  ∧ n = kredit_siklus s - kredit_siklus self
  ∧ (∀ k, Ritase.dapatkan_ritase_count (Some k) s - kredit_truk k s
          = Ritase.dapatkan_ritase_count (Some k) self - kredit_truk k self).

(** * Query methods of the ritase counter *)

Module RitaseLaporan.

Import Ritase.

(** [len([t for t in self.data_truk.values() if int(t["ritase_count"]) > 0])] *)
Definition active_trucks (self : PenghitungRitase) : Z :=
  Z.of_nat (length (filter (λ p : Z * TruckData, 0 < ritase_count p.2)
                      (map_to_list (data_truk self)))).

(** The dict [dapatkan_statistik] returns. *)
Record Statistik := {
  st_total_ritase : Z;
  st_total_truck_full_detections : Z;
  st_cycles_completed : Z;
  st_current_cycle_number : Z;
  st_current_cycle_has_ritase : bool;
  st_prevented_false_multiple : Z;
  st_cycle_candidates_count : Z;
  st_active_trucks : Z;
  st_detail_truck : gmap Z TruckData }.

(** [dapatkan_statistik] *)
Definition dapatkan_statistik (self : PenghitungRitase) : Statistik :=
  {| st_total_ritase := total_ritase self;
     st_total_truck_full_detections := total_deteksi_truk_penuh self;
     st_cycles_completed := total_siklus_selesai self;
     st_current_cycle_number := nomor_siklus self;
     st_current_cycle_has_ritase := siklus_berjalan_punya_ritase self;
     st_prevented_false_multiple := total_pencegahan_ganda self;
     st_cycle_candidates_count := Z.of_nat (length (kandidat_siklus self));
     st_active_trucks := active_trucks self;
     st_detail_truck :=
       (λ d, {| ritase_count := ritase_count d; best_full := best_full d;
                last_cycle_frame := last_cycle_frame d;
                last_cycle_number := last_cycle_number d |}) <$> data_truk self |}.

(** One dict of the list [dapatkan_truck_produktif] returns. *)
Record TruckProduktif := {
  tp_tracker_id : Z;
  tp_ritase_count : Z;
  tp_best_confidence : float;
  tp_last_frame : Z;
  tp_last_cycle_number : Z }.

(** The dict built for one item of [self.data_truk.items()]. *)
Definition baris_produktif (item : Z * TruckData) : TruckProduktif :=
  {| tp_tracker_id := item.1;
     tp_ritase_count := ritase_count item.2;
     tp_best_confidence :=
       match best_full item.2 with
       | Some b => bf_confidence b
       | None => 0%float
       end;
     tp_last_frame :=
       match best_full item.2 with
       | Some b => bf_frame_index b
       | None => 0
       end;
     tp_last_cycle_number := last_cycle_number item.2 |}.

(** [sorted(l, key=lambda x: x["ritase_count"], reverse=True)]: Python's sort
    is stable, also with [reverse=True], so the result is the one a stable
    insertion sort gives. *)
Fixpoint sisip_menurun (x : TruckProduktif) (l : list TruckProduktif)
  : list TruckProduktif :=
  match l with
  | [] => [x]
  | y :: l' =>
      if bool_decide (tp_ritase_count x < tp_ritase_count y)
      then y :: sisip_menurun x l'
      else x :: y :: l'
  end.

Definition urut_menurun (l : list TruckProduktif) : list TruckProduktif :=
  foldr sisip_menurun [] l.

(** [dapatkan_truck_produktif], from [list(self.data_truk.items())]: a Python
    dict iterates in insertion order, which a [gmap] does not record, so the
    items are taken in the order the caller's dict has them. *)
Definition dapatkan_truck_produktif (items : list (Z * TruckData))
  : list TruckProduktif :=
  urut_menurun
    (baris_produktif <$> filter (λ p : Z * TruckData, 0 < ritase_count p.2) items).

(** The dict [get_siklus_aktif] returns. *)
Record SiklusAktif := {
  sa_nomor_siklus : Z;
  sa_has_ritase : bool;
  sa_active_trucks : Z;
  sa_total_ritase : Z;
  sa_total_cycle_completed : Z }.

(** [get_siklus_aktif] *)
Definition get_siklus_aktif (self : PenghitungRitase) : SiklusAktif :=
  {| sa_nomor_siklus := nomor_siklus self;
     sa_has_ritase := siklus_berjalan_punya_ritase self;
     sa_active_trucks := active_trucks self;
     sa_total_ritase := total_ritase self;
     sa_total_cycle_completed := total_siklus_selesai self |}.

(** The ["active_detections"] entry of [dapatkan_status_siklus_aktif]:
    [{tid: len(dets) for tid, dets in siklus_aktif.items() if len(dets) > 0}] *)
Definition active_detections (self : PenghitungRitase) : gmap Z Z :=
  (λ dets : list FullDeteksi, Z.of_nat (length dets))
    <$> filter (λ p : Z * list FullDeteksi, (0 < length p.2)%nat) (siklus_aktif self).

End RitaseLaporan.

(** * The frame loops that drive the counters *)

(** One tracked detection of a frame: [tracker_id[i]], [int(class_id[i])] and
    [float(confidence[i])] of an [sv.Detections] the tracker returned. *)
Record Terlacak := {
  tl_tracker_id : Z;
  tl_class_id : Z;
  tl_confidence : float }.

(** The counter-updating statements of [ExcavatorDetector._process_frame] in
    [backend/detector.py] and the overlay bookkeeping that follows them, for
    a frame processed without an exception (the method wraps its body in
    [try] and gives the frame back untouched otherwise). Prediction,
    tracking, annotation and the event rows (which hold rounded timestamps)
    are outside: the tracker's two outputs are the inputs here. *)
Module Detector.

Record Keadaan := {
  penghitung_passing : Passing.PenghitungPassing;
  penghitung_ritase : Ritase.PenghitungRitase;
  passing_detections : Z;   (* stats["passing_detections"] *)
  ritase_detections : Z;    (* stats["ritase_detections"] *)
  display_ritase : Z;
  siklus_terakhir : Z }.

Definition siklus_dimulai_dari : Z := 1.

(** The detector after [__init__], with the counters and the [stats] entries
    as [run_detection] creates them. *)
Definition awal (passing_threshold ritase_threshold : float) : Keadaan :=
  {| penghitung_passing := Passing.init passing_threshold;
     penghitung_ritase := Ritase.init ritase_threshold;
     passing_detections := 0; ritase_detections := 0;
     display_ritase := 0; siklus_terakhir := 0 |}.

(** The body of the loop over [tracked_truck]. *)
Definition langkah_truck (nomor_siklus_awal frame_index : Z) (st : Keadaan)
    (d : Terlacak) : Keadaan :=
  let '(ritase_baru, pr) :=
    Ritase.proses_deteksi (tl_tracker_id d) (tl_class_id d) frame_index
      (tl_confidence d) (penghitung_ritase st) in
  if ritase_baru then
    {| penghitung_passing := Passing.reset_all_counters (penghitung_passing st);
       penghitung_ritase := Ritase.reset_counters pr;
       passing_detections := passing_detections st;
       ritase_detections := ritase_detections st + 1;
       display_ritase := 1;
       siklus_terakhir := nomor_siklus_awal |}
  else
    {| penghitung_passing := penghitung_passing st;
       penghitung_ritase := pr;
       passing_detections := passing_detections st;
       ritase_detections := ritase_detections st;
       display_ritase := display_ritase st;
       siklus_terakhir := siklus_terakhir st |}.

(** The body of the first loop over [tracked_bucket]: the closing signal. *)
Definition langkah_bucket_ritase (frame_index : Z) (st : Keadaan) (d : Terlacak)
  : Keadaan :=
  {| penghitung_passing := penghitung_passing st;
     penghitung_ritase :=
       (Ritase.proses_deteksi (tl_tracker_id d) (tl_class_id d) frame_index
          (tl_confidence d) (penghitung_ritase st)).2;
     passing_detections := passing_detections st;
     ritase_detections := ritase_detections st;
     display_ritase := display_ritase st;
     siklus_terakhir := siklus_terakhir st |}.

(** The body of the second loop over [tracked_bucket]: passing. *)
Definition langkah_bucket_passing (frame_index : Z) (st : Keadaan) (d : Terlacak)
  : Keadaan :=
  let pp :=
    if decide (tl_class_id d = 1)
    then Passing.selesaikan_siklus (tl_tracker_id d) (penghitung_passing st)
    else penghitung_passing st in
  let '(passing_baru, pp) :=
    Passing.proses_deteksi (tl_tracker_id d) (tl_class_id d) frame_index
      (tl_confidence d) pp in
  {| penghitung_passing := pp;
     penghitung_ritase := penghitung_ritase st;
     passing_detections :=
       if passing_baru then passing_detections st + 1 else passing_detections st;
     ritase_detections := ritase_detections st;
     display_ritase := display_ritase st;
     siklus_terakhir := siklus_terakhir st |}.

(** The three loops, in the order of the source. *)
Definition perbarui_penghitung (tracked_truck tracked_bucket : list Terlacak)
    (frame_index : Z) (st : Keadaan) : Keadaan :=
  let nomor_siklus_awal := Ritase.nomor_siklus (penghitung_ritase st) in
  let st := foldl (langkah_truck nomor_siklus_awal frame_index) st tracked_truck in
  let st := foldl (langkah_bucket_ritase frame_index) st tracked_bucket in
  foldl (langkah_bucket_passing frame_index) st tracked_bucket.

(** The statements that decide what the overlay shows as "Total Ritase". *)
Definition perbarui_tampilan (st : Keadaan) : Keadaan :=
  let nomor_siklus :=
    Ritase.nomor_siklus (penghitung_ritase st) + siklus_dimulai_dari in
  if bool_decide (siklus_terakhir st + 1 < nomor_siklus) then
    {| penghitung_passing := penghitung_passing st;
       penghitung_ritase := penghitung_ritase st;
       passing_detections := passing_detections st;
       ritase_detections := ritase_detections st;
       display_ritase := 0;
       siklus_terakhir := nomor_siklus - 1 |}
  else st.

(** One frame processed without an exception. *)
Definition proses_frame (tracked_truck tracked_bucket : list Terlacak)
    (frame_index : Z) (st : Keadaan) : Keadaan :=
  perbarui_tampilan (perbarui_penghitung tracked_truck tracked_bucket frame_index st).

(** The frames of a video, numbered by [enumerate] from [frame_index]. *)
Fixpoint jalankan (frame_index : Z) (frames : list (list Terlacak * list Terlacak))
    (st : Keadaan) : Keadaan :=
  match frames with
  | [] => st
  | (tracked_truck, tracked_bucket) :: frames =>
      jalankan (frame_index + 1) frames
        (proses_frame tracked_truck tracked_bucket frame_index st)
  end.

End Detector.

(** The statements of [proses_frame] in [src/main.py] that update the passing
    counter and [stats["passing_detections"]], for a frame processed without
    an exception. The two loops that follow them call only
    [penghitung_ritase.proses_deteksi], of the module [penghitung_ritase]
    beside [main.py], and add to [stats["ritase_detections"]]; they touch
    neither the passing counter nor its entry of [stats] and are left out.
    [src/penghitung_passing.py], which the script imports, has the methods
    used here statement for statement as [backend/penghitung_passing.py]. *)
Module Main.

Record Keadaan := {
  penghitung_passing : Passing.PenghitungPassing;
  passing_detections : Z }.

(** The passing counter and its [stats] entry as [main] creates them. *)
Definition awal : Keadaan :=
  {| penghitung_passing := Passing.init 0.8; passing_detections := 0 |}.

(** The body of the first loop over [tracked_bucket]. *)
Definition langkah_bucket_passing (frame_index : Z) (st : Keadaan) (d : Terlacak)
  : Keadaan :=
  let pp :=
    if decide (tl_class_id d = 1)
    then Passing.selesaikan_siklus (tl_tracker_id d) (penghitung_passing st)
    else penghitung_passing st in
  let '(passing_baru, pp) :=
    Passing.proses_deteksi (tl_tracker_id d) (tl_class_id d) frame_index
      (tl_confidence d) pp in
  {| penghitung_passing := pp;
     passing_detections :=
       if passing_baru then passing_detections st + 1 else passing_detections st |}.

Definition perbarui_penghitung (tracked_bucket : list Terlacak) (frame_index : Z)
    (st : Keadaan) : Keadaan :=
  foldl (langkah_bucket_passing frame_index) st tracked_bucket.

(** The frames of the video in order, each given by its [tracked_bucket]. *)
Fixpoint jalankan (frame_index : Z) (frames : list (list Terlacak)) (st : Keadaan)
  : Keadaan :=
  match frames with
  | [] => st
  | tracked_bucket :: frames =>
      jalankan (frame_index + 1) frames
        (perbarui_penghitung tracked_bucket frame_index st)
  end.

End Main.

(** [truck_mask = (detections.class_id == 5) | (detections.class_id == 6)],
    the test both frame loops split the detections with before tracking. *)
Definition truck_mask (class_id : Z) : bool :=
  bool_decide (class_id = 5) || bool_decide (class_id = 6).

(** The tracker's two outputs keep the split: [tracked_truck] holds classes
    the mask selects, [tracked_bucket] classes it does not. *)
Definition terpilah (frame : list Terlacak * list Terlacak) : Prop :=
  Forall (λ d, truck_mask (tl_class_id d) = true) frame.1
  ∧ Forall (λ d, truck_mask (tl_class_id d) = false) frame.2.

(** * Invariants of the reachable states *)

(** The ritase counter after a list of method calls, first call first. *)
Definition jalankan_ritase_semua (ops : list OperasiRitase)
    (self : Ritase.PenghitungRitase) : Ritase.PenghitungRitase :=
  foldl (λ s op, jalankan_ritase op s) self ops.

(** The state of the global cycle hangs together: without a credited ritase
    there is no best detection, no candidate trail and no active detection;
    with one, the best detection is recorded for a known truck and for the
    running cycle, and the trail is not empty. The two cycle counters agree,
    and every credited ritase and prevented duplicate is a [truck_full]
    detection. *)
Definition ritase_koheren (self : Ritase.PenghitungRitase) : Prop :=
  (Ritase.siklus_berjalan_punya_ritase self = false →
     Ritase.ritase_terbaik_di_siklus self = None
     ∧ Ritase.kandidat_siklus self = []
     ∧ ∀ k l, Ritase.siklus_aktif self !! k = Some l → l = [])
  ∧ (Ritase.siklus_berjalan_punya_ritase self = true →
     ∃ b, Ritase.ritase_terbaik_di_siklus self = Some b
          ∧ is_Some (Ritase.data_truk self !! Ritase.rt_tracker_id b)
          ∧ Ritase.rt_cycle_number b = Ritase.nomor_siklus self
          ∧ Ritase.kandidat_siklus self ≠ [])
  ∧ Ritase.total_siklus_selesai self = Ritase.nomor_siklus self
  ∧ 0 ≤ Ritase.nomor_siklus self
  ∧ 0 ≤ Ritase.total_ritase self
  ∧ 0 ≤ Ritase.total_pencegahan_ganda self
  ∧ Ritase.total_ritase self + Ritase.total_pencegahan_ganda self
    ≤ Ritase.total_deteksi_truk_penuh self.

(** The list of active detections of an excavator ([[]] when it has none). *)
Definition siklus_aktif_dari (tid : Z) (self : Passing.PenghitungPassing)
  : list Passing.DumpDeteksi :=
  default [] (Passing.active_cycle self !! tid).

(** What holds of every excavator of a passing counter with threshold [m]:
    a count is never negative; an excavator without a candidate has no active
    detection; a candidate is one of the excavator's active detections, was
    marked as seen, is not below the threshold, and no active detection of the
    excavator has a higher confidence. *)
Definition passing_terawat (m : float) (self : Passing.PenghitungPassing) : Prop :=
  Passing.min_confidence self = m
  ∧ (∀ t l, Passing.active_cycle self !! t = Some l →
            is_Some (Passing.excavators self !! t))
  ∧ (∀ t e, Passing.excavators self !! t = Some e →
       0 ≤ Passing.passing_count e
       ∧ match Passing.best_dump e with
         | None => siklus_aktif_dari t self = []
         | Some b =>
             Passing.bd_dump_id b = buat_id t (Passing.bd_frame_index b)
             ∧ Passing.bd_dump_id b ∈ Passing.counted_dumps self
             ∧ (Passing.bd_confidence b <? m)%float = false
             ∧ {| Passing.dd_dump_id := Passing.bd_dump_id b;
                  Passing.dd_frame_index := Passing.bd_frame_index b;
                  Passing.dd_confidence := Passing.bd_confidence b |}
               ∈ siklus_aktif_dari t self
             ∧ (∀ d, d ∈ siklus_aktif_dari t self →
                     (Passing.bd_confidence b <? Passing.dd_confidence d)%float = false)
         end).

(** What the detector's loop keeps between frames. *)
Definition detector_terjaga (st : Detector.Keadaan) : Prop :=
  ritase_koheren (Detector.penghitung_ritase st)
  ∧ Ritase.total_ritase (Detector.penghitung_ritase st) = 0
  ∧ Detector.ritase_detections st
    = Ritase.nomor_siklus (Detector.penghitung_ritase st)
      + kredit_siklus (Detector.penghitung_ritase st)
  ∧ 0 ≤ Passing.total_passing (Detector.penghitung_passing st)
  ∧ Passing.total_passing (Detector.penghitung_passing st)
    ≤ Detector.passing_detections st
  ∧ Detector.display_ritase st = kredit_siklus (Detector.penghitung_ritase st)
  ∧ Detector.siklus_terakhir st = Ritase.nomor_siklus (Detector.penghitung_ritase st).

(** * Calls and what they returned *)

(** What a call of a method of the passing counter reports: the identity of
    the detection and the value returned, for [proses_deteksi]. *)
Definition panggilan_passing (op : OperasiPassing) (self : Passing.PenghitungPassing)
  : option (string * bool) :=
  match op with
  | OpProsesDeteksi t c f x =>
      Some (buat_id t f, (Passing.proses_deteksi t c f x self).1)
  | _ => None
  end.

Definition panggilan_ritase (op : OperasiRitase) (self : Ritase.PenghitungRitase)
  : option (string * bool) :=
  match op with
  | OrProsesDeteksi t c f x =>
      Some (buat_id t f, (Ritase.proses_deteksi t c f x self).1)
  | _ => None
  end.

(** The reports of a list of method calls made in order on a counter. *)
Fixpoint jejak {St Op : Type} (panggilan : Op → St → option (string * bool))
    (jalankan : Op → St → St) (ops : list Op) (self : St) : list (string * bool) :=
  match ops with
  | [] => []
  | op :: ops =>
      match panggilan op self with
      | Some e => e :: jejak panggilan jalankan ops (jalankan op self)
      | None => jejak panggilan jalankan ops (jalankan op self)
      end
  end.

(** How many calls for the identity [id] returned [True]. *)
Fixpoint kali_terhitung (id : string) (j : list (string * bool)) : Z :=
  match j with
  | [] => 0
  | (i, r) :: j =>
      (if bool_decide (i = id) && r then 1 else 0) + kali_terhitung id j
  end.

(** * Properties *)

(** ** Comparison of Python floats *)

Section FloatOrder.

Lemma compare_cont_swap (p q : positive) :
  Pos.compare_cont Eq q p = CompOpp (Pos.compare_cont Eq p q).
Proof. by rewrite Pos.compare_cont_antisym. Qed.

Lemma SFcompare_swap (x y : spec_float) :
  SFcompare y x = option_map CompOpp (SFcompare x y).
Proof.
  destruct x as [sx|sx| |sx mx ex], y as [sy|sy| |sy my ey]; simpl;
    try reflexivity; try (by destruct sx); try (by destruct sy);
    try (by destruct sx, sy).
  destruct sx, sy; try reflexivity; f_equal;
    rewrite (Z.compare_antisym ex ey); destruct (ex ?= ey); simpl;
    try reflexivity; rewrite (compare_cont_swap mx my);
    by destruct (Pos.compare_cont Eq mx my).
Qed.

(** [y >= x] excludes [y < x], for every pair of floats (NaN included). *)
Lemma leb_not_ltb (x y : float) :
  (x <=? y)%float = true → (y <? x)%float = false.
Proof.
  rewrite leb_spec, ltb_spec. unfold SFleb, SFltb.
  destruct (SFcompare (Prim2SF x) (Prim2SF y)) as [[| |]|] eqn:Hc;
    try discriminate; intros _.
  - by rewrite SFcompare_swap, Hc.
  - by rewrite SFcompare_swap, Hc.
Qed.

End FloatOrder.


(** ** Sums over the entries of a dict *)

Section Jumlah.

Context {A : Type} (f : A → Z).

Lemma jumlah_empty : jumlah f ∅ = 0.
Proof. unfold jumlah. by rewrite map_fold_empty. Qed.

Lemma jumlah_insert_None (m : gmap Z A) i x :
  m !! i = None → jumlah f (<[i:=x]> m) = f x + jumlah f m.
Proof.
  intros Hi. unfold jumlah. rewrite map_fold_insert_L; [done| |done].
  intros. lia.
Qed.

Lemma jumlah_delete (m : gmap Z A) i x :
  m !! i = Some x → jumlah f m = f x + jumlah f (delete i m).
Proof.
  intros Hi. unfold jumlah. rewrite (map_fold_delete_L _ _ i x m); [done| |done].
  intros. lia.
Qed.

Lemma jumlah_insert_Some (m : gmap Z A) i x y :
  m !! i = Some y → jumlah f (<[i:=x]> m) = jumlah f m - f y + f x.
Proof.
  intros Hi. rewrite (jumlah_delete m i y Hi), <-(insert_delete_eq m i x).
  rewrite jumlah_insert_None by apply lookup_delete_eq. lia.
Qed.

Lemma jumlah_alter (m : gmap Z A) g i y :
  m !! i = Some y → jumlah f (alter g i m) = jumlah f m - f y + f (g y).
Proof.
  intros Hi. rewrite <-(jumlah_insert_Some m i (g y) y Hi). f_equal.
  apply map_eq; intros j. destruct (decide (i = j)) as [->|Hne].
  - by rewrite lookup_alter_eq, lookup_insert_eq, Hi.
  - by rewrite lookup_alter_ne, lookup_insert_ne.
Qed.

Lemma jumlah_fmap_nol (m : gmap Z A) (g : A → A) :
  (∀ x, f (g x) = 0) → jumlah f (g <$> m) = 0.
Proof.
  intros Hg. induction m as [|i x m Hi IH] using map_ind.
  - by rewrite fmap_empty, jumlah_empty.
  - rewrite fmap_insert, jumlah_insert_None by (by rewrite lookup_fmap, Hi).
    rewrite IH, Hg. lia.
Qed.

Lemma jumlah_sama (m m' : gmap Z A) :
  (∀ k, f <$> (m' !! k) = f <$> (m !! k)) → jumlah f m' = jumlah f m.
Proof.
  revert m'. induction m as [|i x m Hi IH] using map_ind; intros m' H.
  - assert (m' = ∅) as ->; [|done].
    apply map_eq; intros k. specialize (H k).
    rewrite !lookup_empty in *. by destruct (m' !! k).
  - pose proof (H i) as Hi'. rewrite lookup_insert_eq in Hi'.
    destruct (m' !! i) as [y|] eqn:Hy; [|done]. injection Hi' as Hxy.
    rewrite (jumlah_delete m' i y Hy), jumlah_insert_None by done.
    rewrite Hxy. f_equal. apply IH. intros k.
    destruct (decide (i = k)) as [<-|Hne].
    + by rewrite lookup_delete_eq, Hi.
    + rewrite lookup_delete_ne by done. specialize (H k).
      by rewrite lookup_insert_ne in H.
Qed.

End Jumlah.

(** ** The passing counter *)

Section PassingLangkah.

Import Passing.

Lemma ambil_excavator_lookup tid self :
  excavators (ambil_excavator tid self).2 !! tid = Some (ambil_excavator tid self).1.
Proof.
  unfold ambil_excavator. destruct (excavators self !! tid) eqn:He; simpl; [done|].
  apply lookup_insert_eq.
Qed.

Lemma ambil_excavator_best tid self :
  best_dump (ambil_excavator tid self).1 = best_dump_of tid self.
Proof.
  unfold ambil_excavator, best_dump_of. by destruct (excavators self !! tid).
Qed.

Lemma ambil_excavator_count tid self :
  passing_count (ambil_excavator tid self).1 = dapatkan_passing_count (Some tid) self.
Proof.
  unfold ambil_excavator, dapatkan_passing_count.
  by destruct (excavators self !! tid).
Qed.

Lemma ambil_excavator_lainnya tid self k :
  k ≠ tid →
  dapatkan_passing_count (Some k) (ambil_excavator tid self).2
  = dapatkan_passing_count (Some k) self.
Proof.
  intros Hk. unfold ambil_excavator, dapatkan_passing_count.
  destruct (excavators self !! tid); simpl; [done|].
  by rewrite lookup_insert_ne.
Qed.

Lemma ambil_excavator_tetap tid self :
  counted_dumps (ambil_excavator tid self).2 = counted_dumps self
  ∧ min_confidence (ambil_excavator tid self).2 = min_confidence self
  ∧ total_passing (ambil_excavator tid self).2 = total_passing self
  ∧ active_cycle (ambil_excavator tid self).2 = active_cycle self.
Proof. unfold ambil_excavator. by destruct (excavators self !! tid). Qed.

Lemma ambil_excavator_jumlah tid self :
  jumlah passing_count (excavators (ambil_excavator tid self).2)
  = jumlah passing_count (excavators self).
Proof.
  unfold ambil_excavator. destruct (excavators self !! tid) eqn:He; simpl; [done|].
  by rewrite jumlah_insert_None.
Qed.

(** The call on a detection the counter does not take: another class, an
    identity already counted, or a confidence below the threshold. *)
Lemma proses_deteksi_ditolak tid cls f c self :
  cls ≠ CLASS_BUCKET_DUMPING
  ∨ buat_id tid f ∈ counted_dumps self
  ∨ (c <? min_confidence self)%float = true →
  proses_deteksi tid cls f c self = (false, (ambil_excavator tid self).2).
Proof.
  intros H. unfold proses_deteksi.
  pose proof (ambil_excavator_tetap tid self) as (Hc & Hm & _).
  destruct (ambil_excavator tid self) as [e s1]; simpl in *.
  destruct (decide (cls = CLASS_BUCKET_DUMPING)) as [->|Hcls]; [|done].
  rewrite Hc, Hm. destruct H as [H|[H|H]]; [done| |].
  - by rewrite bool_decide_eq_true_2.
  - by rewrite H, orb_true_r.
Qed.

(** The call on a dump detection the counter takes. *)
Lemma proses_deteksi_diterima tid f c self :
  buat_id tid f ∉ counted_dumps self →
  (c <? min_confidence self)%float = false →
  let e := (ambil_excavator tid self).1 in
  let s1 := (ambil_excavator tid self).2 in
  let id := buat_id tid f in
  let aktif :=
    tambah_siklus_aktif tid
      {| dd_dump_id := id; dd_frame_index := f; dd_confidence := c |}
      (active_cycle self) in
  let baru := {| bd_dump_id := id; bd_frame_index := f; bd_confidence := c |} in
  proses_deteksi tid CLASS_BUCKET_DUMPING f c self =
  match best_dump e with
  | None =>
      (true,
       {| excavators := <[tid := {| passing_count := passing_count e + 1;
                                    best_dump := Some baru |}]> (excavators s1);
          counted_dumps := {[id]} ∪ counted_dumps self;
          min_confidence := min_confidence self;
          total_passing := total_passing self + 1;
          active_cycle := aktif |})
  | Some b =>
      (false,
       {| excavators :=
            if (bd_confidence b <? c)%float
            then <[tid := {| passing_count := passing_count e;
                             best_dump := Some baru |}]> (excavators s1)
            else excavators s1;
          counted_dumps := {[id]} ∪ counted_dumps self;
          min_confidence := min_confidence self;
          total_passing := total_passing self;
          active_cycle := aktif |})
  end.
Proof.
  intros Hid Hc. unfold proses_deteksi.
  pose proof (ambil_excavator_tetap tid self) as (Hcd & Hm & Ht & Ha).
  destruct (ambil_excavator tid self) as [e s1]; simpl in *.
  rewrite Hcd, Hm, Hc, bool_decide_eq_false_2 by done.
  simpl. destruct (best_dump e) as [b|]; simpl.
  - destruct (bd_confidence b <? c)%float; simpl;
      unfold set_counted_dumps, set_excavators, set_active_cycle; simpl;
      by rewrite Ht, Ha, Hm, Hcd.
  - unfold set_counted_dumps, set_excavators, set_active_cycle, set_total_passing;
      simpl; by rewrite Ht, Ha, Hm, Hcd.
Qed.

End PassingLangkah.

Section PassingKlaim.

Import Passing.

Lemma ambil_excavator_state tid self :
  (ambil_excavator tid self).2 =
  match excavators self !! tid with
  | Some _ => self
  | None => inisialisasi_excavator tid self
  end.
Proof. unfold ambil_excavator. by destruct (excavators self !! tid). Qed.

Lemma ambil_excavator_count_sama tid self k :
  dapatkan_passing_count (Some k) (ambil_excavator tid self).2
  = dapatkan_passing_count (Some k) self.
Proof.
  destruct (decide (k = tid)) as [->|Hk]; [|by apply ambil_excavator_lainnya].
  unfold dapatkan_passing_count at 1.
  by rewrite ambil_excavator_lookup, ambil_excavator_count.
Qed.

Lemma ambil_excavator_best_of tid self :
  best_dump_of tid (ambil_excavator tid self).2 = best_dump_of tid self.
Proof.
  unfold best_dump_of at 1.
  by rewrite ambil_excavator_lookup, ambil_excavator_best.
Qed.

(** What one dump detection of [tid] does to the counts and to the candidate
    of [tid]. *)
Lemma proses_deteksi_dump_langkah tid f c self :
  let r := proses_deteksi tid CLASS_BUCKET_DUMPING f c self in
  total_passing r.2 = total_passing self + (if r.1 then 1 else 0)
  ∧ dapatkan_passing_count (Some tid) r.2
    = dapatkan_passing_count (Some tid) self + (if r.1 then 1 else 0)
  ∧ (∀ k, k ≠ tid →
       dapatkan_passing_count (Some k) r.2 = dapatkan_passing_count (Some k) self)
  ∧ (best_dump_of tid self ≠ None → r.1 = false)
  ∧ (best_dump_of tid r.2 = None → best_dump_of tid self = None ∧ r.1 = false).
Proof.
  destruct (decide (buat_id tid f ∈ counted_dumps self)) as [Hin|Hin].
  { cbv zeta. rewrite (proses_deteksi_ditolak tid _ f c self) by auto.
    cbn [fst snd].
    pose proof (ambil_excavator_tetap tid self) as (_ & _ & -> & _).
    rewrite ambil_excavator_best_of.
    repeat split; intros; rewrite ?ambil_excavator_count_sama; auto with lia. }
  destruct (c <? min_confidence self)%float eqn:Hc.
  { cbv zeta. rewrite (proses_deteksi_ditolak tid _ f c self) by auto.
    cbn [fst snd].
    pose proof (ambil_excavator_tetap tid self) as (_ & _ & -> & _).
    rewrite ambil_excavator_best_of.
    repeat split; intros; rewrite ?ambil_excavator_count_sama; auto with lia. }
  cbv zeta. rewrite (proses_deteksi_diterima tid f c self Hin Hc).
  rewrite ambil_excavator_best.
  pose proof (ambil_excavator_lookup tid self) as Hl.
  pose proof (ambil_excavator_count tid self) as Hcnt.
  pose proof (ambil_excavator_best tid self) as Hbest.
  pose proof (ambil_excavator_lainnya tid self) as Hlain.
  destruct (ambil_excavator tid self) as [e s1]; cbn [fst snd] in *.
  unfold dapatkan_passing_count in *.
  destruct (best_dump_of tid self) as [b|] eqn:Hb; cbn [fst snd];
    unfold best_dump_of; cbn [excavators total_passing].
  - destruct (bd_confidence b <? c)%float.
    + rewrite lookup_insert_eq. cbn [passing_count best_dump].
      split_and!; try done; try lia.
      intros k Hk. rewrite lookup_insert_ne by done. by apply Hlain.
    + rewrite Hl, Hbest. split_and!; try done; try lia.
  - rewrite lookup_insert_eq. cbn [passing_count best_dump].
    split_and!; try done; try lia.
    intros k Hk. rewrite lookup_insert_ne by done. by apply Hlain.
Qed.

Lemma banyak_true_nonneg rs : 0 ≤ banyak_true rs.
Proof. induction rs as [|[] rs IH]; simpl; lia. Qed.

(** A run of dump detections of one excavator counts at most once, and not at
    all when the excavator already has a candidate. *)
Lemma dump_beruntun_sekali tid fcs self :
  let r := passing_proses_semua (dump_beruntun tid fcs) self in
  banyak_true r.1 ≤ 1
  ∧ total_passing r.2 = total_passing self + banyak_true r.1
  ∧ dapatkan_passing_count (Some tid) r.2
    = dapatkan_passing_count (Some tid) self + banyak_true r.1
  ∧ (best_dump_of tid self ≠ None → banyak_true r.1 = 0).
Proof.
  revert self. induction fcs as [|[f c] fcs IH]; intros self; simpl.
  { repeat split; lia. }
  pose proof (proses_deteksi_dump_langkah tid f c self) as (Ht & Hc & _ & Hs & Hn).
  simpl in *.
  destruct (proses_deteksi tid CLASS_BUCKET_DUMPING f c self) as [r s1]; simpl in *.
  specialize (IH s1). simpl in IH.
  destruct (passing_proses_semua (dump_beruntun tid fcs) s1) as [rs s2]; simpl in *.
  destruct IH as (IH1 & IH2 & IH3 & IH4).
  pose proof (banyak_true_nonneg rs).
  destruct r.
  - assert (best_dump_of tid s1 ≠ None) as Hb by (intros Hb; by destruct (Hn Hb)).
    specialize (IH4 Hb). repeat split; try lia.
    intros Hsome. by specialize (Hs Hsome).
  - repeat split; try lia. intros Hsome. apply IH4.
    intros Hb. by destruct (Hn Hb).
Qed.

End PassingKlaim.

Section PassingTeorema.

Import Passing.

(** C7, as the code has it: a detection of a class other than the dump class,
    a dump detection whose identity is already in [counted_dumps], and a dump
    detection whose confidence is below [min_confidence] all return [False] and
    leave the state as it was, except that the entry
    [{"passing_count": 0, "best_dump": None}] is created when the tracker is
    not yet in [excavators]; every count, the seen-set and the active-cycle
    map are as before. *)
Theorem passing_rejected_detection_only_creates_entry tid cls f c self :
  cls ≠ CLASS_BUCKET_DUMPING
  ∨ buat_id tid f ∈ counted_dumps self
  ∨ (c <? min_confidence self)%float = true →
  let r := proses_deteksi tid cls f c self in
  r = (false,
       match excavators self !! tid with
       | Some _ => self
       | None => inisialisasi_excavator tid self
       end)
  ∧ total_passing r.2 = total_passing self
  ∧ counted_dumps r.2 = counted_dumps self
  ∧ active_cycle r.2 = active_cycle self
  ∧ (∀ k, dapatkan_passing_count (Some k) r.2 = dapatkan_passing_count (Some k) self).
Proof.
  intros H. cbv zeta. rewrite (proses_deteksi_ditolak tid cls f c self H).
  cbn [fst snd].
  pose proof (ambil_excavator_tetap tid self) as (Hc & _ & Ht & Ha).
  split_and!; try done.
  - by rewrite ambil_excavator_state.
  - intros k. apply ambil_excavator_count_sama.
Qed.

(** C7, as stated, fails: a digging detection (class 1) of a tracker the
    counter has not met returns [False] but leaves a state that differs from
    the one before the call, with a new entry in [excavators]. *)
Lemma passing_other_class_changes_state :
  let self := Passing.init 0.8 in
  let r := proses_deteksi 7 1 0 0.9 self in
  r.1 = false ∧ r.2 ≠ self ∧ excavators self !! 7 = None
  ∧ excavators r.2 !! 7 = Some excavator_baru.
Proof.
  cbv zeta. split_and!; [by vm_compute| |by vm_compute|by vm_compute].
  intros H. apply (f_equal (λ s, excavators s !! 7)) in H.
  vm_compute in H. discriminate H.
Qed.

Lemma passing_rejected_detection_only_creates_entry_witness :
  let self := Passing.init 0.8 in
  (1 ≠ CLASS_BUCKET_DUMPING
   ∨ buat_id 7 0 ∈ counted_dumps self
   ∨ (0.9 <? min_confidence self)%float = true)
  ∧ proses_deteksi 7 1 0 0.9 self = (false, inisialisasi_excavator 7 self).
Proof.
  cbv zeta.
  assert (1 ≠ CLASS_BUCKET_DUMPING
          ∨ buat_id 7 0 ∈ counted_dumps (Passing.init 0.8)
          ∨ (0.9 <? min_confidence (Passing.init 0.8))%float = true) as H.
  { left. unfold CLASS_BUCKET_DUMPING. lia. }
  split; [exact H|].
  exact (proj1 (passing_rejected_detection_only_creates_entry 7 1 0 0.9
                  (Passing.init 0.8) H)).
Defined.

(** C2: among dump detections of one tracker with no cycle end in between,
    the first accepted one (confidence at least the threshold, fresh identity,
    no candidate yet) returns [True] and adds one to the excavator's
    [passing_count] and to [total_passing]; an accepted one with a strictly
    higher confidence than the candidate replaces the candidate, returns
    [False] and changes no count; one below [min_confidence] returns [False]
    and changes nothing of the counts or the candidate; hence a whole run
    returns [True] at most once and adds exactly that to both counts. With
    threshold 0.8, confidences 0.81, 0.95, 0.70 on frames 10, 11, 12 return
    [True, False, False] and the count stays 1. *)
Theorem passing_first_accepted_dump_counts :
  (∀ (self : PenghitungPassing) (tid : Z),
    (∀ f c,
       best_dump_of tid self = None →
       buat_id tid f ∉ counted_dumps self →
       (min_confidence self <=? c)%float = true →
       let r := proses_deteksi tid CLASS_BUCKET_DUMPING f c self in
       r.1 = true
       ∧ dapatkan_passing_count (Some tid) r.2
         = dapatkan_passing_count (Some tid) self + 1
       ∧ total_passing r.2 = total_passing self + 1
       ∧ best_dump_of tid r.2
         = Some {| bd_dump_id := buat_id tid f; bd_frame_index := f;
                   bd_confidence := c |})
    ∧ (∀ f c b,
       best_dump_of tid self = Some b →
       buat_id tid f ∉ counted_dumps self →
       (min_confidence self <=? c)%float = true →
       (bd_confidence b <? c)%float = true →
       let r := proses_deteksi tid CLASS_BUCKET_DUMPING f c self in
       r.1 = false
       ∧ best_dump_of tid r.2
         = Some {| bd_dump_id := buat_id tid f; bd_frame_index := f;
                   bd_confidence := c |}
       ∧ total_passing r.2 = total_passing self
       ∧ (∀ k, dapatkan_passing_count (Some k) r.2
               = dapatkan_passing_count (Some k) self))
    ∧ (∀ f c,
       (c <? min_confidence self)%float = true →
       let r := proses_deteksi tid CLASS_BUCKET_DUMPING f c self in
       r.1 = false
       ∧ best_dump_of tid r.2 = best_dump_of tid self
       ∧ total_passing r.2 = total_passing self
       ∧ (∀ k, dapatkan_passing_count (Some k) r.2
               = dapatkan_passing_count (Some k) self))
    ∧ (∀ fcs,
       let r := passing_proses_semua (dump_beruntun tid fcs) self in
       banyak_true r.1 ≤ 1
       ∧ total_passing r.2 = total_passing self + banyak_true r.1
       ∧ dapatkan_passing_count (Some tid) r.2
         = dapatkan_passing_count (Some tid) self + banyak_true r.1
       ∧ (best_dump_of tid self ≠ None → banyak_true r.1 = 0)))
  ∧ (let r := passing_proses_semua
                (dump_beruntun 1 [(10, 0.81%float); (11, 0.95%float); (12, 0.70%float)])
                (Passing.init 0.8) in
     r.1 = [true; false; false]
     ∧ total_passing r.2 = 1
     ∧ dapatkan_passing_count (Some 1) r.2 = 1
     ∧ dapatkan_passing_count (Some 1)
         (proses_deteksi 1 CLASS_BUCKET_DUMPING 10 0.81 (Passing.init 0.8)).2 = 1).
Proof.
  split; [|by vm_compute].
  intros self tid. split_and!.
  - intros f c Hb Hid Hc. apply leb_not_ltb in Hc.
    pose proof (proses_deteksi_dump_langkah tid f c self) as (Ht & Hn & _).
    cbv zeta in *. rewrite (proses_deteksi_diterima tid f c self Hid Hc) in *.
    rewrite ambil_excavator_best, Hb in *. cbn [fst snd] in *.
    split_and!; try done.
    unfold best_dump_of; cbn [excavators]. by rewrite lookup_insert_eq.
  - intros f c b Hb Hid Hc Hlt. apply leb_not_ltb in Hc.
    pose proof (proses_deteksi_dump_langkah tid f c self) as (Ht & Hn & Hk & _).
    cbv zeta in *. rewrite (proses_deteksi_diterima tid f c self Hid Hc) in *.
    rewrite ambil_excavator_best, Hb in *. cbn [fst snd] in *.
    split_and!; try done; try lia.
    + unfold best_dump_of; cbn [excavators]. by rewrite Hlt, lookup_insert_eq.
    + intros k. destruct (decide (k = tid)) as [->|Hne]; [lia|by apply Hk].
  - intros f c Hc. cbv zeta.
    rewrite (proses_deteksi_ditolak tid _ f c self) by auto. cbn [fst snd].
    pose proof (ambil_excavator_tetap tid self) as (_ & _ & Ht & _).
    split_and!; try done.
    + apply ambil_excavator_best_of.
    + intros k. apply ambil_excavator_count_sama.
  - intros fcs. apply dump_beruntun_sekali.
Qed.

End PassingTeorema.

Section PassingTeoremaLanjut.

Import Passing.

Lemma passing_first_accepted_dump_counts_witness :
  let s0 := Passing.init 0.8 in
  let s1 := (proses_deteksi 1 CLASS_BUCKET_DUMPING 10 0.81 s0).2 in
  let s2 := (proses_deteksi 1 CLASS_BUCKET_DUMPING 11 0.95 s1).2 in
  ((proses_deteksi 1 CLASS_BUCKET_DUMPING 10 0.81 s0).1 = true
   ∧ total_passing s1 = total_passing s0 + 1)
  ∧ ((proses_deteksi 1 CLASS_BUCKET_DUMPING 11 0.95 s1).1 = false
     ∧ total_passing s2 = total_passing s1)
  ∧ ((proses_deteksi 1 CLASS_BUCKET_DUMPING 12 0.70 s2).1 = false).
Proof.
  cbv zeta.
  pose proof (proj1 passing_first_accepted_dump_counts) as H.
  split_and!.
  - destruct (H (Passing.init 0.8) 1) as (H1 & _).
    destruct (H1 10 0.81%float) as (Hr & _ & Ht & _);
      [by vm_compute|by vm_compute|by vm_compute|exact Hr].
  - destruct (H (Passing.init 0.8) 1) as (H1 & _).
    destruct (H1 10 0.81%float) as (_ & _ & Ht & _);
      [by vm_compute|by vm_compute|by vm_compute|exact Ht].
  - destruct (H (proses_deteksi 1 CLASS_BUCKET_DUMPING 10 0.81 (Passing.init 0.8)).2 1)
      as (_ & H2 & _).
    destruct (H2 11 0.95%float
                {| bd_dump_id := buat_id 1 10; bd_frame_index := 10;
                   bd_confidence := 0.81 |}) as (Hr & _);
      [by vm_compute|by vm_compute|by vm_compute|by vm_compute|exact Hr].
  - destruct (H (proses_deteksi 1 CLASS_BUCKET_DUMPING 10 0.81 (Passing.init 0.8)).2 1)
      as (_ & H2 & _).
    destruct (H2 11 0.95%float
                {| bd_dump_id := buat_id 1 10; bd_frame_index := 10;
                   bd_confidence := 0.81 |}) as (_ & _ & Ht & _);
      [by vm_compute|by vm_compute|by vm_compute|by vm_compute|exact Ht].
  - destruct (H (proses_deteksi 1 CLASS_BUCKET_DUMPING 11 0.95
                   (proses_deteksi 1 CLASS_BUCKET_DUMPING 10 0.81
                      (Passing.init 0.8)).2).2 1) as (_ & _ & H3 & _).
    destruct (H3 12 0.70%float) as (Hr & _); [by vm_compute|exact Hr].
Defined.

(** Each method keeps [total_passing] equal to the sum of the counts. *)
Lemma proses_deteksi_konsisten tid cls f c self :
  passing_konsisten self → passing_konsisten (proses_deteksi tid cls f c self).2.
Proof.
  unfold passing_konsisten. intros Hk.
  destruct (decide (cls = CLASS_BUCKET_DUMPING)) as [->|Hcls];
    [destruct (decide (buat_id tid f ∈ counted_dumps self)) as [Hin|Hin];
     [|destruct (c <? min_confidence self)%float eqn:Hc]|].
  1,2,4: rewrite (proses_deteksi_ditolak tid _ f c self) by auto; cbn [fst snd];
    pose proof (ambil_excavator_tetap tid self) as (_ & _ & -> & _);
    by rewrite ambil_excavator_jumlah.
  rewrite (proses_deteksi_diterima tid f c self Hin Hc).
  pose proof (ambil_excavator_lookup tid self) as Hl.
  pose proof (ambil_excavator_jumlah tid self) as Hj.
  destruct (ambil_excavator tid self) as [e s1]; cbn [fst snd] in *.
  destruct (best_dump e) as [b|]; cbn [fst snd excavators total_passing].
  - destruct (bd_confidence b <? c)%float; [|lia].
    rewrite (jumlah_insert_Some _ _ _ _ _ Hl). cbn [passing_count]. lia.
  - rewrite (jumlah_insert_Some _ _ _ _ _ Hl). cbn [passing_count]. lia.
Qed.

Lemma selesaikan_siklus_konsisten tid self :
  passing_konsisten self → passing_konsisten (selesaikan_siklus tid self).
Proof.
  unfold passing_konsisten, selesaikan_siklus. intros Hk.
  destruct (active_cycle self !! tid); [|done]. cbn [excavators set_active_cycle].
  destruct (excavators self !! tid) as [e|] eqn:He; [|done].
  cbn [excavators total_passing set_excavators set_active_cycle].
  rewrite (jumlah_insert_Some _ _ _ _ _ He). cbn [passing_count]. lia.
Qed.

Lemma reset_all_counters_konsisten self : passing_konsisten (reset_all_counters self).
Proof.
  unfold passing_konsisten, reset_all_counters. cbn [excavators total_passing].
  by rewrite jumlah_fmap_nol.
Qed.

Lemma jalankan_passing_konsisten op self :
  passing_konsisten self → passing_konsisten (jalankan_passing op self).
Proof.
  destruct op; cbn [jalankan_passing]; intros Hk; try done.
  - by apply proses_deteksi_konsisten.
  - by apply selesaikan_siklus_konsisten.
  - apply reset_all_counters_konsisten.
Qed.

(** C4: in every state a passing counter can reach, [total_passing] is the sum
    of [passing_count] over the entries of [excavators], and every method
    ([proses_deteksi], [selesaikan_siklus], [reset_all_counters] and the two
    query methods) keeps that equality. *)
Theorem passing_total_is_sum_of_counts (m : float) :
  (∀ self, passing_terjangkau m self →
     total_passing self = jumlah passing_count (excavators self))
  ∧ (∀ op self,
       total_passing self = jumlah passing_count (excavators self) →
       total_passing (jalankan_passing op self)
       = jumlah passing_count (excavators (jalankan_passing op self))).
Proof.
  split.
  - intros self Hr. induction Hr as [|op self _ IH].
    + cbn [init total_passing excavators]. by rewrite jumlah_empty.
    + by apply jalankan_passing_konsisten.
  - intros op self. apply jalankan_passing_konsisten.
Qed.

Lemma passing_total_is_sum_of_counts_witness :
  let self := jalankan_passing (OpProsesDeteksi 1 2 10 0.81) (Passing.init 0.8) in
  passing_terjangkau 0.8 self
  ∧ total_passing self = jumlah passing_count (excavators self)
  ∧ total_passing (jalankan_passing OpResetAllCounters self)
    = jumlah passing_count (excavators (jalankan_passing OpResetAllCounters self)).
Proof.
  cbv zeta.
  assert (passing_terjangkau 0.8
            (jalankan_passing (OpProsesDeteksi 1 2 10 0.81) (Passing.init 0.8))) as Hr.
  { apply terjangkau_langkah, terjangkau_init. }
  pose proof (proj1 (passing_total_is_sum_of_counts 0.8) _ Hr) as Hs.
  split_and!; [exact Hr|exact Hs|].
  exact (proj2 (passing_total_is_sum_of_counts 0.8) OpResetAllCounters _ Hs).
Defined.

(** C8: [reset_all_counters] sets the count of every excavator to 0 and its
    candidate to [None], sets [total_passing] to 0, empties the active-cycle
    map and the seen-set; a dump detection fed afterwards whose confidence is
    not below the threshold is accepted and counted as a new passing, whether
    or not its identity had been seen before the reset. *)
Theorem passing_reset_all_counters_allows_recount self :
  let s := reset_all_counters self in
  (∀ k, is_Some (excavators self !! k) →
        excavators s !! k = Some {| passing_count := 0; best_dump := None |})
  ∧ (∀ k, excavators self !! k = None → excavators s !! k = None)
  ∧ total_passing s = 0
  ∧ active_cycle s = ∅
  ∧ counted_dumps s = ∅
  ∧ min_confidence s = min_confidence self
  ∧ (∀ tid f c,
       (c <? min_confidence self)%float = false →
       let r := proses_deteksi tid CLASS_BUCKET_DUMPING f c s in
       r.1 = true
       ∧ total_passing r.2 = 1
       ∧ dapatkan_passing_count (Some tid) r.2 = 1
       ∧ buat_id tid f ∈ counted_dumps r.2).
Proof.
  cbv zeta. split_and!; try done.
  - intros k [e He]. cbn [reset_all_counters excavators].
    by rewrite lookup_fmap, He.
  - intros k He. cbn [reset_all_counters excavators]. by rewrite lookup_fmap, He.
  - intros tid f c Hc.
    assert (best_dump_of tid (reset_all_counters self) = None) as Hb.
    { unfold best_dump_of. cbn [reset_all_counters excavators].
      rewrite lookup_fmap. by destruct (excavators self !! tid). }
    assert (dapatkan_passing_count (Some tid) (reset_all_counters self) = 0) as Hz.
    { unfold dapatkan_passing_count. cbn [reset_all_counters excavators].
      rewrite lookup_fmap. by destruct (excavators self !! tid). }
    pose proof (proses_deteksi_dump_langkah tid f c (reset_all_counters self))
      as (Ht & Hn & _).
    assert (buat_id tid f ∉ counted_dumps (reset_all_counters self)) as Hid
      by (cbn [reset_all_counters counted_dumps]; set_solver).
    cbv zeta in *.
    rewrite (proses_deteksi_diterima tid f c (reset_all_counters self) Hid Hc) in *.
    rewrite ambil_excavator_best, Hb in *. cbn [fst snd] in *.
    rewrite Hz in Hn.
    split_and!; [done|done|done|cbn [counted_dumps]; set_solver].
Qed.

Lemma passing_reset_all_counters_allows_recount_witness :
  let self := (proses_deteksi 1 CLASS_BUCKET_DUMPING 10 0.81 (Passing.init 0.8)).2 in
  buat_id 1 10 ∈ counted_dumps self
  ∧ (proses_deteksi 1 CLASS_BUCKET_DUMPING 10 0.81 self).1 = false
  ∧ (proses_deteksi 1 CLASS_BUCKET_DUMPING 10 0.81 (reset_all_counters self)).1 = true.
Proof.
  cbv zeta.
  assert (buat_id 1 10
            ∈ counted_dumps
                (proses_deteksi 1 CLASS_BUCKET_DUMPING 10 0.81 (Passing.init 0.8)).2)
    as Hin.
  { apply (bool_decide_unpack _). by vm_compute. }
  split_and!; [exact Hin|by vm_compute|].
  destruct (passing_reset_all_counters_allows_recount
              (proses_deteksi 1 CLASS_BUCKET_DUMPING 10 0.81 (Passing.init 0.8)).2)
    as (_ & _ & _ & _ & _ & _ & H).
  destruct (H 1 10 0.81%float) as (Hr & _); [by vm_compute|exact Hr].
Defined.

End PassingTeoremaLanjut.

(** ** The ritase counter *)

Ltac buka_setter :=
  unfold Ritase.set_total_pencegahan_ganda, Ritase.set_kandidat_siklus,
    Ritase.set_total_deteksi_truk_penuh, Ritase.set_ritase_terbaik_di_siklus,
    Ritase.set_siklus_berjalan_punya_ritase, Ritase.set_total_ritase,
    Ritase.set_siklus_aktif, Ritase.set_truk_full_terhitung, Ritase.set_data_truk;
  cbn [Ritase.data_truk Ritase.truk_full_terhitung Ritase.ambang_kepercayaan
       Ritase.total_ritase Ritase.siklus_aktif Ritase.total_siklus_selesai
       Ritase.total_deteksi_truk_penuh Ritase.siklus_berjalan_punya_ritase
       Ritase.ritase_terbaik_di_siklus Ritase.nomor_siklus
       Ritase.total_pencegahan_ganda Ritase.kandidat_siklus].

Section RitaseLangkah.

Import Ritase.

Lemma ubah_bila_ada {A} (g : A → A) (k : Z) (m : gmap Z A) :
  match m !! k with Some d => <[k := g d]> m | None => m end = alter g k m.
Proof.
  apply map_eq; intros j. destruct (m !! k) as [d|] eqn:Hk.
  - destruct (decide (k = j)) as [<-|Hne].
    + by rewrite lookup_insert_eq, lookup_alter_eq, Hk.
    + by rewrite lookup_insert_ne, lookup_alter_ne.
  - destruct (decide (k = j)) as [<-|Hne].
    + by rewrite lookup_alter_eq, Hk.
    + by rewrite lookup_alter_ne.
Qed.

Lemma pastikan_truck_lookup tid self :
  is_Some (data_truk (pastikan_truck tid self) !! tid).
Proof.
  unfold pastikan_truck. destruct (data_truk self !! tid) eqn:He; [by rewrite He|].
  cbn. rewrite lookup_insert_eq. eauto.
Qed.

Lemma pastikan_truck_count tid self k :
  dapatkan_ritase_count (Some k) (pastikan_truck tid self)
  = dapatkan_ritase_count (Some k) self.
Proof.
  unfold pastikan_truck, dapatkan_ritase_count.
  destruct (data_truk self !! tid) eqn:He; [done|]. cbn.
  destruct (decide (tid = k)) as [<-|Hne].
  - by rewrite lookup_insert_eq, He.
  - by rewrite lookup_insert_ne.
Qed.

Lemma pastikan_truck_jumlah tid self :
  jumlah_ritase (pastikan_truck tid self) = jumlah_ritase self.
Proof.
  unfold pastikan_truck, jumlah_ritase.
  destruct (data_truk self !! tid) eqn:He; [done|]. cbn.
  by rewrite jumlah_insert_None.
Qed.

Lemma pastikan_truck_taknegatif tid self :
  hitungan_taknegatif self → hitungan_taknegatif (pastikan_truck tid self).
Proof.
  unfold pastikan_truck, hitungan_taknegatif. intros H k d.
  destruct (data_truk self !! tid) eqn:He; [apply H|]. cbn.
  destruct (decide (tid = k)) as [<-|Hne].
  - rewrite lookup_insert_eq. by intros [= <-].
  - rewrite lookup_insert_ne by done. apply H.
Qed.

Lemma pastikan_truck_lookup_Some tid self k d :
  data_truk self !! k = Some d → data_truk (pastikan_truck tid self) !! k = Some d.
Proof.
  unfold pastikan_truck. intros Hk.
  destruct (data_truk self !! tid) eqn:He; [done|]. cbn.
  rewrite lookup_insert_ne; [done|]. intros ->. congruence.
Qed.

(** [pastikan_truck] touches the map of trucks only. *)
Lemma pastikan_truck_tetap tid self :
  pastikan_truck tid self = set_data_truk (data_truk (pastikan_truck tid self)) self.
Proof.
  unfold pastikan_truck. destruct (data_truk self !! tid); [|done].
  by destruct self.
Qed.

(** A detection that is neither [truck_full] nor [bucket_dumping]. *)
Lemma proses_deteksi_kelas_lain tid cls f c self :
  cls ≠ CLASS_TRUCK_FULL → cls ≠ CLASS_BUCKET_DUMPING →
  proses_deteksi tid cls f c self = (false, pastikan_truck tid self).
Proof.
  intros H6 H2. unfold proses_deteksi.
  by rewrite decide_False, decide_False.
Qed.

(** A [bucket_dumping] detection closes the global cycle. *)
Lemma proses_deteksi_tutup tid f c self :
  proses_deteksi tid CLASS_BUCKET_DUMPING f c self
  = (false, selesaikan_siklus_global (pastikan_truck tid self)).
Proof. done. Qed.

(** A [truck_full] detection in a cycle that already has a ritase. *)
Lemma proses_deteksi_ganda tid f c self :
  siklus_berjalan_punya_ritase self = true →
  let s1 := pastikan_truck tid self in
  let lebih_baik :=
    match ritase_terbaik_di_siklus self with
    | None => true
    | Some b => (rt_confidence b <? c)%float
    end in
  let baru :=
    {| bf_full_truck_id := buat_id tid f; bf_frame_index := f; bf_confidence := c;
       bf_cycle_number := nomor_siklus self |} in
  proses_deteksi tid CLASS_TRUCK_FULL f c self =
  (false,
   {| data_truk :=
        if lebih_baik then
          alter (tambah_ritase baru) tid
            (match ritase_terbaik_di_siklus self with
             | Some lama => alter kurangi_ritase (rt_tracker_id lama) (data_truk s1)
             | None => data_truk s1
             end)
        else data_truk s1;
      truk_full_terhitung := truk_full_terhitung self;
      ambang_kepercayaan := ambang_kepercayaan self;
      total_ritase := total_ritase self;
      siklus_aktif := siklus_aktif self;
      total_siklus_selesai := total_siklus_selesai self;
      total_deteksi_truk_penuh := total_deteksi_truk_penuh self + 1;
      siklus_berjalan_punya_ritase := true;
      ritase_terbaik_di_siklus :=
        if lebih_baik then
          Some {| rt_tracker_id := tid; rt_frame_index := f; rt_confidence := c;
                  rt_cycle_number := nomor_siklus self |}
        else ritase_terbaik_di_siklus self;
      nomor_siklus := nomor_siklus self;
      total_pencegahan_ganda := total_pencegahan_ganda self + 1;
      kandidat_siklus :=
        kandidat_siklus self ++
          [{| ki_tracker_id := tid; ki_frame_index := f; ki_confidence := c;
              ki_status := if lebih_baik then "better_candidate" else "rejected" |}] |}).
Proof.
  intros Hp. cbv zeta. unfold proses_deteksi.
  rewrite (pastikan_truck_tetap tid self).
  generalize (data_truk (pastikan_truck tid self)); intros m1.
  rewrite decide_True by done.
  destruct self as [dt seen amb tot sa tss tdp has best ns tpg ks].
  cbn in Hp. subst has. cbn.
  destruct best as [b|]; cbn; [|done].
  destruct (rt_confidence b <? c)%float; cbn; [|done].
  rewrite <-(ubah_bila_ada kurangi_ritase (rt_tracker_id b) m1).
  by destruct (m1 !! rt_tracker_id b).
Qed.

(** A [truck_full] detection in a cycle without a ritase, taken as the first. *)
Lemma proses_deteksi_pertama tid f c self :
  siklus_berjalan_punya_ritase self = false →
  buat_id tid f ∉ truk_full_terhitung self →
  (ambang_kepercayaan self <=? c)%float = true →
  let s1 := pastikan_truck tid self in
  proses_deteksi tid CLASS_TRUCK_FULL f c self =
  (true,
   {| data_truk :=
        alter
          (tambah_ritase
             {| bf_full_truck_id := buat_id tid f; bf_frame_index := f;
                bf_confidence := c; bf_cycle_number := nomor_siklus self |})
          tid (data_truk s1);
      truk_full_terhitung := {[buat_id tid f]} ∪ truk_full_terhitung self;
      ambang_kepercayaan := ambang_kepercayaan self;
      total_ritase := total_ritase self + 1;
      siklus_aktif :=
        <[tid := default [] (siklus_aktif self !! tid) ++
                   [{| fd_full_truck_id := buat_id tid f; fd_frame_index := f;
                       fd_confidence := c |}]]> (siklus_aktif self);
      total_siklus_selesai := total_siklus_selesai self;
      total_deteksi_truk_penuh := total_deteksi_truk_penuh self + 1;
      siklus_berjalan_punya_ritase := true;
      ritase_terbaik_di_siklus :=
        Some {| rt_tracker_id := tid; rt_frame_index := f; rt_confidence := c;
                rt_cycle_number := nomor_siklus self |};
      nomor_siklus := nomor_siklus self;
      total_pencegahan_ganda := total_pencegahan_ganda self;
      kandidat_siklus :=
        kandidat_siklus self ++
          [{| ki_tracker_id := tid; ki_frame_index := f; ki_confidence := c;
              ki_status := "accepted_as_primary" |}] |}).
Proof.
  intros Hp Hid Hc. cbv zeta. unfold proses_deteksi.
  rewrite (pastikan_truck_tetap tid self).
  generalize (data_truk (pastikan_truck tid self)); intros m1.
  rewrite decide_True by done.
  destruct self as [dt seen amb tot sa tss tdp has best ns tpg ks].
  cbn in Hp, Hid, Hc. subst has. cbn.
  by rewrite Hc, bool_decide_eq_false_2 by done.
Qed.

(** A [truck_full] detection in a cycle without a ritase that is not taken:
    its identity was counted before, or its confidence is not at least the
    threshold. *)
Lemma proses_deteksi_tak_dihitung tid f c self :
  siklus_berjalan_punya_ritase self = false →
  buat_id tid f ∈ truk_full_terhitung self
  ∨ (ambang_kepercayaan self <=? c)%float = false →
  proses_deteksi tid CLASS_TRUCK_FULL f c self =
  (false,
   set_total_deteksi_truk_penuh (total_deteksi_truk_penuh self + 1)
     (pastikan_truck tid self)).
Proof.
  intros Hp H. unfold proses_deteksi.
  rewrite (pastikan_truck_tetap tid self).
  generalize (data_truk (pastikan_truck tid self)); intros m1.
  rewrite decide_True by done.
  destruct self as [dt seen amb tot sa tss tdp has best ns tpg ks].
  cbn in Hp, H. subst has. cbn.
  destruct H as [H|H].
  - by rewrite bool_decide_eq_true_2.
  - by rewrite H, andb_false_r.
Qed.

End RitaseLangkah.

Section RitaseTutup.

Import Ritase.

Lemma tetap_di_luar_siklus_refl self : tetap_di_luar_siklus self self.
Proof. by repeat split. Qed.

Lemma tetap_di_luar_siklus_trans s1 s2 s3 :
  tetap_di_luar_siklus s1 s2 → tetap_di_luar_siklus s2 s3 →
  tetap_di_luar_siklus s1 s3.
Proof.
  unfold tetap_di_luar_siklus. intros H1 H2.
  destruct_and!. split_and!; first [congruence|intros k; etrans; eauto].
Qed.

Lemma selesaikan_siklus_tetap tid self :
  tetap_di_luar_siklus self (selesaikan_siklus tid self).
Proof.
  unfold selesaikan_siklus.
  destruct (siklus_aktif self !! tid); [|apply tetap_di_luar_siklus_refl].
  buka_setter.
  destruct (data_truk self !! tid) as [d|] eqn:Hd; [|by repeat split].
  unfold tetap_di_luar_siklus. buka_setter. split_and!; try done.
  intros k. destruct (decide (tid = k)) as [<-|Hne].
  - by rewrite lookup_insert_eq, Hd.
  - by rewrite lookup_insert_ne.
Qed.

Lemma tutup_semua_tetap l self :
  tetap_di_luar_siklus self
    (foldl (λ acc id_truk, selesaikan_siklus id_truk acc) self l).
Proof.
  revert self. induction l as [|tid l IH]; intros self; simpl.
  - apply tetap_di_luar_siklus_refl.
  - eapply tetap_di_luar_siklus_trans; [apply selesaikan_siklus_tetap|apply IH].
Qed.

Lemma truk_dengan_siklus_aktif_elem self tid :
  tid ∈ truk_dengan_siklus_aktif self
  ↔ ∃ dets, siklus_aktif self !! tid = Some dets ∧ dets ≠ [].
Proof.
  unfold truk_dengan_siklus_aktif. rewrite list_elem_of_fmap. split.
  - intros ([k dets] & -> & Hin). apply list_elem_of_filter in Hin as [Hlen Hin].
    apply elem_of_map_to_list in Hin. exists dets. split; [done|].
    intros ->. simpl in Hlen. lia.
  - intros (dets & Hl & Hne). exists (tid, dets). split; [done|].
    apply list_elem_of_filter. split; [|by apply elem_of_map_to_list].
    simpl. destruct dets; [done|simpl; lia].
Qed.

Lemma truk_dengan_siklus_aktif_ada self :
  truk_dengan_siklus_aktif self ≠ [] ↔ ada_siklus_aktif self.
Proof.
  unfold ada_siklus_aktif. split.
  - intros Hne. destruct (truk_dengan_siklus_aktif self) as [|tid l] eqn:Hl; [done|].
    exists tid. apply truk_dengan_siklus_aktif_elem. rewrite Hl. left.
  - intros (tid & dets & H) Hnil.
    assert (tid ∈ truk_dengan_siklus_aktif self) as Hin
      by (apply truk_dengan_siklus_aktif_elem; eauto).
    rewrite Hnil in Hin. by apply not_elem_of_nil in Hin.
Qed.

Lemma dapatkan_ritase_count_fmap s self k :
  ritase_count <$> (data_truk s !! k) = ritase_count <$> (data_truk self !! k) →
  dapatkan_ritase_count (Some k) s = dapatkan_ritase_count (Some k) self.
Proof.
  unfold dapatkan_ritase_count.
  destruct (data_truk s !! k), (data_truk self !! k); simpl; congruence.
Qed.

(** C5: [_selesaikan_siklus_global], called while some truck has a non-empty
    active-cycle list or the global cycle has a credited ritase, adds exactly 1
    to [nomor_siklus] and to [total_siklus_selesai], sets
    [siklus_berjalan_punya_ritase] to [False], [ritase_terbaik_di_siklus] to
    [None] and empties [kandidat_siklus]; called when neither holds it leaves
    the whole state, hence the cycle number, the completed cycles and every
    count, as it was. In both cases no ritase count changes. *)
Theorem ritase_close_global_cycle self :
  let s := selesaikan_siklus_global self in
  (ada_siklus_aktif self ∨ siklus_berjalan_punya_ritase self = true →
     nomor_siklus s = nomor_siklus self + 1
     ∧ total_siklus_selesai s = total_siklus_selesai self + 1
     ∧ siklus_berjalan_punya_ritase s = false
     ∧ ritase_terbaik_di_siklus s = None
     ∧ kandidat_siklus s = [])
  ∧ (¬ ada_siklus_aktif self → siklus_berjalan_punya_ritase self = false →
     s = self)
  ∧ total_ritase s = total_ritase self
  ∧ (∀ k, dapatkan_ritase_count (Some k) s = dapatkan_ritase_count (Some k) self).
Proof.
  cbv zeta. unfold selesaikan_siklus_global.
  pose proof (tutup_semua_tetap (truk_dengan_siklus_aktif self) self) as Ht.
  pose proof (truk_dengan_siklus_aktif_ada self) as Hada.
  destruct (truk_dengan_siklus_aktif self) as [|tid l] eqn:Hl.
  - cbn [foldl] in *. rewrite bool_decide_eq_false_2 by (intros H; by apply H).
    cbn [orb]. split_and!.
    + intros [H|H]; [by apply Hada in H|]. by rewrite H.
    + intros _ ->. done.
    + by destruct (siklus_berjalan_punya_ritase self).
    + by destruct (siklus_berjalan_punya_ritase self).
  - rewrite bool_decide_eq_true_2 by done. cbn [orb].
    set (s := foldl _ _ _) in *.
    unfold tetap_di_luar_siklus in Ht. destruct_and!.
    cbn [nomor_siklus total_siklus_selesai siklus_berjalan_punya_ritase
         ritase_terbaik_di_siklus kandidat_siklus total_ritase].
    split_and!; try done.
    + intros _. split_and!; try done; congruence.
    + intros Hno. exfalso. apply Hno, Hada. done.
    + intros k. by apply dapatkan_ritase_count_fmap.
Qed.

Lemma ritase_close_global_cycle_witness :
  let s0 := (proses_deteksi 100 CLASS_TRUCK_FULL 50 0.95 (Ritase.init 0.9)).2 in
  (nomor_siklus (selesaikan_siklus_global s0) = nomor_siklus s0 + 1
   ∧ total_siklus_selesai (selesaikan_siklus_global s0) = total_siklus_selesai s0 + 1)
  ∧ selesaikan_siklus_global (Ritase.init 0.9) = Ritase.init 0.9.
Proof.
  cbv zeta. split.
  - destruct (ritase_close_global_cycle
                (proses_deteksi 100 CLASS_TRUCK_FULL 50 0.95 (Ritase.init 0.9)).2)
      as (H & _).
    destruct H as (Hn & Ht & _); [right; by vm_compute|exact (conj Hn Ht)].
  - destruct (ritase_close_global_cycle (Ritase.init 0.9)) as (_ & H & _).
    apply H; [|by vm_compute].
    intros (tid & dets & Hl & _). cbn in Hl. by rewrite lookup_empty in Hl.
Defined.

End RitaseTutup.

Section RitaseReset.

Import Ritase.

(** C6: on a fresh counter with threshold 0.9, truck 100's [truck_full] at
    frame 50 with confidence 0.95 returns [True] and makes [total_ritase] 1;
    bucket 200's [bucket_dumping] at frame 60 with confidence 0.9 closes the
    global cycle, after which [nomor_siklus] is 1 and the cycle has no ritase;
    truck 100's [truck_full] at frame 70 with confidence 0.92 then returns
    [True] again and makes [total_ritase] 2. *)
Theorem ritase_end_to_end_two_cycles :
  let s0 := Ritase.init 0.9 in
  let r1 := proses_deteksi 100 CLASS_TRUCK_FULL 50 0.95 s0 in
  let r2 := proses_deteksi 200 CLASS_BUCKET_DUMPING 60 0.9 r1.2 in
  let r3 := proses_deteksi 100 CLASS_TRUCK_FULL 70 0.92 r2.2 in
  (r1.1 = true ∧ total_ritase r1.2 = 1 ∧ nomor_siklus r1.2 = 0
   ∧ siklus_berjalan_punya_ritase r1.2 = true)
  ∧ (r2.1 = false ∧ nomor_siklus r2.2 = 1
     ∧ siklus_berjalan_punya_ritase r2.2 = false
     ∧ ritase_terbaik_di_siklus r2.2 = None ∧ total_ritase r2.2 = 1)
  ∧ (r3.1 = true ∧ total_ritase r3.2 = 2
     ∧ dapatkan_ritase_count (Some 100) r3.2 = 2).
Proof. by vm_compute. Qed.

(** C9: [reset_counters] sets [total_ritase] to 0 and, for every truck, the
    count to 0 and the candidate to [None], and leaves [nomor_siklus],
    [total_siklus_selesai] and the seen-set [truk_full_terhitung] as they
    were; the passing counter's [reset_all_counters] empties its seen-set
    as well. *)
Theorem ritase_reset_counters_keeps_cycle_numbering self :
  let s := reset_counters self in
  total_ritase s = 0
  ∧ (∀ k d, data_truk self !! k = Some d →
       data_truk s !! k
       = Some {| ritase_count := 0; best_full := None;
                 last_cycle_frame := last_cycle_frame d;
                 last_cycle_number := last_cycle_number d |})
  ∧ (∀ k, data_truk self !! k = None → data_truk s !! k = None)
  ∧ (∀ k, dapatkan_ritase_count (Some k) s = 0)
  ∧ nomor_siklus s = nomor_siklus self
  ∧ total_siklus_selesai s = total_siklus_selesai self
  ∧ truk_full_terhitung s = truk_full_terhitung self
  ∧ (∀ p, Passing.counted_dumps (Passing.reset_all_counters p) = ∅).
Proof.
  cbv zeta. unfold reset_counters. buka_setter. split_and!; try done.
  - intros k d Hd. by rewrite lookup_fmap, Hd.
  - intros k Hd. by rewrite lookup_fmap, Hd.
  - intros k. unfold dapatkan_ritase_count. buka_setter.
    rewrite lookup_fmap. by destruct (data_truk self !! k).
Qed.

Lemma ritase_reset_counters_keeps_cycle_numbering_witness :
  let self := (proses_deteksi 100 CLASS_TRUCK_FULL 50 0.95 (Ritase.init 0.9)).2 in
  dapatkan_ritase_count (Some 100) self = 1
  ∧ data_truk (reset_counters self) !! 100
    = Some {| ritase_count := 0; best_full := None; last_cycle_frame := 0;
              last_cycle_number := -1 |}
  ∧ buat_id 100 50 ∈ truk_full_terhitung (reset_counters self).
Proof.
  cbv zeta. split_and!; [by vm_compute| |].
  - destruct (ritase_reset_counters_keeps_cycle_numbering
                (proses_deteksi 100 CLASS_TRUCK_FULL 50 0.95 (Ritase.init 0.9)).2)
      as (_ & H & _).
    apply (H 100 {| ritase_count := 1;
                    best_full := Some {| bf_full_truck_id := buat_id 100 50;
                                         bf_frame_index := 50;
                                         bf_confidence := 0.95;
                                         bf_cycle_number := 0 |};
                    last_cycle_frame := 0; last_cycle_number := -1 |}).
    by vm_compute.
  - destruct (ritase_reset_counters_keeps_cycle_numbering
                (proses_deteksi 100 CLASS_TRUCK_FULL 50 0.95 (Ritase.init 0.9)).2)
      as (_ & _ & _ & _ & _ & _ & -> & _).
    apply (bool_decide_unpack _). by vm_compute.
Defined.

Lemma pastikan_truck_bendera tid self :
  siklus_berjalan_punya_ritase (pastikan_truck tid self)
  = siklus_berjalan_punya_ritase self
  ∧ ritase_terbaik_di_siklus (pastikan_truck tid self)
    = ritase_terbaik_di_siklus self
  ∧ total_ritase (pastikan_truck tid self) = total_ritase self
  ∧ truk_full_terhitung (pastikan_truck tid self) = truk_full_terhitung self.
Proof. rewrite (pastikan_truck_tetap tid self). by buka_setter. Qed.

(** In a cycle that has a ritase, a detection that does not close the cycle
    returns [False] and leaves [total_ritase] and the flag as they are. *)
Lemma proses_deteksi_siklus_terkredit tid cls f c self :
  siklus_berjalan_punya_ritase self = true →
  cls ≠ CLASS_BUCKET_DUMPING →
  let r := proses_deteksi tid cls f c self in
  r.1 = false ∧ total_ritase r.2 = total_ritase self
  ∧ siklus_berjalan_punya_ritase r.2 = true.
Proof.
  intros Hp H2. cbv zeta.
  destruct (decide (cls = CLASS_TRUCK_FULL)) as [->|H6].
  - by rewrite (proses_deteksi_ganda tid f c self Hp).
  - rewrite (proses_deteksi_kelas_lain tid cls f c self H6 H2). cbn [fst snd].
    pose proof (pastikan_truck_bendera tid self) as (-> & _ & -> & _). done.
Qed.

Lemma ritase_semua_siklus_terkredit ds self :
  siklus_berjalan_punya_ritase self = true →
  Forall (λ d, class_id d ≠ CLASS_BUCKET_DUMPING) ds →
  let r := ritase_proses_semua ds self in
  Forall (λ b, b = false) r.1 ∧ total_ritase r.2 = total_ritase self
  ∧ siklus_berjalan_punya_ritase r.2 = true.
Proof.
  intros Hp Hds. revert self Hp.
  induction Hds as [|d ds Hd Hds IH]; intros self Hp; simpl; [done|].
  pose proof (proses_deteksi_siklus_terkredit (tracker_id d) (class_id d)
                (frame_index d) (confidence d) self Hp Hd) as (Hr & Ht & Hp').
  simpl in *.
  destruct (proses_deteksi (tracker_id d) (class_id d) (frame_index d)
              (confidence d) self) as [r s1]; simpl in *.
  specialize (IH s1 Hp'). simpl in IH.
  destruct (ritase_proses_semua ds s1) as [rs s2]; simpl in *.
  destruct IH as (IH1 & IH2 & IH3). split_and!; [by constructor|congruence|done].
Qed.

(** C10: [reset_counters] leaves [siklus_berjalan_punya_ritase] and
    [ritase_terbaik_di_siklus] as they were; so when it is called in a cycle
    that has a credited ritase, every later detection of that cycle (any
    detection but the closing [bucket_dumping]) returns [False] and
    [total_ritase] stays 0. A swap can still move a truck's count, and after
    the closing signal a [truck_full] detection is credited again. *)
Theorem ritase_reset_counters_keeps_cycle_flags :
  (∀ self,
     siklus_berjalan_punya_ritase (reset_counters self)
     = siklus_berjalan_punya_ritase self
     ∧ ritase_terbaik_di_siklus (reset_counters self)
       = ritase_terbaik_di_siklus self
     ∧ (siklus_berjalan_punya_ritase self = true →
        ∀ ds, Forall (λ d, class_id d ≠ CLASS_BUCKET_DUMPING) ds →
        let r := ritase_proses_semua ds (reset_counters self) in
        Forall (λ b, b = false) r.1 ∧ total_ritase r.2 = 0
        ∧ siklus_berjalan_punya_ritase r.2 = true))
  ∧ (let s1 := reset_counters
                 (proses_deteksi 100 CLASS_TRUCK_FULL 50 0.95 (Ritase.init 0.9)).2 in
     let r2 := proses_deteksi 200 CLASS_TRUCK_FULL 51 0.97 s1 in
     let r3 := proses_deteksi 300 CLASS_BUCKET_DUMPING 60 0.9 r2.2 in
     let r4 := proses_deteksi 100 CLASS_TRUCK_FULL 70 0.92 r3.2 in
     (r2.1 = false ∧ total_ritase r2.2 = 0
      ∧ dapatkan_ritase_count (Some 200) s1 = 0
      ∧ dapatkan_ritase_count (Some 200) r2.2 = 1)
     ∧ (r4.1 = true ∧ total_ritase r4.2 = 1)).
Proof.
  split; [|by vm_compute].
  intros self. split_and!; [done|done|].
  intros Hp ds Hds.
  apply (ritase_semua_siklus_terkredit ds (reset_counters self)); [|done].
  exact Hp.
Qed.

Lemma ritase_reset_counters_keeps_cycle_flags_witness :
  let self := (proses_deteksi 100 CLASS_TRUCK_FULL 50 0.95 (Ritase.init 0.9)).2 in
  let ds := [ {| tracker_id := 100; class_id := 6; frame_index := 51;
                 confidence := 0.99 |};
              {| tracker_id := 200; class_id := 6; frame_index := 52;
                 confidence := 0.91 |} ] in
  siklus_berjalan_punya_ritase self = true
  ∧ Forall (λ b, b = false) (ritase_proses_semua ds (reset_counters self)).1
  ∧ total_ritase (ritase_proses_semua ds (reset_counters self)).2 = 0.
Proof.
  cbv zeta.
  assert (siklus_berjalan_punya_ritase
            (proses_deteksi 100 CLASS_TRUCK_FULL 50 0.95 (Ritase.init 0.9)).2 = true)
    as Hp by (by vm_compute).
  split; [exact Hp|].
  destruct (proj1 ritase_reset_counters_keeps_cycle_flags
              (proses_deteksi 100 CLASS_TRUCK_FULL 50 0.95 (Ritase.init 0.9)).2)
    as (_ & _ & H).
  destruct (H Hp [ {| tracker_id := 100; class_id := 6; frame_index := 51;
                      confidence := 0.99 |};
                   {| tracker_id := 200; class_id := 6; frame_index := 52;
                      confidence := 0.91 |} ]) as (Hr & Ht & _).
  - repeat constructor; unfold CLASS_BUCKET_DUMPING; simpl; lia.
  - exact (conj Hr Ht).
Defined.

End RitaseReset.

Section RitaseTukar.

Import Ritase.

Lemma dapatkan_ritase_count_lookup k self :
  dapatkan_ritase_count (Some k) self
  = default 0 (ritase_count <$> data_truk self !! k).
Proof. unfold dapatkan_ritase_count. by destruct (data_truk self !! k). Qed.

(** The two writes of a swap, on the map of trucks: the count of the previous
    owner [lama] goes down by one, floored at 0, then the count of [tid] goes
    up by one. *)
Lemma tukar_lookup (m : gmap Z TruckData) lama tid b k :
  ritase_count <$> (alter (tambah_ritase b) tid (alter kurangi_ritase lama m) !! k)
  = (λ n, (if decide (k = tid) then 1 else 0)
          + (if decide (k = lama) then Z.max 0 (n - 1) else n))
    <$> (ritase_count <$> (m !! k)).
Proof.
  destruct (decide (k = tid)) as [Ht|Ht], (decide (k = lama)) as [Hl|Hl]; subst.
  - rewrite !lookup_alter_eq. destruct (m !! lama); simpl; f_equal; lia.
  - rewrite lookup_alter_eq, lookup_alter_ne by done.
    destruct (m !! tid); simpl; f_equal; lia.
  - rewrite lookup_alter_ne, lookup_alter_eq by done.
    destruct (m !! lama); simpl; f_equal; lia.
  - rewrite !lookup_alter_ne by done. destruct (m !! k); simpl; f_equal; lia.
Qed.

Lemma tukar_jumlah (m : gmap Z TruckData) lama tid b d :
  m !! lama = Some d → 1 ≤ ritase_count d → is_Some (m !! tid) →
  jumlah ritase_count (alter (tambah_ritase b) tid (alter kurangi_ritase lama m))
  = jumlah ritase_count m.
Proof.
  intros Hl Hd [dt Ht].
  assert (is_Some (alter kurangi_ritase lama m !! tid)) as [dt' Ht'].
  { rewrite lookup_alter_is_Some. eauto. }
  rewrite (jumlah_alter _ _ _ _ _ Ht'), (jumlah_alter _ _ _ _ _ Hl).
  cbn [tambah_ritase kurangi_ritase ritase_count]. lia.
Qed.

Lemma tambah_lookup (m : gmap Z TruckData) tid b k :
  ritase_count <$> (alter (tambah_ritase b) tid m !! k)
  = (λ n, (if decide (k = tid) then 1 else 0) + n) <$> (ritase_count <$> (m !! k)).
Proof.
  destruct (decide (k = tid)) as [->|Ht].
  - rewrite lookup_alter_eq. destruct (m !! tid); simpl; f_equal; lia.
  - rewrite lookup_alter_ne by done. destruct (m !! k); simpl; f_equal; lia.
Qed.

Lemma taknegatif_fmap (m m' : gmap Z TruckData) (g : Z → Z → Z) :
  (∀ k, ritase_count <$> (m' !! k) = g k <$> (ritase_count <$> (m !! k))) →
  (∀ k n, 0 ≤ n → 0 ≤ g k n) →
  (∀ k d, m !! k = Some d → 0 ≤ ritase_count d) →
  ∀ k d, m' !! k = Some d → 0 ≤ ritase_count d.
Proof.
  intros Hm Hg H k d Hd. specialize (Hm k). rewrite Hd in Hm.
  destruct (m !! k) as [d0|] eqn:Hk; simpl in Hm; [|done].
  injection Hm as ->. apply Hg. by apply (H k d0).
Qed.

End RitaseTukar.

Section RitaseInvarian.

Import Ritase.

Lemma langkah_tanpa_ubah tid self s :
  data_truk s = data_truk (pastikan_truck tid self) →
  siklus_berjalan_punya_ritase s = siklus_berjalan_punya_ritase self →
  ritase_terbaik_di_siklus s = ritase_terbaik_di_siklus self →
  total_ritase s = total_ritase self →
  hitungan_taknegatif self → pemilik_terhitung self →
  langkah_terjaga self 0 s.
Proof.
  intros Hd Hh Hb Ht Hn Hp. unfold langkah_terjaga.
  assert (∀ k, dapatkan_ritase_count (Some k) s
               = dapatkan_ritase_count (Some k) self) as Hc.
  { intros k. rewrite <-(pastikan_truck_count tid self k).
    unfold dapatkan_ritase_count. by rewrite Hd. }
  split_and!.
  - unfold hitungan_taknegatif. rewrite Hd. by apply pastikan_truck_taknegatif.
  - unfold pemilik_terhitung. rewrite Hh, Hb, Hd. intros H.
    destruct (Hp H) as (b & d & ? & ? & ?). exists b, d.
    split_and!; [done| |done]. by apply pastikan_truck_lookup_Some.
  - unfold jumlah_ritase, kredit_siklus. rewrite Hd, Hh.
    fold (jumlah_ritase (pastikan_truck tid self)).
    by rewrite pastikan_truck_jumlah.
  - unfold kredit_siklus. by rewrite Hh, Ht.
  - unfold kredit_siklus. rewrite Hh. lia.
  - intros k. unfold kredit_truk. by rewrite Hh, Hb, Hc.
Qed.

Lemma langkah_tukar tid f c self b :
  siklus_berjalan_punya_ritase self = true →
  ritase_terbaik_di_siklus self = Some b →
  (rt_confidence b <? c)%float = true →
  hitungan_taknegatif self → pemilik_terhitung self →
  langkah_terjaga self
    (if (proses_deteksi tid CLASS_TRUCK_FULL f c self).1 then 1 else 0)
    (proses_deteksi tid CLASS_TRUCK_FULL f c self).2.
Proof.
  intros Hh Hb Hlt Hn Hp.
  rewrite (proses_deteksi_ganda tid f c self Hh). rewrite Hb, Hlt.
  destruct (Hp Hh) as (b' & d & Hb' & Hd & Hge).
  rewrite Hb in Hb'. injection Hb' as <-.
  apply (pastikan_truck_lookup_Some tid) in Hd.
  pose proof (pastikan_truck_lookup tid self) as Ht.
  pose proof (pastikan_truck_taknegatif tid self Hn) as Hn1.
  pose proof (pastikan_truck_jumlah tid self) as Hj.
  pose proof (pastikan_truck_count tid self) as Hc.
  unfold jumlah_ritase in Hj. unfold hitungan_taknegatif in Hn1.
  setoid_rewrite dapatkan_ritase_count_lookup in Hc.
  set (m1 := data_truk (pastikan_truck tid self)) in *.
  unfold langkah_terjaga. cbn [fst snd]. split_and!.
  - unfold hitungan_taknegatif. cbn [data_truk].
    eapply taknegatif_fmap; [intros k; apply tukar_lookup| |exact Hn1].
    intros k n Hk. cbn beta. repeat case_decide; lia.
  - intros _. cbn [ritase_terbaik_di_siklus data_truk rt_tracker_id].
    destruct Ht as [dt Hdt].
    pose proof (tukar_lookup m1 (rt_tracker_id b) tid
                  {| bf_full_truck_id := buat_id tid f; bf_frame_index := f;
                     bf_confidence := c; bf_cycle_number := nomor_siklus self |}
                  tid) as Hl.
    rewrite Hdt in Hl. simpl in Hl. rewrite decide_True in Hl by done.
    destruct (alter _ tid _ !! tid) as [d'|] eqn:Hd'; [|done].
    eexists _, d'. split_and!; [done|done|].
    injection Hl as ->. pose proof (Hn1 tid dt Hdt). case_decide; lia.
  - unfold jumlah_ritase, kredit_siklus. cbn [data_truk siklus_berjalan_punya_ritase].
    rewrite Hh. rewrite (tukar_jumlah m1 _ _ _ d) by done. lia.
  - unfold kredit_siklus. cbn [total_ritase siklus_berjalan_punya_ritase].
    by rewrite Hh.
  - unfold kredit_siklus. cbn [siklus_berjalan_punya_ritase]. rewrite Hh. lia.
  - intros k. rewrite !dapatkan_ritase_count_lookup. unfold kredit_truk.
    cbn [data_truk siklus_berjalan_punya_ritase ritase_terbaik_di_siklus
         rt_tracker_id].
    rewrite Hh, Hb, tukar_lookup, <-Hc. fold m1.
    destruct (decide (k = rt_tracker_id b)) as [->|Hk].
    + rewrite Hd. simpl. rewrite (decide_True (P := rt_tracker_id b = rt_tracker_id b))
        by done.
      repeat case_decide; try congruence; lia.
    + destruct (decide (k = tid)) as [->|Hkt].
      * destruct Ht as [dt ->]. simpl. repeat case_decide; try congruence; lia.
      * destruct (m1 !! k); simpl; repeat case_decide; try congruence; lia.
Qed.

Lemma langkah_pertama tid f c self :
  siklus_berjalan_punya_ritase self = false →
  buat_id tid f ∉ truk_full_terhitung self →
  (ambang_kepercayaan self <=? c)%float = true →
  hitungan_taknegatif self →
  langkah_terjaga self
    (if (proses_deteksi tid CLASS_TRUCK_FULL f c self).1 then 1 else 0)
    (proses_deteksi tid CLASS_TRUCK_FULL f c self).2.
Proof.
  intros Hh Hid Hc Hn.
  rewrite (proses_deteksi_pertama tid f c self Hh Hid Hc).
  pose proof (pastikan_truck_lookup tid self) as [dt Hdt].
  pose proof (pastikan_truck_taknegatif tid self Hn) as Hn1.
  pose proof (pastikan_truck_jumlah tid self) as Hj.
  pose proof (pastikan_truck_count tid self) as Hcnt.
  unfold jumlah_ritase in Hj. unfold hitungan_taknegatif in Hn1.
  setoid_rewrite dapatkan_ritase_count_lookup in Hcnt.
  set (m1 := data_truk (pastikan_truck tid self)) in *.
  unfold langkah_terjaga. cbn [fst snd]. split_and!.
  - unfold hitungan_taknegatif. cbn [data_truk].
    eapply taknegatif_fmap; [intros k; apply tambah_lookup| |exact Hn1].
    intros k n Hk. cbn beta. case_decide; lia.
  - intros _. cbn [ritase_terbaik_di_siklus data_truk rt_tracker_id].
    eexists _, _. split_and!; [done|by rewrite lookup_alter_eq, Hdt|].
    cbn [tambah_ritase ritase_count]. pose proof (Hn1 tid dt Hdt). lia.
  - unfold jumlah_ritase, kredit_siklus. cbn [data_truk siklus_berjalan_punya_ritase].
    rewrite Hh, (jumlah_alter _ _ _ _ _ Hdt), Hj.
    cbn [tambah_ritase ritase_count]. lia.
  - unfold kredit_siklus. cbn [total_ritase siklus_berjalan_punya_ritase].
    rewrite Hh. lia.
  - unfold kredit_siklus. cbn [siklus_berjalan_punya_ritase]. rewrite Hh. lia.
  - intros k. rewrite !dapatkan_ritase_count_lookup. unfold kredit_truk.
    cbn [data_truk siklus_berjalan_punya_ritase ritase_terbaik_di_siklus
         rt_tracker_id].
    rewrite Hh, tambah_lookup, <-Hcnt. fold m1.
    destruct (decide (k = tid)) as [->|Hkt].
    + rewrite Hdt. simpl. repeat case_decide; try congruence; lia.
    + destruct (m1 !! k); simpl; repeat case_decide; try congruence; lia.
Qed.

(** Every call that does not close the cycle keeps the credit accounting. *)
Lemma langkah_terjaga_proses tid cls f c self :
  cls ≠ CLASS_BUCKET_DUMPING →
  hitungan_taknegatif self → pemilik_terhitung self →
  langkah_terjaga self
    (if (proses_deteksi tid cls f c self).1 then 1 else 0)
    (proses_deteksi tid cls f c self).2.
Proof.
  intros H2 Hn Hp.
  pose proof (pastikan_truck_bendera tid self) as (Hh1 & Hb1 & Ht1 & _).
  destruct (decide (cls = CLASS_TRUCK_FULL)) as [->|H6].
  2: { rewrite (proses_deteksi_kelas_lain tid cls f c self H6 H2). cbn [fst snd].
       by apply (langkah_tanpa_ubah tid). }
  destruct (siklus_berjalan_punya_ritase self) eqn:Hh.
  - destruct (Hp Hh) as (b & d & Hb & _).
    destruct (rt_confidence b <? c)%float eqn:Hlt.
    + by apply (langkah_tukar tid f c self b).
    + rewrite (proses_deteksi_ganda tid f c self Hh). rewrite Hb, Hlt.
      cbn [fst snd]. by apply (langkah_tanpa_ubah tid).
  - destruct (decide (buat_id tid f ∈ truk_full_terhitung self)) as [Hin|Hin];
      [|destruct (ambang_kepercayaan self <=? c)%float eqn:Hc].
    + rewrite (proses_deteksi_tak_dihitung tid f c self Hh) by auto.
      cbn [fst snd]. apply (langkah_tanpa_ubah tid); buka_setter;
        first [done|congruence].
    + by apply langkah_pertama.
    + rewrite (proses_deteksi_tak_dihitung tid f c self Hh) by auto.
      cbn [fst snd]. apply (langkah_tanpa_ubah tid); buka_setter;
        first [done|congruence].
Qed.

End RitaseInvarian.

Section RitaseSiklus.

Import Ritase.


Lemma taknegatif_sama (m m' : gmap Z TruckData) :
  (∀ k, ritase_count <$> (m' !! k) = ritase_count <$> (m !! k)) →
  (∀ k d, m !! k = Some d → 0 ≤ ritase_count d) →
  ∀ k d, m' !! k = Some d → 0 ≤ ritase_count d.
Proof.
  intros Hm H k d Hd. specialize (Hm k). rewrite Hd in Hm.
  destruct (m !! k) as [d0|] eqn:Hk; [|done].
  injection Hm as ->. by apply (H k d0).
Qed.


Lemma selesaikan_siklus_global_tetap self :
  ∀ k, ritase_count <$> (data_truk (selesaikan_siklus_global self) !! k)
       = ritase_count <$> (data_truk self !! k).
Proof.
  unfold selesaikan_siklus_global.
  pose proof (tutup_semua_tetap (truk_dengan_siklus_aktif self) self)
    as (_ & _ & _ & _ & _ & _ & _ & _ & _ & _ & Hc).
  by destruct (bool_decide _ || _).
Qed.










End RitaseSiklus.

Section IdentitasTerhitung.

Lemma selesaikan_siklus_global_total self :
  Ritase.total_ritase (Ritase.selesaikan_siklus_global self) = Ritase.total_ritase self
  ∧ Ritase.truk_full_terhitung (Ritase.selesaikan_siklus_global self)
    = Ritase.truk_full_terhitung self.
Proof.
  unfold Ritase.selesaikan_siklus_global.
  pose proof (tutup_semua_tetap (Ritase.truk_dengan_siklus_aktif self) self)
    as (Hs & _ & Ht & _).
  by destruct (bool_decide _ || _).
Qed.

Lemma ritase_count_dari_fmap s self :
  (∀ k, Ritase.ritase_count <$> (Ritase.data_truk s !! k)
        = Ritase.ritase_count <$> (Ritase.data_truk self !! k)) →
  ∀ k, Ritase.dapatkan_ritase_count (Some k) s
       = Ritase.dapatkan_ritase_count (Some k) self.
Proof. intros H k. apply dapatkan_ritase_count_fmap, H. Qed.

(** [total_passing] grows by one exactly when the call returns [True]. *)
Lemma passing_total_naik_bila_true tid cls f c self :
  let r := Passing.proses_deteksi tid cls f c self in
  Passing.total_passing r.2 = Passing.total_passing self + (if r.1 then 1 else 0).
Proof.
  cbv zeta. destruct (decide (cls = Passing.CLASS_BUCKET_DUMPING)) as [->|Hcls].
  - by destruct (proses_deteksi_dump_langkah tid f c self) as (Ht & _).
  - rewrite (proses_deteksi_ditolak tid cls f c self) by auto. cbn [fst snd].
    pose proof (ambil_excavator_tetap tid self) as (_ & _ & -> & _). lia.
Qed.

(** [total_ritase] grows by one exactly when the call returns [True]. *)
Lemma ritase_total_naik_bila_true tid cls f c self :
  let r := Ritase.proses_deteksi tid cls f c self in
  Ritase.total_ritase r.2 = Ritase.total_ritase self + (if r.1 then 1 else 0).
Proof.
  cbv zeta.
  pose proof (pastikan_truck_bendera tid self) as (_ & _ & Ht1 & _).
  destruct (decide (cls = Ritase.CLASS_BUCKET_DUMPING)) as [->|H2].
  { rewrite proses_deteksi_tutup. cbn [fst snd].
    destruct (selesaikan_siklus_global_total (Ritase.pastikan_truck tid self))
      as (-> & _). lia. }
  destruct (decide (cls = Ritase.CLASS_TRUCK_FULL)) as [->|H6].
  2: { rewrite (proses_deteksi_kelas_lain tid cls f c self H6 H2). cbn [fst snd].
       lia. }
  destruct (Ritase.siklus_berjalan_punya_ritase self) eqn:Hh.
  - rewrite (proses_deteksi_ganda tid f c self Hh). cbn [fst snd Ritase.total_ritase].
    lia.
  - destruct (decide (buat_id tid f ∈ Ritase.truk_full_terhitung self)) as [Hin|Hin];
      [|destruct (Ritase.ambang_kepercayaan self <=? c)%float eqn:Hc].
    + rewrite (proses_deteksi_tak_dihitung tid f c self Hh) by auto.
      cbn [fst snd]. buka_setter. lia.
    + by rewrite (proses_deteksi_pertama tid f c self Hh Hin Hc).
    + rewrite (proses_deteksi_tak_dihitung tid f c self Hh) by auto.
      cbn [fst snd]. buka_setter. lia.
Qed.

End IdentitasTerhitung.

(** * Further properties of the counters *)

(** ** More on the order of floats *)

Section FloatOrderLanjut.

Lemma SFcompare_refl_not_Lt (x : spec_float) : SFcompare x x ≠ Some Lt.
Proof.
  destruct x as [s|s| |s m e]; simpl; try discriminate; try (by destruct s).
  change (Pos.compare_cont Eq m m) with (m ?= m)%positive.
  rewrite Z.compare_refl, Pos.compare_refl. by destruct s.
Qed.

Lemma SFcompare_Lt_trans (x y z : spec_float) :
  SFcompare x y = Some Lt → SFcompare y z = Some Lt → SFcompare x z = Some Lt.
Proof.
  destruct x as [sx|sx| |sx mx ex], y as [sy|sy| |sy my ey],
    z as [sz|sz| |sz mz ez]; simpl; try discriminate;
    try (destruct sx; (discriminate || (try destruct sy; (discriminate ||
           (try destruct sz; (discriminate || reflexivity)))))).
  all: try (destruct sy; (discriminate || (try destruct sz;
              (discriminate || reflexivity)))).
  all: try (destruct sx, sy; discriminate).
  all: try (destruct sy, sz; discriminate).
  change (Pos.compare_cont Eq mx my) with (mx ?= my)%positive.
  change (Pos.compare_cont Eq my mz) with (my ?= mz)%positive.
  change (Pos.compare_cont Eq mx mz) with (mx ?= mz)%positive.
  destruct sx, sy, sz; try discriminate; try reflexivity;
    destruct (Z.compare_spec ex ey), (Z.compare_spec ey ez),
      (Z.compare_spec ex ez); simpl; try discriminate; try reflexivity; try lia;
    subst;
    destruct (Pos.compare_spec mx my), (Pos.compare_spec my mz),
      (Pos.compare_spec mx mz); simpl; try discriminate; try reflexivity; lia.
Qed.

(** No float is below itself. *)
Lemma ltb_irrefl (x : float) : (x <? x)%float = false.
Proof.
  rewrite ltb_spec. unfold SFltb.
  pose proof (SFcompare_refl_not_Lt (Prim2SF x)).
  by destruct (SFcompare (Prim2SF x) (Prim2SF x)) as [[| |]|].
Qed.

(** [<] on floats is transitive. *)
Lemma ltb_trans (x y z : float) :
  (x <? y)%float = true → (y <? z)%float = true → (x <? z)%float = true.
Proof.
  rewrite !ltb_spec. unfold SFltb. intros Hxy Hyz.
  destruct (SFcompare (Prim2SF x) (Prim2SF y)) as [[| |]|] eqn:H1; try discriminate.
  destruct (SFcompare (Prim2SF y) (Prim2SF z)) as [[| |]|] eqn:H2; try discriminate.
  by rewrite (SFcompare_Lt_trans _ _ _ H1 H2).
Qed.

End FloatOrderLanjut.

(** ** The passing counter: what every reachable state satisfies *)

Section PassingTerawat.

Import Passing.

Lemma siklus_aktif_dari_tambah tid d self a k :
  active_cycle self = tambah_siklus_aktif tid d a →
  default [] (active_cycle self !! k)
  = if decide (k = tid) then default [] (a !! tid) ++ [d] else default [] (a !! k).
Proof.
  intros ->. unfold tambah_siklus_aktif. case_decide as Hk.
  - subst. by rewrite lookup_insert_eq.
  - by rewrite lookup_insert_ne.
Qed.

Lemma passing_terawat_init m : passing_terawat m (Passing.init m).
Proof.
  split_and!; [done| |]; intros t x Hx; cbn in Hx; by rewrite lookup_empty in Hx.
Qed.

Lemma passing_terawat_ambil m tid self :
  passing_terawat m self → passing_terawat m (ambil_excavator tid self).2.
Proof.
  intros (Hm & Hk & He). rewrite ambil_excavator_state.
  destruct (excavators self !! tid) as [e|] eqn:Ht; [done|].
  unfold inisialisasi_excavator, passing_terawat, siklus_aktif_dari in *.
  cbn [excavators counted_dumps min_confidence active_cycle set_excavators].
  split_and!; [done| |].
  - intros t l Hl. destruct (decide (tid = t)) as [->|Hne].
    + rewrite lookup_insert_eq. eauto.
    + rewrite lookup_insert_ne by done. eauto.
  - intros t e. destruct (decide (tid = t)) as [->|Hne].
    + rewrite lookup_insert_eq. intros [= <-]. cbn. split; [done|].
      destruct (active_cycle self !! t) as [l|] eqn:Hl; [|done].
      destruct (Hk t l Hl) as [e He']. congruence.
    + rewrite lookup_insert_ne by done. apply He.
Qed.

Lemma passing_terawat_proses m tid cls f c self :
  passing_terawat m self → passing_terawat m (proses_deteksi tid cls f c self).2.
Proof.
  intros Hinv. pose proof (passing_terawat_ambil m tid self Hinv) as Hinv1.
  destruct (decide (cls = CLASS_BUCKET_DUMPING)) as [->|Hcls];
    [destruct (decide (buat_id tid f ∈ counted_dumps self)) as [Hin|Hin];
     [|destruct (c <? min_confidence self)%float eqn:Hc]|].
  1,2,4: by rewrite (proses_deteksi_ditolak tid _ f c self) by auto.
  rewrite (proses_deteksi_diterima tid f c self Hin Hc).
  pose proof (ambil_excavator_lookup tid self) as Hl.
  pose proof (ambil_excavator_tetap tid self) as (Hcd & _ & _ & Hac).
  destruct (ambil_excavator tid self) as [e s1]; cbn [fst snd] in *.
  destruct Hinv1 as (Hm & Hk & He). destruct Hinv as (Hm0 & _ & _).
  rewrite Hm0 in Hc.
  set (dbaru := {| dd_dump_id := buat_id tid f; dd_frame_index := f;
                   dd_confidence := c |}).
  set (baru := {| bd_dump_id := buat_id tid f; bd_frame_index := f;
                  bd_confidence := c |}).
  assert (∀ s' : PenghitungPassing,
            min_confidence s' = m →
            active_cycle s' = tambah_siklus_aktif tid dbaru (active_cycle self) →
            counted_dumps s' = {[buat_id tid f]} ∪ counted_dumps self →
            (∀ k, k ≠ tid → excavators s' !! k = excavators s1 !! k) →
            (∃ e', excavators s' !! tid = Some e'
                   ∧ 0 ≤ passing_count e'
                   ∧ match best_dump e' with
                     | None => False
                     | Some b =>
                         bd_dump_id b = buat_id tid (bd_frame_index b)
                         ∧ bd_dump_id b ∈ counted_dumps s'
                         ∧ (bd_confidence b <? m)%float = false
                         ∧ {| dd_dump_id := bd_dump_id b;
                              dd_frame_index := bd_frame_index b;
                              dd_confidence := bd_confidence b |}
                           ∈ siklus_aktif_dari tid s'
                         ∧ (∀ d, d ∈ siklus_aktif_dari tid s' →
                                 (bd_confidence b <? dd_confidence d)%float = false)
                     end) →
            passing_terawat m s') as Hgen.
  { intros s' Hm' Ha' Hc' Hlain (e' & He' & Hn' & Hb').
    split_and!; [done| |].
    - intros t l. rewrite Ha'. unfold tambah_siklus_aktif.
      destruct (decide (tid = t)) as [<-|Hne]; [by rewrite He'; eauto|].
      rewrite lookup_insert_ne, <-Hac by done. rewrite Hlain by done. apply Hk.
    - intros t e0. destruct (decide (t = tid)) as [->|Hne].
      + rewrite He'. intros [= <-]. split; [done|].
        by destruct (best_dump e').
      + rewrite Hlain by done. intros Ht. destruct (He t e0 Ht) as (Hc0 & Hb0).
        split; [done|]. unfold siklus_aktif_dari in *.
        rewrite (siklus_aktif_dari_tambah tid dbaru s' (active_cycle self) t Ha').
        rewrite decide_False by done. rewrite <-Hac, Hc', <-Hcd.
        destruct (best_dump e0); [|done]. destruct_and!. split_and!; try done.
        set_solver. }
  destruct (He tid e Hl) as (Hcnt & Hbest).
  assert (siklus_aktif_dari tid s1 = default [] (active_cycle self !! tid)) as Hlist
    by (unfold siklus_aktif_dari; by rewrite Hac).
  destruct (best_dump e) as [b|] eqn:Hb; cbn [snd].
  - destruct (bd_confidence b <? c)%float eqn:Hlt.
    + apply Hgen; cbn [min_confidence active_cycle counted_dumps excavators];
        try done.
      * intros k Hk'. by rewrite lookup_insert_ne.
      * eexists. rewrite lookup_insert_eq. split; [done|].
        cbn [passing_count best_dump]. split; [done|].
        unfold siklus_aktif_dari. cbn [active_cycle bd_dump_id bd_frame_index
                                       bd_confidence].
        unfold tambah_siklus_aktif. rewrite lookup_insert_eq. cbn [default].
        split_and!; [done|set_solver|done|set_solver|].
        intros d [Hd|Hd]%elem_of_app.
        -- destruct Hbest as (_ & _ & _ & _ & Hmax). rewrite <-Hlist in Hd.
           specialize (Hmax d Hd).
           destruct (c <? dd_confidence d)%float eqn:Hcd'; [|done].
           by rewrite (ltb_trans _ _ _ Hlt Hcd') in Hmax.
        -- apply list_elem_of_singleton in Hd as ->. apply ltb_irrefl.
    + apply Hgen; cbn [min_confidence active_cycle counted_dumps excavators];
        try done.
      exists e. split; [done|]. split; [done|]. rewrite Hb.
      destruct Hbest as (Hid & Hseen & Hmin & Hmem & Hmax).
      unfold siklus_aktif_dari. cbn [active_cycle counted_dumps].
      unfold tambah_siklus_aktif. rewrite lookup_insert_eq. cbn [default].
      rewrite <-Hlist. split_and!; [done|set_solver|done|set_solver|].
      intros d [Hd|Hd]%elem_of_app; [by apply Hmax|].
      by apply list_elem_of_singleton in Hd as ->.
  - apply Hgen; cbn [min_confidence active_cycle counted_dumps excavators];
      try done.
    + intros k Hk'. by rewrite lookup_insert_ne.
    + eexists. rewrite lookup_insert_eq. split; [done|].
      cbn [passing_count best_dump]. split; [lia|].
      unfold siklus_aktif_dari. cbn [active_cycle bd_dump_id bd_frame_index
                                     bd_confidence].
      unfold tambah_siklus_aktif. rewrite lookup_insert_eq. cbn [default].
      rewrite <-Hlist, Hbest. cbn [app].
      split_and!; [done|set_solver|done|set_solver|].
      intros d Hd. apply list_elem_of_singleton in Hd as ->. apply ltb_irrefl.
Qed.

Lemma passing_terawat_selesaikan m tid self :
  passing_terawat m self → passing_terawat m (selesaikan_siklus tid self).
Proof.
  intros (Hm & Hk & He). unfold selesaikan_siklus.
  destruct (active_cycle self !! tid) as [l|] eqn:Hl; [|done].
  destruct (Hk tid l Hl) as [e Het].
  cbn [excavators set_active_cycle]. rewrite Het.
  unfold passing_terawat, siklus_aktif_dari.
  cbn [excavators counted_dumps min_confidence active_cycle set_excavators
       set_active_cycle].
  split_and!; [done| |].
  - intros t l'. destruct (decide (tid = t)) as [<-|Hne].
    + rewrite !lookup_insert_eq. eauto.
    + rewrite !lookup_insert_ne by done. apply Hk.
  - intros t e'. destruct (decide (tid = t)) as [<-|Hne].
    + rewrite !lookup_insert_eq. intros [= <-]. cbn.
      split; [|done]. by destruct (He tid e Het).
    + rewrite !lookup_insert_ne by done. apply He.
Qed.

Lemma passing_terawat_reset m self :
  passing_terawat m self → passing_terawat m (reset_all_counters self).
Proof.
  intros (Hm & Hk & He). unfold passing_terawat, siklus_aktif_dari, reset_all_counters.
  cbn [excavators counted_dumps min_confidence active_cycle].
  split_and!; [done| |].
  - intros t l Hl. by rewrite lookup_empty in Hl.
  - intros t e. rewrite lookup_fmap. destruct (excavators self !! t); [|done].
    intros [= <-]. cbn. by rewrite lookup_empty.
Qed.

(** Every state a passing counter can reach is well kept. *)
Lemma passing_terjangkau_terawat m self :
  passing_terjangkau m self → passing_terawat m self.
Proof.
  induction 1 as [|op self _ IH]; [apply passing_terawat_init|].
  destruct op; cbn [jalankan_passing]; try done.
  - by apply passing_terawat_proses.
  - by apply passing_terawat_selesaikan.
  - by apply passing_terawat_reset.
Qed.

End PassingTerawat.

Section PassingLanjutan.

Import Passing.

Lemma jumlah_nonneg {A} (g : A → Z) (m : gmap Z A) :
  (∀ k x, m !! k = Some x → 0 ≤ g x) → 0 ≤ jumlah g m.
Proof.
  induction m as [|i x m Hi IH] using map_ind; intros Hg.
  - by rewrite jumlah_empty.
  - rewrite jumlah_insert_None by done.
    pose proof (Hg i x (lookup_insert_eq _ _ _)).
    assert (0 ≤ jumlah g m); [|lia].
    apply IH. intros k y Hk. apply (Hg k y).
    rewrite lookup_insert_ne; [done|]. intros ->. congruence.
Qed.

Lemma jumlah_batas {A} (g : A → Z) (m : gmap Z A) i y :
  (∀ k x, m !! k = Some x → 0 ≤ g x) → m !! i = Some y → g y ≤ jumlah g m.
Proof.
  intros Hg Hi. rewrite (jumlah_delete g m i y Hi).
  assert (0 ≤ jumlah g (delete i m)); [|lia].
  apply jumlah_nonneg. intros k x Hk. apply (Hg k x).
  apply lookup_delete_Some in Hk as [_ Hk]. done.
Qed.

Lemma passing_terjangkau_konsisten m self :
  passing_terjangkau m self → passing_konsisten self.
Proof.
  induction 1 as [|op self _ IH].
  - unfold passing_konsisten. cbn. by rewrite jumlah_empty.
  - by apply jalankan_passing_konsisten.
Qed.

Lemma selesaikan_siklus_bingkai tid self :
  total_passing (selesaikan_siklus tid self) = total_passing self
  ∧ counted_dumps (selesaikan_siklus tid self) = counted_dumps self
  ∧ min_confidence (selesaikan_siklus tid self) = min_confidence self
  ∧ (∀ k, dapatkan_passing_count (Some k) (selesaikan_siklus tid self)
          = dapatkan_passing_count (Some k) self)
  ∧ (∀ k, k ≠ tid →
          best_dump_of k (selesaikan_siklus tid self) = best_dump_of k self).
Proof.
  unfold selesaikan_siklus. destruct (active_cycle self !! tid); [|done].
  cbn [excavators set_active_cycle].
  destruct (excavators self !! tid) as [e|] eqn:He; [|done].
  unfold dapatkan_passing_count, best_dump_of.
  cbn [excavators total_passing counted_dumps min_confidence set_excavators
       set_active_cycle].
  split_and!; try done.
  - intros k. destruct (decide (tid = k)) as [<-|Hne].
    + by rewrite lookup_insert_eq, He.
    + by rewrite lookup_insert_ne.
  - intros k Hk. by rewrite lookup_insert_ne.
Qed.

Lemma selesaikan_siklus_tanpa_kandidat m tid self :
  passing_terawat m self → best_dump_of tid (selesaikan_siklus tid self) = None.
Proof.
  intros (_ & Hk & He). unfold selesaikan_siklus, best_dump_of.
  destruct (active_cycle self !! tid) as [l|] eqn:Hl.
  - cbn [excavators set_active_cycle].
    destruct (excavators self !! tid) as [e|] eqn:Het.
    + cbn [excavators set_excavators set_active_cycle].
      by rewrite lookup_insert_eq.
    + cbn [excavators set_active_cycle]. by rewrite Het.
  - destruct (excavators self !! tid) as [e|] eqn:Het; [|done].
    destruct (He tid e Het) as (_ & Hb).
    destruct (best_dump e) as [b|]; [|done].
    destruct Hb as (_ & _ & _ & Hmem & _). unfold siklus_aktif_dari in Hmem.
    rewrite Hl in Hmem. by apply not_elem_of_nil in Hmem.
Qed.

(** X1. After [selesaikan_siklus] for a tracker, the next dump detection of
    that tracker with a fresh identity and a confidence of at least the
    threshold returns [True] and adds exactly one to the tracker's
    [passing_count] and to [total_passing], whatever candidate the cycle
    before held. *)
Theorem passing_end_cycle_then_dump_counts_once m self tid f c :
  passing_terjangkau m self →
  buat_id tid f ∉ counted_dumps self →
  (min_confidence self <=? c)%float = true →
  let r := proses_deteksi tid CLASS_BUCKET_DUMPING f c (selesaikan_siklus tid self) in
  r.1 = true
  ∧ dapatkan_passing_count (Some tid) r.2 = dapatkan_passing_count (Some tid) self + 1
  ∧ total_passing r.2 = total_passing self + 1.
Proof.
  intros Hr Hid Hc. apply leb_not_ltb in Hc.
  pose proof (passing_terjangkau_terawat m self Hr) as Hinv.
  pose proof (selesaikan_siklus_tanpa_kandidat m tid self Hinv) as Hb.
  pose proof (selesaikan_siklus_bingkai tid self) as (Ht & Hcd & Hm & Hk & _).
  pose proof (proses_deteksi_dump_langkah tid f c (selesaikan_siklus tid self))
    as (Ht' & Hk' & _).
  cbv zeta in *.
  assert ((proses_deteksi tid CLASS_BUCKET_DUMPING f c
             (selesaikan_siklus tid self)).1 = true) as H1.
  { rewrite (proses_deteksi_diterima tid f c (selesaikan_siklus tid self))
      by (by rewrite ?Hcd, ?Hm).
    by rewrite ambil_excavator_best, Hb. }
  rewrite H1 in Ht', Hk'. rewrite Ht in Ht'. rewrite Hk in Hk'.
  split_and!; [done|exact Hk'|exact Ht'].
Qed.

Lemma passing_end_cycle_then_dump_counts_once_witness :
  let self :=
    (passing_proses_semua (dump_beruntun 1 [(10, 0.81%float); (11, 0.95%float)])
       (Passing.init 0.8)).2 in
  (proses_deteksi 1 CLASS_BUCKET_DUMPING 12 0.85 self).1 = false
  ∧ (proses_deteksi 1 CLASS_BUCKET_DUMPING 12 0.85 (selesaikan_siklus 1 self)).1 = true.
Proof.
  cbv zeta. split; [by vm_compute|].
  refine (proj1 (passing_end_cycle_then_dump_counts_once 0.8%float
                   (jalankan_passing (OpProsesDeteksi 1 2 11 0.95)
                      (jalankan_passing (OpProsesDeteksi 1 2 10 0.81)
                         (Passing.init 0.8))) 1 12 0.85%float _ _ _)).
  - do 2 apply terjangkau_langkah. apply terjangkau_init.
  - apply (bool_decide_unpack _). by vm_compute.
  - by vm_compute.
Defined.

(** X2. [proses_deteksi] never lowers a count or forgets an identity: after
    it [total_passing] is the same or one more, the [passing_count] of the
    detection's tracker is the same or one more, the count of every other
    tracker is unchanged, and the seen-set still holds all it held. *)
Theorem passing_proses_deteksi_never_lowers self tid cls f c :
  let r := proses_deteksi tid cls f c self in
  (total_passing r.2 = total_passing self ∨ total_passing r.2 = total_passing self + 1)
  ∧ dapatkan_passing_count (Some tid) r.2 - dapatkan_passing_count (Some tid) self
    = total_passing r.2 - total_passing self
  ∧ (∀ k, k ≠ tid →
          dapatkan_passing_count (Some k) r.2 = dapatkan_passing_count (Some k) self)
  ∧ counted_dumps self ⊆ counted_dumps r.2.
Proof.
  cbv zeta. destruct (decide (cls = CLASS_BUCKET_DUMPING)) as [->|Hcls].
  - pose proof (proses_deteksi_dump_langkah tid f c self) as (Ht & Hk & Hl & _).
    cbv zeta in *. split_and!; [destruct (proses_deteksi _ _ _ _ _).1; lia|lia|done|].
    destruct (decide (buat_id tid f ∈ counted_dumps self)) as [Hin|Hin];
      [|destruct (c <? min_confidence self)%float eqn:Hc].
    1,2: rewrite (proses_deteksi_ditolak tid _ f c self) by auto; cbn [snd];
      pose proof (ambil_excavator_tetap tid self) as (-> & _); reflexivity.
    rewrite (proses_deteksi_diterima tid f c self Hin Hc).
    destruct (best_dump _); cbn [snd counted_dumps]; set_solver.
  - rewrite (proses_deteksi_ditolak tid cls f c self) by auto. cbn [fst snd].
    pose proof (ambil_excavator_tetap tid self) as (-> & _ & -> & _).
    rewrite ambil_excavator_count_sama.
    split_and!; [by left|lia| |reflexivity].
    intros k _. apply ambil_excavator_count_sama.
Qed.

(** X3. The candidate of an excavator is never dropped by [proses_deteksi]
    and is replaced only by a dump detection of the same tracker with a
    strictly higher confidence. *)
Theorem passing_best_dump_only_improves self tid cls f c t b :
  best_dump_of t self = Some b →
  let r := proses_deteksi tid cls f c self in
  best_dump_of t r.2 = Some b
  ∨ (t = tid ∧ cls = CLASS_BUCKET_DUMPING
     ∧ (bd_confidence b <? c)%float = true
     ∧ best_dump_of t r.2
       = Some {| bd_dump_id := buat_id tid f; bd_frame_index := f;
                 bd_confidence := c |}).
Proof.
  intros Hb. cbv zeta.
  assert (best_dump_of t (ambil_excavator tid self).2 = Some b) as Hb1.
  { destruct (decide (t = tid)) as [->|Hne]; [by rewrite ambil_excavator_best_of|].
    rewrite ambil_excavator_state. destruct (excavators self !! tid); [done|].
    unfold best_dump_of, inisialisasi_excavator in *. cbn [excavators set_excavators].
    by rewrite lookup_insert_ne. }
  destruct (decide (cls = CLASS_BUCKET_DUMPING)) as [->|Hcls];
    [destruct (decide (buat_id tid f ∈ counted_dumps self)) as [Hin|Hin];
     [|destruct (c <? min_confidence self)%float eqn:Hc]|].
  1,2,4: left; by rewrite (proses_deteksi_ditolak tid _ f c self) by auto.
  rewrite (proses_deteksi_diterima tid f c self Hin Hc).
  rewrite ambil_excavator_best.
  destruct (decide (t = tid)) as [->|Hne].
  - rewrite Hb. cbn [snd].
    destruct (bd_confidence b <? c)%float eqn:Hlt.
    + right. unfold best_dump_of. cbn [excavators]. by rewrite lookup_insert_eq.
    + left. exact Hb1.
  - left. destruct (best_dump_of tid self) as [b0|]; cbn [snd].
    + destruct (bd_confidence b0 <? c)%float; [|exact Hb1].
      unfold best_dump_of in *. cbn [excavators]. by rewrite lookup_insert_ne.
    + unfold best_dump_of in *. cbn [excavators]. by rewrite lookup_insert_ne.
Qed.

Lemma passing_best_dump_only_improves_witness :
  let self := (proses_deteksi 1 CLASS_BUCKET_DUMPING 10 0.81 (Passing.init 0.8)).2 in
  best_dump_of 1 (proses_deteksi 1 CLASS_BUCKET_DUMPING 11 0.80 self).2
  = Some {| bd_dump_id := buat_id 1 10; bd_frame_index := 10; bd_confidence := 0.81 |}.
Proof.
  cbv zeta.
  destruct (passing_best_dump_only_improves
              (proses_deteksi 1 CLASS_BUCKET_DUMPING 10 0.81 (Passing.init 0.8)).2
              1 CLASS_BUCKET_DUMPING 11 0.80%float 1
              {| bd_dump_id := buat_id 1 10; bd_frame_index := 10;
                 bd_confidence := 0.81 |}) as [H|(_ & _ & H & _)].
  - by vm_compute.
  - exact H.
  - vm_compute in H. discriminate H.
Defined.

(** X4. In every state a passing counter can reach, the candidate of an
    excavator is one of the detections of its active cycle, has its identity
    in the seen-set, is not below the threshold, and no detection of the
    active cycle has a higher confidence; an excavator without a candidate
    has no detection in its active cycle. *)
Theorem passing_best_dump_is_cycle_maximum m self t :
  passing_terjangkau m self →
  match best_dump_of t self with
  | Some b =>
      bd_dump_id b = buat_id t (bd_frame_index b)
      ∧ bd_dump_id b ∈ counted_dumps self
      ∧ (bd_confidence b <? min_confidence self)%float = false
      ∧ {| dd_dump_id := bd_dump_id b; dd_frame_index := bd_frame_index b;
           dd_confidence := bd_confidence b |} ∈ siklus_aktif_dari t self
      ∧ (∀ d, d ∈ siklus_aktif_dari t self →
              (bd_confidence b <? dd_confidence d)%float = false)
  | None => siklus_aktif_dari t self = []
  end.
Proof.
  intros Hr. destruct (passing_terjangkau_terawat m self Hr) as (Hm & Hk & He).
  unfold best_dump_of. destruct (excavators self !! t) as [e|] eqn:Het.
  - destruct (He t e Het) as (_ & Hb). rewrite Hm. exact Hb.
  - unfold siklus_aktif_dari. destruct (active_cycle self !! t) as [l|] eqn:Hl; [|done].
    destruct (Hk t l Hl) as [e He']. congruence.
Qed.

Lemma passing_best_dump_is_cycle_maximum_witness :
  let self :=
    (passing_proses_semua
       (dump_beruntun 1 [(10, 0.81%float); (11, 0.95%float); (12, 0.9%float)])
       (Passing.init 0.8)).2 in
  match best_dump_of 1 self with
  | Some b =>
      ∀ d, d ∈ siklus_aktif_dari 1 self →
           (bd_confidence b <? dd_confidence d)%float = false
  | None => False
  end.
Proof.
  cbv zeta.
  pose proof (passing_best_dump_is_cycle_maximum 0.8%float
                (jalankan_passing (OpProsesDeteksi 1 2 12 0.9)
                   (jalankan_passing (OpProsesDeteksi 1 2 11 0.95)
                      (jalankan_passing (OpProsesDeteksi 1 2 10 0.81)
                         (Passing.init 0.8)))) 1) as H.
  assert (passing_terjangkau 0.8%float
            (jalankan_passing (OpProsesDeteksi 1 2 12 0.9)
               (jalankan_passing (OpProsesDeteksi 1 2 11 0.95)
                  (jalankan_passing (OpProsesDeteksi 1 2 10 0.81)
                     (Passing.init 0.8))))) as Hr
    by (do 3 apply terjangkau_langkah; apply terjangkau_init).
  specialize (H Hr).
  change (passing_proses_semua _ _).2
    with (jalankan_passing (OpProsesDeteksi 1 2 12 0.9)
            (jalankan_passing (OpProsesDeteksi 1 2 11 0.95)
               (jalankan_passing (OpProsesDeteksi 1 2 10 0.81)
                  (Passing.init 0.8)))).
  destruct (best_dump_of 1 _) as [b|] eqn:Hb.
  - by destruct H as (_ & _ & _ & _ & H).
  - vm_compute in Hb. discriminate Hb.
Defined.

(** X5. In every state a passing counter can reach, the count of each
    tracker lies between 0 and [total_passing]. *)
Theorem passing_count_between_zero_and_total m self k :
  passing_terjangkau m self →
  0 ≤ dapatkan_passing_count (Some k) self
  ∧ dapatkan_passing_count (Some k) self ≤ total_passing self.
Proof.
  intros Hr. destruct (passing_terjangkau_terawat m self Hr) as (_ & _ & He).
  pose proof (passing_terjangkau_konsisten m self Hr) as Hs.
  unfold passing_konsisten in Hs. rewrite Hs.
  assert (∀ k x, excavators self !! k = Some x → 0 ≤ passing_count x) as Hn
    by (intros k' x Hx; by destruct (He k' x Hx)).
  unfold dapatkan_passing_count.
  destruct (excavators self !! k) as [e|] eqn:Hk.
  - split; [by apply (Hn k)|by apply (jumlah_batas _ _ k)].
  - split; [done|by apply jumlah_nonneg].
Qed.

Lemma passing_count_between_zero_and_total_witness :
  let self :=
    jalankan_passing (OpProsesDeteksi 2 2 11 0.9)
      (jalankan_passing (OpProsesDeteksi 1 2 10 0.81) (Passing.init 0.8)) in
  dapatkan_passing_count (Some 1) self ≤ total_passing self.
Proof.
  cbv zeta.
  refine (proj2 (passing_count_between_zero_and_total 0.8%float _ 1 _)).
  do 2 apply terjangkau_langkah. apply terjangkau_init.
Defined.

End PassingLanjutan.

(** ** The ritase counter: what every reachable state satisfies *)

Section RitaseKoheren.

Import Ritase.

Lemma selesaikan_siklus_aktif tid self k :
  siklus_aktif (selesaikan_siklus tid self) !! k
  = if decide (k = tid) then (λ _, []) <$> siklus_aktif self !! k
    else siklus_aktif self !! k.
Proof.
  unfold selesaikan_siklus.
  destruct (siklus_aktif self !! tid) as [l|] eqn:Hl.
  - assert (siklus_aktif
              (match data_truk (set_siklus_aktif (<[tid:=[]]> (siklus_aktif self)) self)
                     !! tid with
               | Some d =>
                   set_data_truk
                     (<[tid:={| ritase_count := ritase_count d; best_full := None;
                                last_cycle_frame := 0;
                                last_cycle_number :=
                                  nomor_siklus
                                    (set_siklus_aktif (<[tid:=[]]> (siklus_aktif self))
                                       self) |}]>
                        (data_truk
                           (set_siklus_aktif (<[tid:=[]]> (siklus_aktif self)) self)))
                     (set_siklus_aktif (<[tid:=[]]> (siklus_aktif self)) self)
               | None => set_siklus_aktif (<[tid:=[]]> (siklus_aktif self)) self
               end) = <[tid:=[]]> (siklus_aktif self)) as ->
      by (by destruct (data_truk _ !! tid)).
    case_decide as Hk.
    + subst. by rewrite lookup_insert_eq, Hl.
    + by rewrite lookup_insert_ne.
  - case_decide as Hk; [|done]. subst. by rewrite Hl.
Qed.

Lemma tutup_semua_aktif l self k :
  siklus_aktif (foldl (λ acc id_truk, selesaikan_siklus id_truk acc) self l) !! k
  = if decide (k ∈ l) then (λ _, []) <$> siklus_aktif self !! k
    else siklus_aktif self !! k.
Proof.
  revert self. induction l as [|tid l IH]; intros self; cbn [foldl].
  - by rewrite decide_False by apply not_elem_of_nil.
  - rewrite IH, selesaikan_siklus_aktif.
    destruct (decide (k = tid)) as [->|Hne].
    + rewrite (decide_True (P := tid ∈ tid :: l)) by left.
      case_decide; [|done]. by destruct (siklus_aktif self !! tid).
    + destruct (decide (k ∈ l)) as [Hin|Hin].
      * by rewrite decide_True by (by right).
      * rewrite decide_False; [done|]. by intros [?|?]%elem_of_cons.
Qed.

(** After the closing signal no truck has a detection in its active cycle. *)
Lemma selesaikan_siklus_global_kosong self k l :
  siklus_aktif (selesaikan_siklus_global self) !! k = Some l → l = [].
Proof.
  unfold selesaikan_siklus_global.
  assert (siklus_aktif
            (foldl (λ acc id_truk, selesaikan_siklus id_truk acc) self
               (truk_dengan_siklus_aktif self)) !! k = Some l → l = []) as H.
  { rewrite tutup_semua_aktif. case_decide as Hin.
    - destruct (siklus_aktif self !! k); [|done]. by intros [= <-].
    - intros Hl. destruct l as [|d l]; [done|]. exfalso. apply Hin.
      apply truk_dengan_siklus_aktif_elem. by exists (d :: l). }
  by destruct (bool_decide _ || _).
Qed.

Lemma truk_dengan_siklus_aktif_kosong self :
  (∀ k l, siklus_aktif self !! k = Some l → l = []) →
  truk_dengan_siklus_aktif self = [].
Proof.
  intros H. destruct (truk_dengan_siklus_aktif self) as [|tid l] eqn:Hl; [done|].
  assert (tid ∈ truk_dengan_siklus_aktif self) as Hin by (rewrite Hl; left).
  apply truk_dengan_siklus_aktif_elem in Hin as (dets & Hd & Hne).
  by specialize (H tid dets Hd).
Qed.

(** The closing signal in a cycle without a ritase and without an active
    detection changes nothing. *)
Lemma selesaikan_siklus_global_diam self :
  (∀ k l, siklus_aktif self !! k = Some l → l = []) →
  siklus_berjalan_punya_ritase self = false →
  selesaikan_siklus_global self = self.
Proof.
  intros H Hh. unfold selesaikan_siklus_global.
  rewrite (truk_dengan_siklus_aktif_kosong self H). cbn [foldl].
  by rewrite Hh, bool_decide_eq_false_2 by (intros ?; done).
Qed.

Lemma ritase_koheren_init m : ritase_koheren (Ritase.init m).
Proof.
  unfold ritase_koheren. cbn. split_and!; try done.
Qed.

(** Coherence does not look at the trucks beyond the keys they have. *)
Lemma ritase_koheren_data m' self :
  (∀ k, is_Some (data_truk self !! k) → is_Some (m' !! k)) →
  ritase_koheren self → ritase_koheren (set_data_truk m' self).
Proof.
  intros Hm (H0 & H1 & Hts & Hn & Ht & Hp & Hd). unfold ritase_koheren. buka_setter.
  split_and!; try done.
  intros Hh. destruct (H1 Hh) as (b & ? & ? & ? & ?). exists b.
  split_and!; try done. by apply Hm.
Qed.

Lemma ritase_koheren_pastikan tid self :
  ritase_koheren self → ritase_koheren (pastikan_truck tid self).
Proof.
  intros H. rewrite pastikan_truck_tetap. apply ritase_koheren_data; [|done].
  intros k [d Hd]. rewrite (pastikan_truck_lookup_Some tid self k d Hd). eauto.
Qed.

Lemma ritase_koheren_tetap self s :
  tetap_di_luar_siklus self s →
  (∀ k l, siklus_aktif s !! k = Some l → l = [] ∨ siklus_aktif self !! k = Some l) →
  ritase_koheren self → ritase_koheren s.
Proof.
  intros (Hs & Ha & Ht & Hts & Htd & Hh & Hb & Hn & Hp & Hk & Hc) Hl
    (H0 & H1 & H2 & H3 & H4 & H5 & H6).
  unfold ritase_koheren. rewrite Hh, Hb, Hk, Hn, Ht, Hts, Hp, Htd.
  split_and!; try done.
  - intros Hf. destruct (H0 Hf) as (? & ? & He). split_and!; try done.
    intros k l Hkl. destruct (Hl k l Hkl) as [?|Hold]; [done|]. by apply (He k).
  - intros Hf. destruct (H1 Hf) as (b & ? & Hsome & ? & ?). exists b.
    split_and!; try done. specialize (Hc (rt_tracker_id b)).
    destruct Hsome as [d Hd]. rewrite Hd in Hc.
    destruct (data_truk s !! rt_tracker_id b); [eauto|done].
Qed.

Lemma ritase_koheren_selesaikan tid self :
  ritase_koheren self → ritase_koheren (selesaikan_siklus tid self).
Proof.
  apply ritase_koheren_tetap; [apply selesaikan_siklus_tetap|].
  intros k l. rewrite selesaikan_siklus_aktif. case_decide; [|by right].
  destruct (siklus_aktif self !! k); [|done]. intros [= <-]. by left.
Qed.

Lemma ritase_koheren_global self :
  ritase_koheren self → ritase_koheren (selesaikan_siklus_global self).
Proof.
  intros Hk. destruct (siklus_berjalan_punya_ritase self) eqn:Hh.
  - pose proof (selesaikan_siklus_global_kosong self) as Hkosong.
    unfold selesaikan_siklus_global in *.
    pose proof (tutup_semua_tetap (truk_dengan_siklus_aktif self) self)
      as (Hs & Ha & Ht & Hts & Htd & Hh' & Hb & Hn & Hp & Hkd & Hc).
    rewrite Hh', Hh, orb_true_r in *.
    destruct Hk as (_ & _ & H2 & H3 & H4 & H5 & H6).
    unfold ritase_koheren.
    cbn [siklus_berjalan_punya_ritase ritase_terbaik_di_siklus kandidat_siklus
         siklus_aktif total_siklus_selesai nomor_siklus total_ritase
         total_pencegahan_ganda total_deteksi_truk_penuh] in *.
    rewrite Hts, Hn, Ht, Hp, Htd. split_and!; try done; try lia.
  - destruct Hk as (H0 & Hrest). destruct (H0 Hh) as (_ & _ & He).
    rewrite (selesaikan_siklus_global_diam self He Hh). by split.
Qed.

Lemma ritase_koheren_deteksi self :
  ritase_koheren self →
  ritase_koheren
    (set_total_deteksi_truk_penuh (total_deteksi_truk_penuh self + 1) self).
Proof.
  intros (H0 & H1 & Hts & Hn & Ht & Hp & Hd). unfold ritase_koheren. buka_setter.
  split_and!; try done; lia.
Qed.

Lemma ritase_koheren_proses tid cls f c self :
  ritase_koheren self → ritase_koheren (proses_deteksi tid cls f c self).2.
Proof.
  intros Hk. pose proof (ritase_koheren_pastikan tid self Hk) as Hk1.
  assert (total_deteksi_truk_penuh (pastikan_truck tid self)
          = total_deteksi_truk_penuh self) as Htd1
    by (by rewrite pastikan_truck_tetap).
  destruct (decide (cls = CLASS_BUCKET_DUMPING)) as [->|H2].
  { rewrite proses_deteksi_tutup. by apply ritase_koheren_global. }
  destruct (decide (cls = CLASS_TRUCK_FULL)) as [->|H6].
  2: { by rewrite (proses_deteksi_kelas_lain tid cls f c self H6 H2). }
  pose proof (pastikan_truck_lookup tid self) as Htid.
  destruct (siklus_berjalan_punya_ritase self) eqn:Hh.
  - rewrite (proses_deteksi_ganda tid f c self Hh). cbn [snd].
    destruct Hk as (_ & H1 & Hts & Hn & Ht & Hp & Hd).
    destruct (H1 Hh) as (b & Hb & Hsome & Hcn & Hkn).
    rewrite Hb. unfold ritase_koheren.
    cbn [siklus_berjalan_punya_ritase ritase_terbaik_di_siklus kandidat_siklus
         siklus_aktif total_siklus_selesai nomor_siklus total_ritase
         total_pencegahan_ganda total_deteksi_truk_penuh data_truk].
    split_and!; try done; try lia.
    intros _. destruct (rt_confidence b <? c)%float.
    + eexists. split; [done|]. cbn [rt_tracker_id rt_cycle_number].
      split_and!; [|done|by destruct (kandidat_siklus self)].
      rewrite !lookup_alter_is_Some. done.
    + exists b. split_and!; [done| |done|by destruct (kandidat_siklus self)].
      destruct Hsome as [d Hd']. rewrite (pastikan_truck_lookup_Some tid self _ d Hd').
      eauto.
  - destruct (decide (buat_id tid f ∈ truk_full_terhitung self)) as [Hin|Hin];
      [|destruct (ambang_kepercayaan self <=? c)%float eqn:Hc].
    + rewrite (proses_deteksi_tak_dihitung tid f c self Hh) by auto. cbn [snd].
      rewrite <-Htd1. by apply ritase_koheren_deteksi.
    + rewrite (proses_deteksi_pertama tid f c self Hh Hin Hc). cbn [snd].
      destruct Hk as (_ & _ & Hts & Hn & Ht & Hp & Hd).
      unfold ritase_koheren.
      cbn [siklus_berjalan_punya_ritase ritase_terbaik_di_siklus kandidat_siklus
           siklus_aktif total_siklus_selesai nomor_siklus total_ritase
           total_pencegahan_ganda total_deteksi_truk_penuh data_truk].
      split_and!; try done; try lia.
      intros _. eexists. split; [done|]. cbn [rt_tracker_id rt_cycle_number].
      split_and!; [|done|by destruct (kandidat_siklus self)].
      by rewrite lookup_alter_is_Some.
    + rewrite (proses_deteksi_tak_dihitung tid f c self Hh) by auto. cbn [snd].
      rewrite <-Htd1. by apply ritase_koheren_deteksi.
Qed.

Lemma ritase_koheren_reset_counters self :
  ritase_koheren self → ritase_koheren (reset_counters self).
Proof.
  intros (H0 & H1 & Hts & Hn & Ht & Hp & Hd).
  unfold ritase_koheren, reset_counters. buka_setter.
  split_and!; try done; try lia.
  intros Hh. destruct (H1 Hh) as (b & ? & [d Hsome] & ? & ?). exists b.
  split_and!; try done. rewrite lookup_fmap, Hsome. eauto.
Qed.

Lemma ritase_koheren_langkah op self :
  ritase_koheren self → ritase_koheren (jalankan_ritase op self).
Proof.
  intros Hk. destruct op as [t c f x|t|t f| |]; cbn [jalankan_ritase].
  - by apply ritase_koheren_proses.
  - by apply ritase_koheren_selesaikan.
  - unfold selesaikan_siklus_manual.
    destruct (data_truk self !! t) as [d|] eqn:Hd; [|done].
    apply ritase_koheren_selesaikan, ritase_koheren_data; [|done].
    intros k Hsome. destruct (decide (t = k)) as [<-|Hne].
    + rewrite lookup_insert_eq. eauto.
    + by rewrite lookup_insert_ne.
  - by apply ritase_koheren_reset_counters.
  - apply ritase_koheren_init.
Qed.

Lemma ritase_terjangkau_koheren m self :
  ritase_terjangkau m self → ritase_koheren self.
Proof.
  induction 1 as [|op self _ IH]; [apply ritase_koheren_init|].
  by apply ritase_koheren_langkah.
Qed.

End RitaseKoheren.

Section RitaseSiklusLanjut.

Import Ritase.

Lemma active_detections_kosong self :
  (∀ k l, siklus_aktif self !! k = Some l → l = []) →
  RitaseLaporan.active_detections self = ∅.
Proof.
  intros H. unfold RitaseLaporan.active_detections. apply map_eq; intros k.
  rewrite lookup_fmap, lookup_empty.
  destruct (filter _ (siklus_aktif self) !! k) as [l|] eqn:Hl; [|done].
  apply map_lookup_filter_Some in Hl as [Hl Hlen].
  rewrite (H k l Hl) in Hlen. simpl in Hlen. lia.
Qed.

Lemma selesaikan_siklus_global_punya self :
  siklus_berjalan_punya_ritase (selesaikan_siklus_global self) = false.
Proof.
  unfold selesaikan_siklus_global.
  pose proof (tutup_semua_tetap (truk_dengan_siklus_aktif self) self)
    as (_ & _ & _ & _ & _ & Hh & _).
  destruct (bool_decide _) eqn:Hb; cbn [orb]; [done|].
  destruct (siklus_berjalan_punya_ritase (foldl _ _ _)) eqn:Hf; [done|].
  exact Hf.
Qed.

(** In a coherent state the closing signal advances the cycle exactly when
    the cycle has a ritase. *)
Lemma selesaikan_siklus_global_maju self :
  ritase_koheren self →
  nomor_siklus (selesaikan_siklus_global self) = nomor_siklus self + kredit_siklus self
  ∧ total_siklus_selesai (selesaikan_siklus_global self)
    = total_siklus_selesai self + kredit_siklus self.
Proof.
  intros (H0 & _). unfold kredit_siklus.
  destruct (siklus_berjalan_punya_ritase self) eqn:Hh.
  - unfold selesaikan_siklus_global.
    pose proof (tutup_semua_tetap (truk_dengan_siklus_aktif self) self)
      as (_ & _ & _ & Hts & _ & Hh' & _ & Hn & _).
    rewrite Hh', Hh, orb_true_r. cbn [nomor_siklus total_siklus_selesai].
    by rewrite Hts, Hn.
  - destruct (H0 eq_refl) as (_ & _ & He).
    rewrite (selesaikan_siklus_global_diam self He Hh). lia.
Qed.

(** What a call does to the cycle number and the cycle's credit together. *)
Lemma proses_deteksi_siklus_maju tid cls f c self :
  ritase_koheren self →
  let r := proses_deteksi tid cls f c self in
  nomor_siklus r.2 + kredit_siklus r.2
  = nomor_siklus self + kredit_siklus self + (if r.1 then 1 else 0).
Proof.
  intros Hk. cbv zeta.
  pose proof (ritase_koheren_pastikan tid self Hk) as Hk1.
  assert (nomor_siklus (pastikan_truck tid self) = nomor_siklus self
          ∧ kredit_siklus (pastikan_truck tid self) = kredit_siklus self)
    as (Hn1 & Hc1) by (by rewrite pastikan_truck_tetap).
  destruct (decide (cls = CLASS_BUCKET_DUMPING)) as [->|H2].
  { rewrite proses_deteksi_tutup. cbn [fst snd].
    destruct (selesaikan_siklus_global_maju _ Hk1) as (Hn & _).
    assert (kredit_siklus (selesaikan_siklus_global (pastikan_truck tid self)) = 0)
      as Hz by (unfold kredit_siklus; by rewrite selesaikan_siklus_global_punya).
    lia. }
  destruct (decide (cls = CLASS_TRUCK_FULL)) as [->|H6].
  2: { rewrite (proses_deteksi_kelas_lain tid cls f c self H6 H2). cbn [fst snd].
       lia. }
  unfold kredit_siklus in *.
  destruct (siklus_berjalan_punya_ritase self) eqn:Hh.
  - rewrite (proses_deteksi_ganda tid f c self Hh).
    cbn [fst snd nomor_siklus siklus_berjalan_punya_ritase]. lia.
  - destruct (decide (buat_id tid f ∈ truk_full_terhitung self)) as [Hin|Hin];
      [|destruct (ambang_kepercayaan self <=? c)%float eqn:Hc].
    + rewrite (proses_deteksi_tak_dihitung tid f c self Hh) by auto.
      cbn [fst snd]. buka_setter. lia.
    + rewrite (proses_deteksi_pertama tid f c self Hh Hin Hc).
      cbn [fst snd nomor_siklus siklus_berjalan_punya_ritase]. lia.
    + rewrite (proses_deteksi_tak_dihitung tid f c self Hh) by auto.
      cbn [fst snd]. buka_setter. lia.
Qed.

(** X6. In every state the ritase counter can reach, the flag of the running
    cycle and its best detection go together: without a credited ritase there
    is no best detection, no candidate trail and no active detection; with
    one, the best detection is recorded, belongs to a truck the counter knows
    and to the running cycle, and the trail is not empty. The [None] guard of
    the swap branch is therefore never taken. *)
Theorem ritase_cycle_flag_matches_best m self :
  ritase_terjangkau m self →
  (siklus_berjalan_punya_ritase self = false →
     ritase_terbaik_di_siklus self = None
     ∧ kandidat_siklus self = []
     ∧ RitaseLaporan.active_detections self = ∅)
  ∧ (siklus_berjalan_punya_ritase self = true →
     ∃ b, ritase_terbaik_di_siklus self = Some b
          ∧ is_Some (data_truk self !! rt_tracker_id b)
          ∧ rt_cycle_number b = nomor_siklus self
          ∧ kandidat_siklus self ≠ []).
Proof.
  intros Hr. destruct (ritase_terjangkau_koheren m self Hr) as (H0 & H1 & _).
  split; [|done]. intros Hh. destruct (H0 Hh) as (? & ? & He).
  split_and!; try done. by apply active_detections_kosong.
Qed.

Lemma ritase_cycle_flag_matches_best_witness :
  let self := jalankan_ritase (OrProsesDeteksi 100 6 50 0.95) (Ritase.init 0.9) in
  ∃ b, ritase_terbaik_di_siklus self = Some b
       ∧ is_Some (data_truk self !! rt_tracker_id b)
       ∧ rt_cycle_number b = nomor_siklus self
       ∧ kandidat_siklus self ≠ [].
Proof.
  cbv zeta.
  refine (proj2 (ritase_cycle_flag_matches_best 0.9%float _ _) _).
  - apply ritase_terjangkau_langkah, ritase_terjangkau_init.
  - by vm_compute.
Defined.

(** X7. In every state the ritase counter can reach, the two cycle counters
    [total_siklus_selesai] and [nomor_siklus] are equal and not negative. *)
Theorem ritase_cycle_counters_agree m self :
  ritase_terjangkau m self →
  total_siklus_selesai self = nomor_siklus self ∧ 0 ≤ nomor_siklus self.
Proof.
  intros Hr. by destruct (ritase_terjangkau_koheren m self Hr) as (_ & _ & ? & ? & _).
Qed.

Lemma ritase_cycle_counters_agree_witness :
  let self :=
    jalankan_ritase (OrProsesDeteksi 200 2 60 0.9)
      (jalankan_ritase (OrProsesDeteksi 100 6 50 0.95) (Ritase.init 0.9)) in
  total_siklus_selesai self = nomor_siklus self ∧ 0 ≤ nomor_siklus self.
Proof.
  cbv zeta. refine (ritase_cycle_counters_agree 0.9%float _ _).
  do 2 apply ritase_terjangkau_langkah. apply ritase_terjangkau_init.
Defined.

(** X8. In every state the ritase counter can reach, [total_ritase] and
    [total_pencegahan_ganda] are not negative and together do not exceed
    [total_deteksi_truk_penuh]: every credited ritase and every prevented
    duplicate is a [truck_full] detection that was counted. *)
Theorem ritase_credits_and_duplicates_bounded m self :
  ritase_terjangkau m self →
  0 ≤ total_ritase self
  ∧ 0 ≤ total_pencegahan_ganda self
  ∧ total_ritase self + total_pencegahan_ganda self ≤ total_deteksi_truk_penuh self.
Proof.
  intros Hr.
  by destruct (ritase_terjangkau_koheren m self Hr) as (_ & _ & _ & _ & ? & ? & ?).
Qed.

Lemma ritase_credits_and_duplicates_bounded_witness :
  let self :=
    jalankan_ritase (OrProsesDeteksi 200 6 51 0.97)
      (jalankan_ritase (OrProsesDeteksi 100 6 50 0.95) (Ritase.init 0.9)) in
  total_ritase self + total_pencegahan_ganda self ≤ total_deteksi_truk_penuh self.
Proof.
  cbv zeta.
  refine (proj2 (proj2 (ritase_credits_and_duplicates_bounded 0.9%float _ _))).
  do 2 apply ritase_terjangkau_langkah. apply ritase_terjangkau_init.
Defined.

Lemma ritase_total_langkah op self :
  op ≠ OrResetCounters →
  ritase_koheren self →
  total_ritase self = nomor_siklus self + kredit_siklus self →
  total_ritase (jalankan_ritase op self)
  = nomor_siklus (jalankan_ritase op self) + kredit_siklus (jalankan_ritase op self).
Proof.
  intros Hop Hk Ht. destruct op as [t c f x|t|t f| |]; cbn [jalankan_ritase];
    [| | |done|done].
  - pose proof (proses_deteksi_siklus_maju t c f x self Hk) as Hm.
    pose proof (ritase_total_naik_bila_true t c f x self) as Hn.
    cbv zeta in *. lia.
  - pose proof (selesaikan_siklus_tetap t self)
      as (_ & _ & -> & _ & _ & Hh & _ & -> & _).
    unfold kredit_siklus. by rewrite Hh.
  - unfold selesaikan_siklus_manual. destruct (data_truk self !! t); [|done].
    match goal with |- context [selesaikan_siklus t ?s] =>
      pose proof (selesaikan_siklus_tetap t s)
        as (_ & _ & -> & _ & _ & Hh & _ & -> & _) end.
    unfold kredit_siklus. rewrite Hh. by buka_setter.
Qed.

(** X9. As long as [reset_counters] is not called, [total_ritase] is the
    number of completed cycles, plus one when the running cycle has its
    ritase: every completed global cycle credited exactly one ritase. *)
Theorem ritase_total_counts_cycles m ops :
  Forall (λ op, op ≠ OrResetCounters) ops →
  let self := jalankan_ritase_semua ops (Ritase.init m) in
  total_ritase self = nomor_siklus self + kredit_siklus self.
Proof.
  intros Hops. cbv zeta. unfold jalankan_ritase_semua.
  assert (∀ self, ritase_koheren self →
            total_ritase self = nomor_siklus self + kredit_siklus self →
            let s := foldl (λ s op, jalankan_ritase op s) self ops in
            total_ritase s = nomor_siklus s + kredit_siklus s) as H.
  { induction Hops as [|op ops Hop Hops IH]; intros self Hk Ht; [done|].
    cbn [foldl]. apply IH.
    - by apply ritase_koheren_langkah.
    - by apply ritase_total_langkah. }
  apply H; [apply ritase_koheren_init|done].
Qed.

Lemma ritase_total_counts_cycles_witness :
  let self :=
    jalankan_ritase_semua
      [OrProsesDeteksi 100 6 50 0.95; OrProsesDeteksi 200 2 60 0.9;
       OrProsesDeteksi 100 6 70 0.92] (Ritase.init 0.9) in
  total_ritase self = nomor_siklus self + kredit_siklus self.
Proof.
  cbv zeta. apply (ritase_total_counts_cycles 0.9%float).
  repeat constructor; discriminate.
Defined.

(** X10. Whatever the state, after [_selesaikan_siklus_global] the cycle has
    no ritase and no truck has an active detection, so a second closing
    signal right after the first changes nothing. *)
Theorem ritase_closing_signal_idempotent self :
  let s := selesaikan_siklus_global self in
  siklus_berjalan_punya_ritase s = false
  ∧ truk_dengan_siklus_aktif s = []
  ∧ RitaseLaporan.active_detections s = ∅
  ∧ selesaikan_siklus_global s = s.
Proof.
  cbv zeta. pose proof (selesaikan_siklus_global_kosong self) as He.
  pose proof (selesaikan_siklus_global_punya self) as Hh.
  split_and!; [done| | |].
  - by apply truk_dengan_siklus_aktif_kosong.
  - by apply active_detections_kosong.
  - by apply selesaikan_siklus_global_diam.
Qed.

(** X11. In every state the ritase counter can reach, a [bucket_dumping]
    detection returns [False], keeps [total_ritase], and advances
    [nomor_siklus] by one exactly when the running cycle has a credited
    ritase; a closing signal in a cycle without one leaves the cycle number
    as it is. *)
Theorem ritase_closing_signal_advances_credited_cycle m self tid f c :
  ritase_terjangkau m self →
  let r := proses_deteksi tid CLASS_BUCKET_DUMPING f c self in
  r.1 = false
  ∧ total_ritase r.2 = total_ritase self
  ∧ siklus_berjalan_punya_ritase r.2 = false
  ∧ nomor_siklus r.2
    = nomor_siklus self + (if siklus_berjalan_punya_ritase self then 1 else 0).
Proof.
  intros Hr. cbv zeta. rewrite proses_deteksi_tutup. cbn [fst snd].
  pose proof (ritase_terjangkau_koheren m self Hr) as Hk.
  pose proof (ritase_koheren_pastikan tid self Hk) as Hk1.
  destruct (selesaikan_siklus_global_maju _ Hk1) as (Hn & _).
  destruct (selesaikan_siklus_global_total (pastikan_truck tid self)) as (Ht & _).
  rewrite Hn, Ht, selesaikan_siklus_global_punya. unfold kredit_siklus.
  by rewrite pastikan_truck_tetap.
Qed.

Lemma ritase_closing_signal_advances_credited_cycle_witness :
  let s0 := Ritase.init 0.9 in
  let s1 := jalankan_ritase (OrProsesDeteksi 100 6 50 0.95) s0 in
  nomor_siklus (proses_deteksi 200 CLASS_BUCKET_DUMPING 60 0.9 s0).2
  = nomor_siklus s0 + 0
  ∧ nomor_siklus (proses_deteksi 200 CLASS_BUCKET_DUMPING 60 0.9 s1).2
    = nomor_siklus s1 + 1.
Proof.
  cbv zeta. split.
  - refine (proj2 (proj2 (proj2 (ritase_closing_signal_advances_credited_cycle
                                   0.9%float _ 200 60 0.9%float _)))).
    apply ritase_terjangkau_init.
  - refine (proj2 (proj2 (proj2 (ritase_closing_signal_advances_credited_cycle
                                   0.9%float _ 200 60 0.9%float _)))).
    apply ritase_terjangkau_langkah, ritase_terjangkau_init.
Defined.

End RitaseSiklusLanjut.

Section RitaseManualDanProduktif.

Import Ritase.

(** X12. [selesaikan_siklus_manual] does nothing for a truck the counter
    does not know. For a known truck it stamps [last_cycle_number] with the
    running cycle and keeps the count; the frame passed in survives as
    [last_cycle_frame] only when the truck has no entry in [siklus_aktif]:
    when it has one, [selesaikan_siklus] runs after the stamp, sets
    [last_cycle_frame] back to 0, drops the truck's candidate and empties its
    active list. No other truck and no total or cycle field changes. *)
Theorem ritase_manual_close_frame_stamp self tid f :
  let s := selesaikan_siklus_manual tid f self in
  (data_truk self !! tid = None → s = self)
  ∧ (∀ d, data_truk self !! tid = Some d →
       data_truk s !! tid
       = Some match siklus_aktif self !! tid with
              | Some _ =>
                  {| ritase_count := ritase_count d; best_full := None;
                     last_cycle_frame := 0;
                     last_cycle_number := nomor_siklus self |}
              | None =>
                  {| ritase_count := ritase_count d; best_full := best_full d;
                     last_cycle_frame := f;
                     last_cycle_number := nomor_siklus self |}
              end)
  ∧ siklus_aktif s !! tid
    = match data_truk self !! tid with
      | Some _ => (λ _, []) <$> siklus_aktif self !! tid
      | None => siklus_aktif self !! tid
      end
  ∧ (∀ k, k ≠ tid →
       data_truk s !! k = data_truk self !! k
       ∧ siklus_aktif s !! k = siklus_aktif self !! k)
  ∧ total_ritase s = total_ritase self
  ∧ nomor_siklus s = nomor_siklus self
  ∧ total_siklus_selesai s = total_siklus_selesai self
  ∧ siklus_berjalan_punya_ritase s = siklus_berjalan_punya_ritase self
  ∧ ritase_terbaik_di_siklus s = ritase_terbaik_di_siklus self
  ∧ truk_full_terhitung s = truk_full_terhitung self.
Proof.
  cbv zeta. unfold selesaikan_siklus_manual.
  destruct (data_truk self !! tid) as [d|] eqn:Hd.
  2: { split_and!; try done; intros d'; by rewrite Hd. }
  unfold selesaikan_siklus. buka_setter.
  destruct (siklus_aktif self !! tid) as [l|] eqn:Hl; buka_setter.
  - rewrite lookup_insert_eq. buka_setter.
    rewrite !lookup_insert_eq.
    split_and!; try done;
      first [by intros d' [= <-]|intros k Hk; by rewrite !lookup_insert_ne].
  - rewrite lookup_insert_eq, Hl.
    split_and!; try done;
      first [by intros d' [= <-]|intros k Hk; by rewrite lookup_insert_ne].
Qed.

Lemma ritase_manual_close_frame_stamp_witness :
  let self := (proses_deteksi 100 CLASS_TRUCK_FULL 50 0.95 (Ritase.init 0.9)).2 in
  let lain := (proses_deteksi 300 5 50 0.95 (Ritase.init 0.9)).2 in
  (last_cycle_frame <$> data_truk (selesaikan_siklus_manual 100 77 self) !! 100) = Some 0
  ∧ (last_cycle_frame <$> data_truk (selesaikan_siklus_manual 300 77 lain) !! 300)
    = Some 77.
Proof.
  cbv zeta. split.
  - destruct (ritase_manual_close_frame_stamp
                (proses_deteksi 100 CLASS_TRUCK_FULL 50 0.95 (Ritase.init 0.9)).2
                100 77) as (_ & H & _).
    rewrite (H {| ritase_count := 1;
                  best_full := Some {| bf_full_truck_id := buat_id 100 50;
                                       bf_frame_index := 50; bf_confidence := 0.95;
                                       bf_cycle_number := 0 |};
                  last_cycle_frame := 0; last_cycle_number := -1 |})
      by (by vm_compute).
    by vm_compute.
  - destruct (ritase_manual_close_frame_stamp
                (proses_deteksi 300 5 50 0.95 (Ritase.init 0.9)).2 300 77)
      as (_ & H & _).
    rewrite (H truck_baru) by (by vm_compute). by vm_compute.
Defined.

Lemma sisip_menurun_perm x l : RitaseLaporan.sisip_menurun x l ≡ₚ x :: l.
Proof.
  induction l as [|y l IH]; [done|]. cbn [RitaseLaporan.sisip_menurun].
  case_bool_decide; [|done]. rewrite IH. apply Permutation_swap.
Qed.

Lemma urut_menurun_perm l : RitaseLaporan.urut_menurun l ≡ₚ l.
Proof.
  induction l as [|x l IH]; [done|]. unfold RitaseLaporan.urut_menurun in *.
  cbn [foldr]. by rewrite sisip_menurun_perm, IH.
Qed.

Lemma sisip_menurun_sorted x l :
  StronglySorted (λ a b, RitaseLaporan.tp_ritase_count b
                         ≤ RitaseLaporan.tp_ritase_count a) l →
  StronglySorted (λ a b, RitaseLaporan.tp_ritase_count b
                         ≤ RitaseLaporan.tp_ritase_count a)
    (RitaseLaporan.sisip_menurun x l).
Proof.
  induction 1 as [|y l Hs IH Hall]; cbn [RitaseLaporan.sisip_menurun].
  - repeat constructor.
  - case_bool_decide as Hlt.
    + constructor; [done|].
      rewrite (Forall_forall _ (RitaseLaporan.sisip_menurun x l)).
      intros z Hz. rewrite sisip_menurun_perm in Hz.
      apply elem_of_cons in Hz as [->|Hz]; [lia|].
      by apply (proj1 (Forall_forall _ _) Hall).
    + constructor; [by constructor|]. constructor; [lia|].
      eapply Forall_impl; [exact Hall|]. intros z Hz. cbn in *. lia.
Qed.

Lemma urut_menurun_sorted l :
  StronglySorted (λ a b, RitaseLaporan.tp_ritase_count b
                         ≤ RitaseLaporan.tp_ritase_count a)
    (RitaseLaporan.urut_menurun l).
Proof.
  induction l as [|x l IH]; [constructor|].
  unfold RitaseLaporan.urut_menurun in *. cbn [foldr]. by apply sisip_menurun_sorted.
Qed.

(** X13. Whatever order the dict holds the trucks in,
    [dapatkan_truck_produktif] returns exactly the trucks whose count is
    positive, each once and with its count, in descending order of count;
    their number is the ["active_trucks"] figure of [dapatkan_statistik] and
    of [get_siklus_aktif]. *)
Theorem ritase_productive_trucks_sorted self items :
  items ≡ₚ map_to_list (data_truk self) →
  let r := RitaseLaporan.dapatkan_truck_produktif items in
  StronglySorted (λ a b, RitaseLaporan.tp_ritase_count b
                         ≤ RitaseLaporan.tp_ritase_count a) r
  ∧ (∀ t n, (∃ row, row ∈ r ∧ RitaseLaporan.tp_tracker_id row = t
                    ∧ RitaseLaporan.tp_ritase_count row = n)
            ↔ (∃ d, data_truk self !! t = Some d ∧ ritase_count d = n ∧ 0 < n))
  ∧ NoDup (RitaseLaporan.tp_tracker_id <$> r)
  ∧ Z.of_nat (length r)
    = RitaseLaporan.st_active_trucks (RitaseLaporan.dapatkan_statistik self)
  ∧ Z.of_nat (length r)
    = RitaseLaporan.sa_active_trucks (RitaseLaporan.get_siklus_aktif self).
Proof.
  intros Hperm. cbv zeta. unfold RitaseLaporan.dapatkan_truck_produktif.
  set (P := λ p : Z * TruckData, 0 < ritase_count p.2).
  assert (RitaseLaporan.urut_menurun (RitaseLaporan.baris_produktif <$> filter P items)
          ≡ₚ RitaseLaporan.baris_produktif <$> filter P (map_to_list (data_truk self)))
    as Hr by (by rewrite urut_menurun_perm, Hperm).
  assert (Z.of_nat (length (RitaseLaporan.urut_menurun
                              (RitaseLaporan.baris_produktif <$> filter P items)))
          = RitaseLaporan.active_trucks self) as Hlen.
  { rewrite Hr, length_fmap. done. }
  split_and!; [apply urut_menurun_sorted| | |exact Hlen|exact Hlen].
  - intros t n. setoid_rewrite Hr. split.
    + intros (row & Hin & <- & <-).
      apply list_elem_of_fmap in Hin as ([k d] & -> & Hin).
      apply list_elem_of_filter in Hin as [HP Hin].
      apply elem_of_map_to_list in Hin. exists d. by split_and!.
    + intros (d & Hd & <- & Hpos). exists (RitaseLaporan.baris_produktif (t, d)).
      split_and!; try done. apply list_elem_of_fmap. exists (t, d). split; [done|].
      apply list_elem_of_filter. split; [done|]. by apply elem_of_map_to_list.
  - rewrite Hr, <-list_fmap_compose.
    change (RitaseLaporan.tp_tracker_id ∘ RitaseLaporan.baris_produktif)
      with (@fst Z TruckData).
    eapply sublist_NoDup; [apply (NoDup_fst_map_to_list (data_truk self))|].
    apply fmap_sublist, sublist_filter.
Qed.

Lemma ritase_productive_trucks_sorted_witness :
  let self :=
    (ritase_proses_semua
       [ {| tracker_id := 100; class_id := 6; frame_index := 50; confidence := 0.95 |};
         {| tracker_id := 200; class_id := 2; frame_index := 60; confidence := 0.9 |};
         {| tracker_id := 100; class_id := 6; frame_index := 70; confidence := 0.92 |};
         {| tracker_id := 200; class_id := 2; frame_index := 80; confidence := 0.9 |};
         {| tracker_id := 300; class_id := 6; frame_index := 90; confidence := 0.93 |} ]
       (Ritase.init 0.9)).2 in
  Z.of_nat (length (RitaseLaporan.dapatkan_truck_produktif
                      (map_to_list (data_truk self))))
  = RitaseLaporan.st_active_trucks (RitaseLaporan.dapatkan_statistik self).
Proof.
  cbv zeta.
  refine (proj1 (proj2 (proj2 (proj2
            (ritase_productive_trucks_sorted _ _ _))))).
  reflexivity.
Defined.

End RitaseManualDanProduktif.

(** ** The frame loops *)

Section LoopFrame.

Lemma bukan_truck_full_false tid cls f c self :
  cls ≠ Ritase.CLASS_TRUCK_FULL → (Ritase.proses_deteksi tid cls f c self).1 = false.
Proof.
  intros H6. destruct (decide (cls = Ritase.CLASS_BUCKET_DUMPING)) as [->|H2].
  - by rewrite proses_deteksi_tutup.
  - by rewrite (proses_deteksi_kelas_lain tid cls f c self H6 H2).
Qed.

Lemma bukan_penutup_nomor tid cls f c self :
  cls ≠ Ritase.CLASS_BUCKET_DUMPING →
  Ritase.nomor_siklus (Ritase.proses_deteksi tid cls f c self).2
  = Ritase.nomor_siklus self.
Proof.
  intros H2.
  assert (Ritase.nomor_siklus (Ritase.pastikan_truck tid self)
          = Ritase.nomor_siklus self) as Hn by (by rewrite pastikan_truck_tetap).
  destruct (decide (cls = Ritase.CLASS_TRUCK_FULL)) as [->|H6].
  2: { by rewrite (proses_deteksi_kelas_lain tid cls f c self H6 H2). }
  destruct (Ritase.siklus_berjalan_punya_ritase self) eqn:Hh.
  - by rewrite (proses_deteksi_ganda tid f c self Hh).
  - destruct (decide (buat_id tid f ∈ Ritase.truk_full_terhitung self)) as [Hin|Hin];
      [|destruct (Ritase.ambang_kepercayaan self <=? c)%float eqn:Hc].
    + by rewrite (proses_deteksi_tak_dihitung tid f c self Hh) by auto.
    + by rewrite (proses_deteksi_pertama tid f c self Hh Hin Hc).
    + by rewrite (proses_deteksi_tak_dihitung tid f c self Hh) by auto.
Qed.

Lemma truck_mask_true cls :
  truck_mask cls = true →
  cls ≠ Ritase.CLASS_BUCKET_DUMPING.
Proof.
  unfold truck_mask, Ritase.CLASS_BUCKET_DUMPING. intros H ->.
  by rewrite !bool_decide_eq_false_2 in H by lia.
Qed.

Lemma truck_mask_false cls :
  truck_mask cls = false → cls ≠ Ritase.CLASS_TRUCK_FULL.
Proof.
  unfold truck_mask, Ritase.CLASS_TRUCK_FULL. intros H ->.
  rewrite (bool_decide_eq_true_2 (6 = 6)) in H by done.
  by rewrite orb_true_r in H.
Qed.

Lemma reset_counters_bingkai self :
  Ritase.nomor_siklus (Ritase.reset_counters self) = Ritase.nomor_siklus self
  ∧ kredit_siklus (Ritase.reset_counters self) = kredit_siklus self
  ∧ Ritase.total_ritase (Ritase.reset_counters self) = 0.
Proof. done. Qed.

Lemma passing_total_selesaikan_proses tid cls f c (ya : bool) pp :
  let pp1 := if ya then Passing.selesaikan_siklus tid pp else pp in
  let r := Passing.proses_deteksi tid cls f c pp1 in
  Passing.total_passing r.2 = Passing.total_passing pp + (if r.1 then 1 else 0).
Proof.
  cbv zeta. rewrite passing_total_naik_bila_true.
  destruct ya; [|done].
  by destruct (selesaikan_siklus_bingkai tid pp) as (-> & _).
Qed.

End LoopFrame.

Section LoopDetector.

Import Detector.

Lemma kredit_siklus_01 self : kredit_siklus self = 0 ∨ kredit_siklus self = 1.
Proof. unfold kredit_siklus. destruct (Ritase.siklus_berjalan_punya_ritase self); auto. Qed.

Lemma nomor_tetap_atau_tanpa_kredit tid cls f c self :
  Ritase.nomor_siklus (Ritase.proses_deteksi tid cls f c self).2
  = Ritase.nomor_siklus self
  ∨ kredit_siklus (Ritase.proses_deteksi tid cls f c self).2 = 0.
Proof.
  destruct (decide (cls = Ritase.CLASS_BUCKET_DUMPING)) as [->|H2].
  - right. rewrite proses_deteksi_tutup. cbn [snd]. unfold kredit_siklus.
    by rewrite selesaikan_siklus_global_punya.
  - left. by apply bukan_penutup_nomor.
Qed.

(** The loop over [tracked_truck], for trucks of the classes the mask selects. *)
Lemma loop_truck_terjaga n i tt st :
  Forall (λ d, truck_mask (tl_class_id d) = true) tt →
  detector_terjaga st →
  Ritase.nomor_siklus (penghitung_ritase st) = n →
  detector_terjaga (foldl (langkah_truck n i) st tt)
  ∧ Ritase.nomor_siklus (penghitung_ritase (foldl (langkah_truck n i) st tt)) = n.
Proof.
  intros Htt. revert st. induction Htt as [|d tt Hd Htt IH]; intros st Hinv Hn;
    [done|].
  cbn [foldl]. apply IH.
  - destruct Hinv as (Hk & Ht & Hrd & Hp0 & Hp1 & Hdis & Hter).
    unfold langkah_truck.
    pose proof (ritase_koheren_proses (tl_tracker_id d) (tl_class_id d) i
                  (tl_confidence d) _ Hk) as Hk'.
    pose proof (ritase_total_naik_bila_true (tl_tracker_id d) (tl_class_id d) i
                  (tl_confidence d) (penghitung_ritase st)) as Ht'.
    pose proof (proses_deteksi_siklus_maju (tl_tracker_id d) (tl_class_id d) i
                  (tl_confidence d) _ Hk) as Hm.
    pose proof (bukan_penutup_nomor (tl_tracker_id d) (tl_class_id d) i
                  (tl_confidence d) (penghitung_ritase st)
                  (truck_mask_true _ Hd)) as Hn'.
    cbv zeta in *.
    destruct (Ritase.proses_deteksi _ _ _ _ _) as [r pr]; cbn [fst snd] in *.
    pose proof (kredit_siklus_01 (penghitung_ritase st)).
    pose proof (kredit_siklus_01 pr).
    destruct r.
    + unfold detector_terjaga.
      cbn [penghitung_ritase penghitung_passing passing_detections
           ritase_detections display_ritase siklus_terakhir].
      destruct (reset_counters_bingkai pr) as (-> & -> & ->).
      change (Passing.total_passing
                (Passing.reset_all_counters (penghitung_passing st))) with 0.
      split_and!; try done; try lia.
      by apply ritase_koheren_reset_counters.
    + unfold detector_terjaga.
      cbn [penghitung_ritase penghitung_passing passing_detections
           ritase_detections display_ritase siklus_terakhir].
      split_and!; try done; lia.
  - unfold langkah_truck.
    pose proof (bukan_penutup_nomor (tl_tracker_id d) (tl_class_id d) i
                  (tl_confidence d) (penghitung_ritase st)
                  (truck_mask_true _ Hd)) as Hn'.
    destruct (Ritase.proses_deteksi _ _ _ _ _) as [r pr]; cbn [fst snd] in *.
    destruct r; cbn [penghitung_ritase]; [|lia].
    destruct (reset_counters_bingkai pr) as (-> & _). lia.
Qed.

(** The first loop over [tracked_bucket]: at most one cycle is closed. *)
Lemma loop_bucket_ritase_terjaga n i tb st :
  Forall (λ d, truck_mask (tl_class_id d) = false) tb →
  ritase_koheren (penghitung_ritase st)
  ∧ Ritase.total_ritase (penghitung_ritase st) = 0
  ∧ ritase_detections st
    = Ritase.nomor_siklus (penghitung_ritase st) + kredit_siklus (penghitung_ritase st)
  ∧ ((Ritase.nomor_siklus (penghitung_ritase st) = n
      ∧ display_ritase st = kredit_siklus (penghitung_ritase st))
     ∨ (Ritase.nomor_siklus (penghitung_ritase st) = n + 1
        ∧ kredit_siklus (penghitung_ritase st) = 0)) →
  let st' := foldl (langkah_bucket_ritase i) st tb in
  (ritase_koheren (penghitung_ritase st')
   ∧ Ritase.total_ritase (penghitung_ritase st') = 0
   ∧ ritase_detections st'
     = Ritase.nomor_siklus (penghitung_ritase st')
       + kredit_siklus (penghitung_ritase st')
   ∧ ((Ritase.nomor_siklus (penghitung_ritase st') = n
       ∧ display_ritase st' = kredit_siklus (penghitung_ritase st'))
      ∨ (Ritase.nomor_siklus (penghitung_ritase st') = n + 1
         ∧ kredit_siklus (penghitung_ritase st') = 0)))
  ∧ penghitung_passing st' = penghitung_passing st
  ∧ passing_detections st' = passing_detections st
  ∧ siklus_terakhir st' = siklus_terakhir st.
Proof.
  intros Htb. revert st. induction Htb as [|d tb Hd Htb IH]; intros st Hinv;
    [done|].
  cbn [foldl]. cbv zeta in *.
  assert (penghitung_passing (langkah_bucket_ritase i st d) = penghitung_passing st
          ∧ passing_detections (langkah_bucket_ritase i st d) = passing_detections st
          ∧ siklus_terakhir (langkah_bucket_ritase i st d) = siklus_terakhir st)
    as (<- & <- & <-) by done.
  apply IH. destruct Hinv as (Hk & Ht & Hrd & Hdis).
  unfold langkah_bucket_ritase.
  cbn [penghitung_ritase ritase_detections display_ritase].
  pose proof (ritase_koheren_proses (tl_tracker_id d) (tl_class_id d) i
                (tl_confidence d) _ Hk) as Hk'.
  pose proof (ritase_total_naik_bila_true (tl_tracker_id d) (tl_class_id d) i
                (tl_confidence d) (penghitung_ritase st)) as Ht'.
  pose proof (proses_deteksi_siklus_maju (tl_tracker_id d) (tl_class_id d) i
                (tl_confidence d) _ Hk) as Hm.
  pose proof (nomor_tetap_atau_tanpa_kredit (tl_tracker_id d) (tl_class_id d) i
                (tl_confidence d) (penghitung_ritase st)) as Hn'.
  pose proof (bukan_truck_full_false (tl_tracker_id d) (tl_class_id d) i
                (tl_confidence d) (penghitung_ritase st)
                (truck_mask_false _ Hd)) as Hr.
  cbv zeta in *. rewrite Hr in *.
  pose proof (kredit_siklus_01 (penghitung_ritase st)).
  pose proof (kredit_siklus_01
                (Ritase.proses_deteksi (tl_tracker_id d) (tl_class_id d) i
                   (tl_confidence d) (penghitung_ritase st)).2).
  split_and!; [done|lia|lia|lia].
Qed.

(** The second loop over [tracked_bucket]: only the passing side moves. *)
Lemma loop_bucket_passing_terjaga i tb st :
  0 ≤ Passing.total_passing (penghitung_passing st) →
  Passing.total_passing (penghitung_passing st) ≤ passing_detections st →
  let st' := foldl (langkah_bucket_passing i) st tb in
  0 ≤ Passing.total_passing (penghitung_passing st')
  ∧ Passing.total_passing (penghitung_passing st') ≤ passing_detections st'
  ∧ penghitung_ritase st' = penghitung_ritase st
  ∧ ritase_detections st' = ritase_detections st
  ∧ display_ritase st' = display_ritase st
  ∧ siklus_terakhir st' = siklus_terakhir st.
Proof.
  revert st. induction tb as [|d tb IH]; intros st H0 H1; [done|].
  cbn [foldl]. cbv zeta in *.
  assert (penghitung_ritase (langkah_bucket_passing i st d) = penghitung_ritase st
          ∧ ritase_detections (langkah_bucket_passing i st d) = ritase_detections st
          ∧ display_ritase (langkah_bucket_passing i st d) = display_ritase st
          ∧ siklus_terakhir (langkah_bucket_passing i st d) = siklus_terakhir st)
    as (<- & <- & <- & <-).
  { unfold langkah_bucket_passing. by destruct (Passing.proses_deteksi _ _ _ _ _). }
  unfold langkah_bucket_passing.
  pose proof (passing_total_selesaikan_proses (tl_tracker_id d) (tl_class_id d) i
                (tl_confidence d) (bool_decide (tl_class_id d = 1))
                (penghitung_passing st)) as Ht.
  cbv zeta in Ht.
  assert ((if bool_decide (tl_class_id d = 1)
           then Passing.selesaikan_siklus (tl_tracker_id d) (penghitung_passing st)
           else penghitung_passing st)
          = (if decide (tl_class_id d = 1)
             then Passing.selesaikan_siklus (tl_tracker_id d) (penghitung_passing st)
             else penghitung_passing st)) as Heq
    by (by destruct (decide (tl_class_id d = 1));
          [rewrite bool_decide_eq_true_2|rewrite bool_decide_eq_false_2]).
  rewrite Heq in Ht.
  destruct (Passing.proses_deteksi _ _ _ _ _) as [r pp]; cbn [fst snd] in *.
  apply IH; cbn [penghitung_passing passing_detections]; destruct r; lia.
Qed.

(** One frame keeps what the detector's loop keeps. *)
Lemma proses_frame_terjaga tt tb i st :
  terpilah (tt, tb) → detector_terjaga st → detector_terjaga (proses_frame tt tb i st).
Proof.
  intros [Htt Htb] Hinv. cbn [fst snd] in *.
  unfold proses_frame, perbarui_penghitung.
  set (n := Ritase.nomor_siklus (penghitung_ritase st)).
  destruct (loop_truck_terjaga n i tt st Htt Hinv eq_refl) as (H1 & Hn1).
  set (st1 := foldl (langkah_truck n i) st tt) in *.
  destruct H1 as (Hk & Ht & Hrd & Hp0 & Hp1 & Hdis & Hter).
  destruct (loop_bucket_ritase_terjaga n i tb st1 Htb) as (H2 & Hpp & Hpd & Hter2).
  { split_and!; try done. left. by split. }
  set (st2 := foldl (langkah_bucket_ritase i) st1 tb) in *. cbv zeta in *.
  destruct H2 as (Hk2 & Ht2 & Hrd2 & Hdis2).
  destruct (loop_bucket_passing_terjaga i tb st2) as (Hq0 & Hq1 & Hpr & Hrd3 & Hd3 & Ht3).
  { by rewrite Hpp. }
  { by rewrite Hpp, Hpd. }
  set (st3 := foldl (langkah_bucket_passing i) st2 tb) in *. cbv zeta in *.
  unfold perbarui_tampilan, siklus_dimulai_dari.
  rewrite Hpr, Ht3, Hter2, Hter, Hn1.
  case_bool_decide as Hcmp; unfold detector_terjaga;
    cbn [penghitung_ritase penghitung_passing passing_detections
         ritase_detections display_ritase siklus_terakhir];
    rewrite ?Hpr, ?Hrd3, ?Hd3, ?Ht3, ?Hter2, ?Hter, ?Hn1;
    pose proof (kredit_siklus_01 (penghitung_ritase st2));
    split_and!; try done; lia.
Qed.

Lemma detector_terjaga_awal pt rt : detector_terjaga (awal pt rt).
Proof.
  unfold detector_terjaga, awal.
  cbn [penghitung_ritase penghitung_passing passing_detections
       ritase_detections display_ritase siklus_terakhir].
  split_and!; first [apply ritase_koheren_init|done].
Qed.

Lemma jalankan_terjaga i frames st :
  Forall terpilah frames → detector_terjaga st →
  detector_terjaga (jalankan i frames st).
Proof.
  intros Hf. revert i st. induction Hf as [|[tt tb] frames H Hf IH];
    intros i st Hinv; [done|].
  cbn [jalankan]. apply IH. by apply proses_frame_terjaga.
Qed.

(** X14. Under the loop of [backend/detector.py], started on fresh counters
    and fed frames, each processed without an exception, whose tracked trucks
    and buckets keep the mask's split,
    [total_ritase] of the ritase counter is 0 after every frame (each credit
    is followed at once by [reset_counters]); the credits are held by
    [stats["ritase_detections"]], which equals the number of completed cycles
    plus one when the running cycle has its ritase; and [total_passing] never
    exceeds [stats["passing_detections"]]. *)
Theorem detector_loop_counts_ritase_in_stats pt rt frames :
  Forall terpilah frames →
  let st := jalankan 0 frames (awal pt rt) in
  Ritase.total_ritase (penghitung_ritase st) = 0
  ∧ ritase_detections st
    = Ritase.nomor_siklus (penghitung_ritase st)
      + (if Ritase.siklus_berjalan_punya_ritase (penghitung_ritase st) then 1 else 0)
  ∧ 0 ≤ Passing.total_passing (penghitung_passing st)
  ∧ Passing.total_passing (penghitung_passing st) ≤ passing_detections st.
Proof.
  intros Hf. cbv zeta.
  by destruct (jalankan_terjaga 0 frames (awal pt rt) Hf (detector_terjaga_awal pt rt))
    as (_ & ? & ? & ? & ? & _).
Qed.

(** X15. Under the same loop, in the first run of a detector (so that
    [display_ritase] and [siklus_terakhir] are as [__init__] sets them),
    after every frame the overlay figure [display_ritase] is 1 exactly when
    the running cycle has a credited ritase and 0 otherwise, and
    [siklus_terakhir] is the counter's [nomor_siklus]. *)
Theorem detector_loop_overlay_shows_cycle_credit pt rt frames :
  Forall terpilah frames →
  let st := jalankan 0 frames (awal pt rt) in
  display_ritase st
  = (if Ritase.siklus_berjalan_punya_ritase (penghitung_ritase st) then 1 else 0)
  ∧ siklus_terakhir st = Ritase.nomor_siklus (penghitung_ritase st).
Proof.
  intros Hf. cbv zeta.
  by destruct (jalankan_terjaga 0 frames (awal pt rt) Hf (detector_terjaga_awal pt rt))
    as (_ & _ & _ & _ & _ & ? & ?).
Qed.

End LoopDetector.

Section LoopDetectorSaksi.

Import Detector.

Lemma detector_loop_counts_ritase_in_stats_witness :
  let frames :=
    [ ([ {| tl_tracker_id := 100; tl_class_id := 6; tl_confidence := 0.95 |} ],
       [ {| tl_tracker_id := 200; tl_class_id := 3; tl_confidence := 0.9 |} ]);
      ([ {| tl_tracker_id := 100; tl_class_id := 6; tl_confidence := 0.96 |} ],
       [ {| tl_tracker_id := 200; tl_class_id := 2; tl_confidence := 0.9 |} ]);
      ([ {| tl_tracker_id := 100; tl_class_id := 6; tl_confidence := 0.93 |} ],
       [ {| tl_tracker_id := 200; tl_class_id := 1; tl_confidence := 0.9 |} ]) ] in
  let st := jalankan 0 frames (awal 0.8 0.9) in
  ritase_detections st = 2 ∧ Ritase.total_ritase (penghitung_ritase st) = 0.
Proof.
  cbv zeta. split; [by vm_compute|].
  refine (proj1 (detector_loop_counts_ritase_in_stats 0.8%float 0.9%float _ _)).
  repeat constructor.
Defined.

Lemma detector_loop_overlay_shows_cycle_credit_witness :
  let frames :=
    [ ([ {| tl_tracker_id := 100; tl_class_id := 6; tl_confidence := 0.95 |} ],
       [ {| tl_tracker_id := 200; tl_class_id := 3; tl_confidence := 0.9 |} ]);
      ([ {| tl_tracker_id := 100; tl_class_id := 6; tl_confidence := 0.96 |} ],
       [ {| tl_tracker_id := 200; tl_class_id := 2; tl_confidence := 0.9 |} ]) ] in
  let st := jalankan 0 frames (awal 0.8 0.9) in
  Ritase.nomor_siklus (penghitung_ritase st) = 1
  ∧ siklus_terakhir st = Ritase.nomor_siklus (penghitung_ritase st).
Proof.
  cbv zeta. split; [by vm_compute|].
  refine (proj2 (detector_loop_overlay_shows_cycle_credit 0.8%float 0.9%float _ _)).
  repeat constructor.
Defined.

End LoopDetectorSaksi.

Section LoopMain.

Import Main.

Lemma main_loop_bucket_passing i tb st :
  passing_detections st = Passing.total_passing (penghitung_passing st) →
  let st' := foldl (langkah_bucket_passing i) st tb in
  passing_detections st' = Passing.total_passing (penghitung_passing st').
Proof.
  revert st. induction tb as [|d tb IH]; intros st H; [done|].
  cbn [foldl]. cbv zeta in *. apply IH. unfold langkah_bucket_passing.
  pose proof (passing_total_selesaikan_proses (tl_tracker_id d) (tl_class_id d) i
                (tl_confidence d) (bool_decide (tl_class_id d = 1))
                (penghitung_passing st)) as Ht.
  cbv zeta in Ht.
  assert ((if bool_decide (tl_class_id d = 1)
           then Passing.selesaikan_siklus (tl_tracker_id d) (penghitung_passing st)
           else penghitung_passing st)
          = (if decide (tl_class_id d = 1)
             then Passing.selesaikan_siklus (tl_tracker_id d) (penghitung_passing st)
             else penghitung_passing st)) as Heq
    by (by destruct (decide (tl_class_id d = 1));
          [rewrite bool_decide_eq_true_2|rewrite bool_decide_eq_false_2]).
  rewrite Heq in Ht.
  destruct (Passing.proses_deteksi _ _ _ _ _) as [r pp]; cbn [fst snd] in *.
  cbn [penghitung_passing passing_detections]. destruct r; lia.
Qed.

(** X16. Under the loop of [src/main.py], which never resets the passing
    counter, after every frame [stats["passing_detections"]] equals
    [total_passing], the sum of the excavators' [passing_count]: the number
    the script reports is the number the counter holds. *)
Theorem main_loop_passing_stat_equals_total frames :
  let st := jalankan 0 frames awal in
  passing_detections st = Passing.total_passing (penghitung_passing st)
  ∧ passing_detections st
    = jumlah Passing.passing_count (Passing.excavators (penghitung_passing st)).
Proof.
  cbv zeta.
  assert (∀ i st,
            passing_detections st = Passing.total_passing (penghitung_passing st)
            ∧ passing_terjangkau 0.8 (penghitung_passing st) →
            passing_detections (jalankan i frames st)
            = Passing.total_passing (penghitung_passing (jalankan i frames st))
            ∧ passing_terjangkau 0.8 (penghitung_passing (jalankan i frames st)))
    as H.
  { induction frames as [|tb frames IH]; intros i st Hinv; [done|].
    cbn [jalankan]. apply IH. destruct Hinv as (Hpd & Hr).
    split; [by apply main_loop_bucket_passing|].
    unfold perbarui_penghitung. clear Hpd IH. revert st Hr.
    induction tb as [|d tb IHtb]; intros st Hr; [done|].
    cbn [foldl]. apply IHtb. unfold langkah_bucket_passing.
    assert (passing_terjangkau 0.8
              (if decide (tl_class_id d = 1)
               then Passing.selesaikan_siklus (tl_tracker_id d) (penghitung_passing st)
               else penghitung_passing st)) as Hr1.
    { destruct (decide _); [|done].
      apply (terjangkau_langkah _ (OpSelesaikanSiklus (tl_tracker_id d))), Hr. }
    pose proof (terjangkau_langkah _
                  (OpProsesDeteksi (tl_tracker_id d) (tl_class_id d) i (tl_confidence d))
                  _ Hr1) as Hr2.
    cbn [jalankan_passing] in Hr2.
    by destruct (Passing.proses_deteksi _ _ _ _ _). }
  destruct (H 0 awal) as (Hpd & Hr).
  { split; [done|apply terjangkau_init]. }
  split; [done|]. rewrite Hpd.
  apply (passing_terjangkau_konsisten 0.8%float), Hr.
Qed.

End LoopMain.

Section RitaseJumlah.

Import Ritase.

(** A method that keeps the flag, the best detection, [total_ritase] and every
    count keeps the agreement of the total with the counts. *)
Lemma jumlah_terjaga_sama self s :
  siklus_berjalan_punya_ritase s = siklus_berjalan_punya_ritase self →
  ritase_terbaik_di_siklus s = ritase_terbaik_di_siklus self →
  total_ritase s = total_ritase self →
  (∀ k, ritase_count <$> (data_truk s !! k) = ritase_count <$> (data_truk self !! k)) →
  hitungan_taknegatif self ∧ pemilik_terhitung self
  ∧ total_ritase self = jumlah_ritase self →
  hitungan_taknegatif s ∧ pemilik_terhitung s ∧ total_ritase s = jumlah_ritase s.
Proof.
  intros Hh Hb Ht Hc (Hn & Hp & Hj). split_and!.
  - unfold hitungan_taknegatif in *. eapply taknegatif_sama; [exact Hc|exact Hn].
  - intros Hs. rewrite Hh in Hs. destruct (Hp Hs) as (b & d & Hbb & Hd & H1).
    specialize (Hc (rt_tracker_id b)). rewrite Hd in Hc.
    destruct (data_truk s !! rt_tracker_id b) as [d'|] eqn:Hd'; [|done].
    injection Hc as Hc. exists b, d'. rewrite Hb. split_and!; [done|done|lia].
  - rewrite Ht, Hj. unfold jumlah_ritase. symmetry. by apply jumlah_sama.
Qed.

Lemma jumlah_terjaga_langkah op self :
  op ≠ OrResetCounters →
  hitungan_taknegatif self ∧ pemilik_terhitung self
  ∧ total_ritase self = jumlah_ritase self →
  let s := jalankan_ritase op self in
  hitungan_taknegatif s ∧ pemilik_terhitung s ∧ total_ritase s = jumlah_ritase s.
Proof.
  intros Hop H. cbv zeta.
  destruct op as [t cls f x|t|t f| |]; cbn [jalankan_ritase]; [| | |done|].
  - destruct (decide (cls = CLASS_BUCKET_DUMPING)) as [->|H2].
    + rewrite proses_deteksi_tutup. cbn [snd].
      pose proof (pastikan_truck_bendera t self) as (Hh1 & Hb1 & Ht1 & _).
      pose proof (selesaikan_siklus_global_punya (pastikan_truck t self)) as Hf.
      pose proof (selesaikan_siklus_global_total (pastikan_truck t self)) as (Htg & _).
      pose proof (selesaikan_siklus_global_tetap (pastikan_truck t self)) as Hcg.
      destruct H as (Hn & Hp & Hj). split_and!.
      * unfold hitungan_taknegatif. eapply taknegatif_sama; [exact Hcg|].
        by apply pastikan_truck_taknegatif.
      * intros Hs. by rewrite Hf in Hs.
      * rewrite Htg, Ht1, Hj, <-(pastikan_truck_jumlah t self).
        unfold jumlah_ritase. symmetry. by apply jumlah_sama.
    + destruct H as (Hn & Hp & Hj).
      destruct (langkah_terjaga_proses t cls f x self H2 Hn Hp)
        as (Hn' & Hp' & Hj' & Ht' & _).
      split_and!; [done|done|lia].
  - pose proof (selesaikan_siklus_tetap t self)
      as (_ & _ & Ht & _ & _ & Hh & Hb & _ & _ & _ & Hc).
    by apply (jumlah_terjaga_sama self).
  - unfold selesaikan_siklus_manual.
    destruct (data_truk self !! t) as [d|] eqn:Hd; [|done].
    match goal with |- context [selesaikan_siklus t ?s1] =>
      pose proof (selesaikan_siklus_tetap t s1)
        as (_ & _ & Ht & _ & _ & Hh & Hb & _ & _ & _ & Hc);
      apply (jumlah_terjaga_sama s1); [done|done|done|done|];
      apply (jumlah_terjaga_sama self); [by buka_setter|by buka_setter|by buka_setter| |done]
    end.
    buka_setter. intros k. destruct (decide (t = k)) as [<-|Hne].
    + by rewrite lookup_insert_eq, Hd.
    + by rewrite lookup_insert_ne.
  - unfold reset_statistik. split_and!.
    + intros k d Hd. cbn in Hd. by rewrite lookup_empty in Hd.
    + intros Hs. by cbn in Hs.
    + unfold jumlah_ritase. cbn. by rewrite jumlah_empty.
Qed.

(** X17. As long as [reset_counters] is not called, [total_ritase] is the sum
    of the trucks' [ritase_count]: [dapatkan_ritase_count()] is the sum of
    [dapatkan_ritase_count(t)] over the known trucks, each of which lies
    between 0 and the total, and the truck holding the cycle's best ritase
    has a count of at least 1. *)
Theorem ritase_total_is_sum_of_counts m ops :
  Forall (λ op, op ≠ OrResetCounters) ops →
  let self := jalankan_ritase_semua ops (Ritase.init m) in
  dapatkan_ritase_count None self = jumlah_ritase self
  ∧ (∀ k, 0 ≤ dapatkan_ritase_count (Some k) self
          ∧ dapatkan_ritase_count (Some k) self ≤ dapatkan_ritase_count None self)
  ∧ (∀ b, siklus_berjalan_punya_ritase self = true →
          ritase_terbaik_di_siklus self = Some b →
          1 ≤ dapatkan_ritase_count (Some (rt_tracker_id b)) self).
Proof.
  intros Hops. cbv zeta. unfold jalankan_ritase_semua.
  assert (∀ self,
            hitungan_taknegatif self ∧ pemilik_terhitung self
            ∧ total_ritase self = jumlah_ritase self →
            let s := foldl (λ s op, jalankan_ritase op s) self ops in
            hitungan_taknegatif s ∧ pemilik_terhitung s
            ∧ total_ritase s = jumlah_ritase s) as H.
  { induction Hops as [|op ops Hop Hops IH]; intros self Hinv; [done|].
    cbn [foldl]. apply IH. by apply jumlah_terjaga_langkah. }
  destruct (H (Ritase.init m)) as (Hn & Hp & Hj).
  { split_and!.
    - intros k d Hd. cbn in Hd. by rewrite lookup_empty in Hd.
    - intros Hs. by cbn in Hs.
    - unfold jumlah_ritase. cbn. by rewrite jumlah_empty. }
  set (s := foldl _ _ _) in *. cbn [dapatkan_ritase_count]. split_and!.
  - done.
  - intros k. destruct (data_truk s !! k) as [d|] eqn:Hd.
    + split; [by apply (Hn k d)|]. rewrite Hj. unfold jumlah_ritase.
      by apply (jumlah_batas ritase_count (data_truk s) k d).
    + split; [done|]. rewrite Hj. unfold jumlah_ritase. by apply jumlah_nonneg.
  - intros b Hs Hb. destruct (Hp Hs) as (b' & d & Hb' & Hd & H1).
    rewrite Hb in Hb'. injection Hb' as <-. by rewrite Hd.
Qed.

Lemma ritase_total_is_sum_of_counts_witness :
  let self :=
    jalankan_ritase_semua
      [OrProsesDeteksi 100 6 50 0.95; OrProsesDeteksi 101 6 55 0.97;
       OrProsesDeteksi 200 2 60 0.9; OrProsesDeteksi 100 6 70 0.92]
      (Ritase.init 0.9) in
  dapatkan_ritase_count None self = 2
  ∧ dapatkan_ritase_count None self = jumlah_ritase self.
Proof.
  cbv zeta. split; [by vm_compute|].
  refine (proj1 (ritase_total_is_sum_of_counts 0.9%float _ _)).
  repeat constructor; discriminate.
Defined.

End RitaseJumlah.

(** ** Identities and the seen-sets *)

Section JejakUmum.

Context {St Op : Type} (lihat : St → gset string)
  (panggilan : Op → St → option (string * bool)) (jalankan : Op → St → St)
  (boleh : Op → Prop).

Hypothesis naik : ∀ op s, boleh op → lihat s ⊆ lihat (jalankan op s).
Hypothesis terlihat :
  ∀ op s i r, panggilan op s = Some (i, r) → i ∈ lihat s → r = false.
Hypothesis masuk :
  ∀ op s i, panggilan op s = Some (i, true) → i ∈ lihat (jalankan op s).

Lemma jejak_terlihat ops s id :
  Forall boleh ops → id ∈ lihat s →
  kali_terhitung id (jejak panggilan jalankan ops s) = 0.
Proof.
  intros Hops. revert s. induction Hops as [|op ops Hop Hops IH]; intros s Hin; [done|].
  cbn [jejak]. assert (id ∈ lihat (jalankan op s)) as Hin' by (by apply naik).
  destruct (panggilan op s) as [[i r]|] eqn:Hp; [|by apply IH].
  cbn [kali_terhitung]. rewrite (IH _ Hin').
  destruct (decide (i = id)) as [->|Hne].
  - by rewrite (terlihat op s id r Hp Hin), andb_false_r.
  - by rewrite bool_decide_eq_false_2.
Qed.

Lemma jejak_sekali ops s id :
  Forall boleh ops →
  0 ≤ kali_terhitung id (jejak panggilan jalankan ops s)
  ∧ kali_terhitung id (jejak panggilan jalankan ops s) ≤ 1.
Proof.
  intros Hops. revert s. induction Hops as [|op ops Hop Hops IH]; intros s; [done|].
  cbn [jejak]. destruct (panggilan op s) as [[i r]|] eqn:Hp; [|by apply IH].
  cbn [kali_terhitung]. destruct (decide (i = id)) as [->|Hne].
  - rewrite bool_decide_eq_true_2 by done. cbn [andb]. destruct r.
    + by rewrite (jejak_terlihat ops _ id Hops (masuk op s id Hp)).
    + specialize (IH (jalankan op s)). lia.
  - rewrite bool_decide_eq_false_2 by done. cbn [andb].
    specialize (IH (jalankan op s)). lia.
Qed.

End JejakUmum.

Section IdentitasSekali.

Lemma passing_terlihat_ditolak self tid cls f c :
  buat_id tid f ∈ Passing.counted_dumps self →
  let r := Passing.proses_deteksi tid cls f c self in
  r.1 = false
  ∧ Passing.total_passing r.2 = Passing.total_passing self
  ∧ Passing.counted_dumps r.2 = Passing.counted_dumps self
  ∧ (∀ k, Passing.dapatkan_passing_count (Some k) r.2
          = Passing.dapatkan_passing_count (Some k) self).
Proof.
  intros Hin. cbv zeta.
  rewrite (proses_deteksi_ditolak tid cls f c self) by auto. cbn [fst snd].
  pose proof (ambil_excavator_tetap tid self) as (Hc & _ & Ht & _).
  split_and!; try done. intros k. apply ambil_excavator_count_sama.
Qed.

Lemma passing_true_masuk self tid cls f c :
  (Passing.proses_deteksi tid cls f c self).1 = true →
  buat_id tid f ∈ Passing.counted_dumps (Passing.proses_deteksi tid cls f c self).2.
Proof.
  intros Hr.
  destruct (decide (cls = Passing.CLASS_BUCKET_DUMPING)) as [->|Hcls];
    [destruct (decide (buat_id tid f ∈ Passing.counted_dumps self)) as [Hin|Hin];
     [|destruct (c <? Passing.min_confidence self)%float eqn:Hc]|].
  1,2,4: by rewrite (proses_deteksi_ditolak tid _ f c self) in Hr by auto.
  rewrite (proses_deteksi_diterima tid f c self Hin Hc).
  destruct (Passing.best_dump _); cbn [snd Passing.counted_dumps]; set_solver.
Qed.

Lemma passing_terlihat_naik op self :
  op ≠ OpResetAllCounters →
  Passing.counted_dumps self ⊆ Passing.counted_dumps (jalankan_passing op self).
Proof.
  intros Hop. destruct op as [tid cls f c|tid| | |]; cbn [jalankan_passing];
    [| |done|reflexivity|reflexivity].
  - destruct (decide (cls = Passing.CLASS_BUCKET_DUMPING)) as [->|Hcls];
      [destruct (decide (buat_id tid f ∈ Passing.counted_dumps self)) as [Hin|Hin];
       [|destruct (c <? Passing.min_confidence self)%float eqn:Hc]|].
    1,2,4: rewrite (proses_deteksi_ditolak tid _ f c self) by auto; cbn [snd];
      pose proof (ambil_excavator_tetap tid self) as (-> & _); reflexivity.
    rewrite (proses_deteksi_diterima tid f c self Hin Hc).
    destruct (Passing.best_dump _); cbn [snd Passing.counted_dumps]; set_solver.
  - by destruct (selesaikan_siklus_bingkai tid self) as (_ & -> & _).
Qed.

(** What a seen identity does to the ritase counter. *)
Lemma ritase_terlihat_ditolak self tid cls f c :
  buat_id tid f ∈ Ritase.truk_full_terhitung self →
  let r := Ritase.proses_deteksi tid cls f c self in
  r.1 = false
  ∧ Ritase.total_ritase r.2 = Ritase.total_ritase self
  ∧ Ritase.truk_full_terhitung r.2 = Ritase.truk_full_terhitung self
  ∧ (cls ≠ Ritase.CLASS_TRUCK_FULL
     ∨ Ritase.siklus_berjalan_punya_ritase self = false
     ∨ (∃ b, Ritase.ritase_terbaik_di_siklus self = Some b
             ∧ (Ritase.rt_confidence b <? c)%float = false) →
     ∀ k, Ritase.dapatkan_ritase_count (Some k) r.2
          = Ritase.dapatkan_ritase_count (Some k) self).
Proof.
  intros Hin. cbv zeta.
  pose proof (pastikan_truck_bendera tid self) as (Hh1 & Hb1 & Ht1 & Hs1).
  pose proof (pastikan_truck_count tid self) as Hc1.
  destruct (decide (cls = Ritase.CLASS_BUCKET_DUMPING)) as [->|H2].
  { rewrite proses_deteksi_tutup. cbn [fst snd].
    pose proof (selesaikan_siklus_global_total (Ritase.pastikan_truck tid self))
      as (Ht & Hs).
    split_and!; try congruence.
    intros _ k. rewrite <-Hc1.
    apply ritase_count_dari_fmap, selesaikan_siklus_global_tetap. }
  destruct (decide (cls = Ritase.CLASS_TRUCK_FULL)) as [->|H6].
  2: { rewrite (proses_deteksi_kelas_lain tid cls f c self H6 H2). cbn [fst snd].
       split_and!; try done. }
  destruct (Ritase.siklus_berjalan_punya_ritase self) eqn:Hh.
  - rewrite (proses_deteksi_ganda tid f c self Hh). cbn [fst snd].
    split_and!; try done.
    intros [?|[?|(b & Hb & Hlt)]]; [done|done|]. rewrite Hb, Hlt.
    intros k. rewrite <-Hc1. unfold Ritase.dapatkan_ritase_count. done.
  - rewrite (proses_deteksi_tak_dihitung tid f c self Hh) by auto.
    cbn [fst snd]. buka_setter. split_and!; try done.
Qed.

Lemma ritase_true_masuk self tid cls f c :
  (Ritase.proses_deteksi tid cls f c self).1 = true →
  buat_id tid f ∈ Ritase.truk_full_terhitung (Ritase.proses_deteksi tid cls f c self).2.
Proof.
  intros Hr.
  destruct (decide (cls = Ritase.CLASS_BUCKET_DUMPING)) as [->|H2];
    [by rewrite proses_deteksi_tutup in Hr|].
  destruct (decide (cls = Ritase.CLASS_TRUCK_FULL)) as [->|H6];
    [|by rewrite (proses_deteksi_kelas_lain tid cls f c self H6 H2) in Hr].
  destruct (Ritase.siklus_berjalan_punya_ritase self) eqn:Hh;
    [by rewrite (proses_deteksi_ganda tid f c self Hh) in Hr|].
  destruct (decide (buat_id tid f ∈ Ritase.truk_full_terhitung self)) as [Hin|Hin];
    [|destruct (Ritase.ambang_kepercayaan self <=? c)%float eqn:Hc].
  - by rewrite (proses_deteksi_tak_dihitung tid f c self Hh) in Hr by auto.
  - rewrite (proses_deteksi_pertama tid f c self Hh Hin Hc).
    cbn [snd Ritase.truk_full_terhitung]. set_solver.
  - by rewrite (proses_deteksi_tak_dihitung tid f c self Hh) in Hr by auto.
Qed.

Lemma ritase_terlihat_naik op self :
  op ≠ OrResetStatistik →
  Ritase.truk_full_terhitung self
  ⊆ Ritase.truk_full_terhitung (jalankan_ritase op self).
Proof.
  intros Hop. destruct op as [tid cls f c|tid|tid f| |]; cbn [jalankan_ritase];
    [| | |reflexivity|done].
  - pose proof (pastikan_truck_bendera tid self) as (_ & _ & _ & Hs1).
    destruct (decide (cls = Ritase.CLASS_BUCKET_DUMPING)) as [->|H2].
    { rewrite proses_deteksi_tutup. cbn [snd].
      destruct (selesaikan_siklus_global_total (Ritase.pastikan_truck tid self))
        as (_ & ->). by rewrite Hs1. }
    destruct (decide (cls = Ritase.CLASS_TRUCK_FULL)) as [->|H6].
    2: { rewrite (proses_deteksi_kelas_lain tid cls f c self H6 H2). cbn [snd].
         by rewrite Hs1. }
    destruct (Ritase.siklus_berjalan_punya_ritase self) eqn:Hh.
    { by rewrite (proses_deteksi_ganda tid f c self Hh). }
    destruct (decide (buat_id tid f ∈ Ritase.truk_full_terhitung self)) as [Hin|Hin];
      [|destruct (Ritase.ambang_kepercayaan self <=? c)%float eqn:Hc].
    + rewrite (proses_deteksi_tak_dihitung tid f c self Hh) by auto.
      cbn [snd]. buka_setter. by rewrite Hs1.
    + rewrite (proses_deteksi_pertama tid f c self Hh Hin Hc).
      cbn [snd Ritase.truk_full_terhitung]. set_solver.
    + rewrite (proses_deteksi_tak_dihitung tid f c self Hh) by auto.
      cbn [snd]. buka_setter. by rewrite Hs1.
  - by pose proof (selesaikan_siklus_tetap tid self) as (-> & _).
  - unfold Ritase.selesaikan_siklus_manual.
    destruct (Ritase.data_truk self !! tid); [|done].
    match goal with |- context [Ritase.selesaikan_siklus tid ?s1] =>
      pose proof (selesaikan_siklus_tetap tid s1) as (-> & _) end.
    by buka_setter.
Qed.

(** C3, as the code has it: a detection whose identity is already in the
    seen-set of a counter returns [False] and changes neither [total_passing]
    nor any [passing_count] (passing counter), nor [total_ritase] (ritase
    counter), and leaves the seen-set as it is; no truck's [ritase_count]
    changes either, unless the detection is a [truck_full] arriving in a
    cycle that already has a credited ritase with a confidence strictly above
    that of the cycle's best detection, where the swap does not consult the
    seen-set. A call adds to a total exactly when it returns [True], and
    every such call leaves the identity in the seen-set. So over any calls of
    the methods of a counter, save the one that empties its seen-set
    ([reset_all_counters], [reset_statistik]), at most one call of
    [proses_deteksi] per identity returns [True], and none does for an
    identity the seen-set held at the start. *)
Theorem seen_identity_never_adds_to_a_total :
  (∀ self tid cls f c,
     buat_id tid f ∈ Passing.counted_dumps self →
     let r := Passing.proses_deteksi tid cls f c self in
     r.1 = false
     ∧ Passing.total_passing r.2 = Passing.total_passing self
     ∧ Passing.counted_dumps r.2 = Passing.counted_dumps self
     ∧ (∀ k, Passing.dapatkan_passing_count (Some k) r.2
             = Passing.dapatkan_passing_count (Some k) self))
  ∧ (∀ self tid cls f c,
       buat_id tid f ∈ Ritase.truk_full_terhitung self →
       let r := Ritase.proses_deteksi tid cls f c self in
       r.1 = false
       ∧ Ritase.total_ritase r.2 = Ritase.total_ritase self
       ∧ Ritase.truk_full_terhitung r.2 = Ritase.truk_full_terhitung self
       ∧ (cls ≠ Ritase.CLASS_TRUCK_FULL
          ∨ Ritase.siklus_berjalan_punya_ritase self = false
          ∨ (∃ b, Ritase.ritase_terbaik_di_siklus self = Some b
                  ∧ (Ritase.rt_confidence b <? c)%float = false) →
          ∀ k, Ritase.dapatkan_ritase_count (Some k) r.2
               = Ritase.dapatkan_ritase_count (Some k) self))
  ∧ (∀ self tid cls f c,
       let r := Passing.proses_deteksi tid cls f c self in
       Passing.total_passing r.2
       = Passing.total_passing self + (if r.1 then 1 else 0))
  ∧ (∀ self tid cls f c,
       let r := Ritase.proses_deteksi tid cls f c self in
       Ritase.total_ritase r.2 = Ritase.total_ritase self + (if r.1 then 1 else 0))
  ∧ (∀ self tid cls f c,
       (Passing.proses_deteksi tid cls f c self).1 = true →
       buat_id tid f ∈ Passing.counted_dumps (Passing.proses_deteksi tid cls f c self).2)
  ∧ (∀ self tid cls f c,
       (Ritase.proses_deteksi tid cls f c self).1 = true →
       buat_id tid f
       ∈ Ritase.truk_full_terhitung (Ritase.proses_deteksi tid cls f c self).2)
  ∧ (∀ self ops id,
       Forall (λ op, op ≠ OpResetAllCounters) ops →
       let j := jejak panggilan_passing jalankan_passing ops self in
       0 ≤ kali_terhitung id j ∧ kali_terhitung id j ≤ 1
       ∧ (id ∈ Passing.counted_dumps self → kali_terhitung id j = 0))
  ∧ (∀ self ops id,
       Forall (λ op, op ≠ OrResetStatistik) ops →
       let j := jejak panggilan_ritase jalankan_ritase ops self in
       0 ≤ kali_terhitung id j ∧ kali_terhitung id j ≤ 1
       ∧ (id ∈ Ritase.truk_full_terhitung self → kali_terhitung id j = 0)).
Proof.
  assert (∀ op s i r, panggilan_passing op s = Some (i, r) →
                      i ∈ Passing.counted_dumps s → r = false) as Hpt.
  { intros [t c f x|t| | |] s i r [= <- <-] Hin.
    by destruct (passing_terlihat_ditolak s t c f x Hin) as (? & _). }
  assert (∀ op s i, panggilan_passing op s = Some (i, true) →
                    i ∈ Passing.counted_dumps (jalankan_passing op s)) as Hpm.
  { intros [t c f x|t| | |] s i [= <- Hr]. by apply passing_true_masuk. }
  assert (∀ op s i r, panggilan_ritase op s = Some (i, r) →
                      i ∈ Ritase.truk_full_terhitung s → r = false) as Hrt.
  { intros [t c f x|t|t f| |] s i r [= <- <-] Hin.
    by destruct (ritase_terlihat_ditolak s t c f x Hin) as (? & _). }
  assert (∀ op s i, panggilan_ritase op s = Some (i, true) →
                    i ∈ Ritase.truk_full_terhitung (jalankan_ritase op s)) as Hrm.
  { intros [t c f x|t|t f| |] s i [= <- Hr]. by apply ritase_true_masuk. }
  split_and!.
  - apply passing_terlihat_ditolak.
  - apply ritase_terlihat_ditolak.
  - intros; apply passing_total_naik_bila_true.
  - intros; apply ritase_total_naik_bila_true.
  - apply passing_true_masuk.
  - apply ritase_true_masuk.
  - intros self ops id Hops. cbv zeta.
    destruct (jejak_sekali Passing.counted_dumps panggilan_passing jalankan_passing
                (λ op, op ≠ OpResetAllCounters) passing_terlihat_naik Hpt Hpm
                ops self id Hops) as (H0 & H1).
    split_and!; [done|done|].
    by apply (jejak_terlihat Passing.counted_dumps panggilan_passing jalankan_passing
                (λ op, op ≠ OpResetAllCounters) passing_terlihat_naik Hpt).
  - intros self ops id Hops. cbv zeta.
    destruct (jejak_sekali Ritase.truk_full_terhitung panggilan_ritase jalankan_ritase
                (λ op, op ≠ OrResetStatistik) ritase_terlihat_naik Hrt Hrm
                ops self id Hops) as (H0 & H1).
    split_and!; [done|done|].
    by apply (jejak_terlihat Ritase.truk_full_terhitung panggilan_ritase
                jalankan_ritase (λ op, op ≠ OrResetStatistik)
                ritase_terlihat_naik Hrt).
Qed.

(** C3, as stated, fails on the ritase counter. Truck 100's detection at
    frame 50 is credited in the first cycle and its identity is in the
    seen-set; in the next cycle truck 300 is credited; feeding truck 100's
    detection of frame 50 again returns [False] but takes the credit over,
    so truck 100's count goes from 1 to 2 and truck 300's from 1 to 0. The
    swap that moves truck 200's count in the same way leaves the identity of
    its detection out of the seen-set, so not every path that credits a
    truck marks the identity: truck 200's detection at frame 51 takes the
    first cycle's credit by the swap and, fed again after the closing
    signal, is credited in the next cycle as well, which leaves truck 200
    with a count of 2 from one identity. And once the seen-set is emptied by
    [reset_all_counters], the passing counter returns [True] a second time
    for one identity. *)
Lemma ritase_seen_identity_moves_counts :
  let s :=
    (ritase_proses_semua
       [ {| tracker_id := 100; class_id := 6; frame_index := 50; confidence := 0.95 |};
         {| tracker_id := 200; class_id := 2; frame_index := 60; confidence := 0.9 |};
         {| tracker_id := 300; class_id := 6; frame_index := 70; confidence := 0.91 |} ]
       (Ritase.init 0.9)).2 in
  let r := Ritase.proses_deteksi 100 6 50 0.95 s in
  let r' := Ritase.proses_deteksi 200 6 71 0.97 s in
  let t :=
    ritase_proses_semua
      [ {| tracker_id := 100; class_id := 6; frame_index := 50; confidence := 0.95 |};
        {| tracker_id := 200; class_id := 6; frame_index := 51; confidence := 0.97 |};
        {| tracker_id := 300; class_id := 2; frame_index := 60; confidence := 0.9 |};
        {| tracker_id := 200; class_id := 6; frame_index := 51; confidence := 0.97 |} ]
      (Ritase.init 0.9) in
  (buat_id 100 50 ∈ Ritase.truk_full_terhitung s
   ∧ Ritase.dapatkan_ritase_count (Some 100) s = 1
   ∧ Ritase.dapatkan_ritase_count (Some 300) s = 1
   ∧ r.1 = false
   ∧ Ritase.dapatkan_ritase_count (Some 100) r.2 = 2
   ∧ Ritase.dapatkan_ritase_count (Some 300) r.2 = 0
   ∧ Ritase.dapatkan_ritase_count (Some 200) r'.2 = 1
   ∧ buat_id 200 71 ∉ Ritase.truk_full_terhitung r'.2)
  ∧ (t.1 = [true; false; false; true]
     ∧ Ritase.dapatkan_ritase_count (Some 200) t.2 = 2
     ∧ Ritase.dapatkan_ritase_count (Some 100) t.2 = 0
     ∧ Ritase.total_ritase t.2 = 2)
  ∧ kali_terhitung (buat_id 1 10)
      (jejak panggilan_passing jalankan_passing
         [ OpProsesDeteksi 1 2 10 0.81; OpResetAllCounters;
           OpProsesDeteksi 1 2 10 0.81 ] (Passing.init 0.8)) = 2.
Proof.
  cbv zeta.
  split_and!; first [by vm_compute|apply (bool_decide_unpack _); by vm_compute].
Qed.

Lemma seen_identity_never_adds_to_a_total_witness :
  let p := (Passing.proses_deteksi 1 2 10 0.81 (Passing.init 0.8)).2 in
  let s := (Ritase.proses_deteksi 100 6 50 0.95 (Ritase.init 0.9)).2 in
  (buat_id 1 10 ∈ Passing.counted_dumps p
   ∧ (Passing.proses_deteksi 1 2 10 0.81 p).1 = false
   ∧ Passing.total_passing (Passing.proses_deteksi 1 2 10 0.81 p).2
     = Passing.total_passing p)
  ∧ (buat_id 100 50 ∈ Ritase.truk_full_terhitung s
     ∧ (Ritase.proses_deteksi 100 6 50 0.95 s).1 = false
     ∧ Ritase.total_ritase (Ritase.proses_deteksi 100 6 50 0.95 s).2
       = Ritase.total_ritase s
     ∧ ∀ k, Ritase.dapatkan_ritase_count (Some k)
              (Ritase.proses_deteksi 100 6 50 0.95 s).2
            = Ritase.dapatkan_ritase_count (Some k) s)
  ∧ kali_terhitung (buat_id 1 10)
      (jejak panggilan_passing jalankan_passing
         [ OpProsesDeteksi 1 2 10 0.81; OpSelesaikanSiklus 1;
           OpProsesDeteksi 1 2 10 0.81 ] (Passing.init 0.8)) ≤ 1
  ∧ kali_terhitung (buat_id 200 51)
      (jejak panggilan_ritase jalankan_ritase
         [ OrProsesDeteksi 100 6 50 0.95; OrProsesDeteksi 200 6 51 0.97;
           OrResetCounters; OrProsesDeteksi 300 2 60 0.9;
           OrProsesDeteksi 200 6 51 0.97; OrProsesDeteksi 200 6 51 0.97 ]
         (Ritase.init 0.9)) ≤ 1.
Proof.
  cbv zeta.
  destruct seen_identity_never_adds_to_a_total
    as (Hp & Hr & _ & _ & Hp' & Hr' & Hjp & Hjr).
  split; [|split; [|split]].
  - assert (buat_id 1 10
              ∈ Passing.counted_dumps
                  (Passing.proses_deteksi 1 2 10 0.81 (Passing.init 0.8)).2) as Hin.
    { apply (Hp' (Passing.init 0.8) 1 2 10 0.81%float). by vm_compute. }
    destruct (Hp _ 1 2 10 0.81%float Hin) as (H1 & H2 & _).
    exact (conj Hin (conj H1 H2)).
  - assert (buat_id 100 50
              ∈ Ritase.truk_full_terhitung
                  (Ritase.proses_deteksi 100 6 50 0.95 (Ritase.init 0.9)).2) as Hin.
    { apply (Hr' (Ritase.init 0.9) 100 6 50 0.95%float). by vm_compute. }
    destruct (Hr _ 100 6 50 0.95%float Hin) as (H1 & H2 & _ & H4).
    refine (conj Hin (conj H1 (conj H2 (H4 _)))).
    right; right.
    exists {| Ritase.rt_tracker_id := 100; Ritase.rt_frame_index := 50;
              Ritase.rt_confidence := 0.95; Ritase.rt_cycle_number := 0 |}.
    split; by vm_compute.
  - refine (proj1 (proj2 (Hjp (Passing.init 0.8) _ (buat_id 1 10) _))).
    repeat constructor; discriminate.
  - refine (proj1 (proj2 (Hjr (Ritase.init 0.9) _ (buat_id 200 51) _))).
    repeat constructor; discriminate.
Defined.

End IdentitasSekali.
